(** * GitHub -> Discord bridge: webhook authentication, event dispatch and
      the chat commands, embedded from the Python sources

    - [webhook_server.py]: [verify_signature], [handle_webhook] and the
      seven [handle_*_event] functions;
    - [utils/formatters.py]: the [MessageFormatter] routines;
    - [utils/github_api.py]: the [GitHubAPI] wrapper;
    - [bot.py]: the six slash commands.

    Python values are modelled as they are at run time: a [str] is the
    list of its code points, [bytes] a list of [byte], a parsed JSON
    payload a tree of dynamically typed values. An operation that can raise
    in Python returns a [result]; a function that also logs, hashes, reads
    the request or answers the chat client returns in the monad [M], which
    records these effects in order. [hashlib] and [hmac] are modelled by
    SHA-256 and HMAC themselves, checked against published test vectors. *)

From Stdlib Require Import String Ascii ZArith NArith List Bool Lia.
From Stdlib.Strings Require Import Byte.
From Stdlib Require Import DecimalString Floats FinFun.
Import ListNotations.

Local Open Scope Z_scope.

(** ** Python strings *)

(** A Python [str]: the sequence of its Unicode code points. *)
Definition str := list N.

(** A source literal such as ['sha256='], written [lit "sha256="]. *)
Definition lit (s : string) : str :=
  map N_of_ascii (list_ascii_of_string s).

Fixpoint str_eqb (a b : str) : bool :=
  match a, b with
  | [], [] => true
  | x :: a', y :: b' => N.eqb x y && str_eqb a' b'
  | _, _ => false
  end.

(** [s.startswith(prefix)] *)
Fixpoint startswith (s prefix : str) {struct prefix} : bool :=
  match prefix, s with
  | [], _ => true
  | p :: prefix', c :: s' => N.eqb c p && startswith s' prefix'
  | _ :: _, [] => false
  end.

(** [s.split(sep)] for a one-character separator: the pieces between the
    occurrences of [sep], in order; never the empty list. *)
Fixpoint split (sep : N) (s : str) : list str :=
  match s with
  | [] => [[]]
  | c :: s' =>
      if N.eqb c sep then [] :: split sep s'
      else match split sep s' with
           | piece :: rest => (c :: piece) :: rest
           | [] => [[c]]
           end
  end.

(** [s[:n]] *)
Definition slice_to (n : nat) (s : str) : str := firstn n s.

Definition CHAR_EQ : N := 61.      (* '=' *)
Definition CHAR_SLASH : N := 47.   (* '/' *)
Definition CHAR_NL : N := 10.      (* '\n' *)

(** [str.isascii()] *)
Definition isascii (s : str) : bool := forallb (fun c => N.ltb c 128) s.

(** [str(n)] for a Python [int]. *)
Definition str_of_int (n : Z) : str :=
  lit (NilZero.string_of_int (Z.to_int n)).

(** ** SHA-256 and HMAC, as [hashlib.sha256] and [hmac.new] compute them
    (FIPS 180-4 and RFC 2104). Words and bytes are [Z] reduced modulo
    [2^32] and [2^8]. *)
Module SHA256.

Definition add32 (x y : Z) : Z := (x + y) mod 2 ^ 32.

Definition rotr (n x : Z) : Z :=
  Z.lor (Z.shiftr x n) ((Z.shiftl x (32 - n)) mod 2 ^ 32).

Definition Ch (x y z : Z) : Z :=
  Z.lxor (Z.land x y) (Z.land (Z.lxor x 4294967295) z).

Definition Maj (x y z : Z) : Z :=
  Z.lxor (Z.lxor (Z.land x y) (Z.land x z)) (Z.land y z).

Definition Sum0 (x : Z) : Z := Z.lxor (Z.lxor (rotr 2 x) (rotr 13 x)) (rotr 22 x).
Definition Sum1 (x : Z) : Z := Z.lxor (Z.lxor (rotr 6 x) (rotr 11 x)) (rotr 25 x).
Definition sig0 (x : Z) : Z := Z.lxor (Z.lxor (rotr 7 x) (rotr 18 x)) (Z.shiftr x 3).
Definition sig1 (x : Z) : Z := Z.lxor (Z.lxor (rotr 17 x) (rotr 19 x)) (Z.shiftr x 10).

(** Round constants, in decimal. *)
Definition K : list Z :=
  [ 1116352408; 1899447441; 3049323471; 3921009573; 961987163; 1508970993;
    2453635748; 2870763221; 3624381080; 310598401; 607225278; 1426881987;
    1925078388; 2162078206; 2614888103; 3248222580; 3835390401; 4022224774;
    264347078; 604807628; 770255983; 1249150122; 1555081692; 1996064986;
    2554220882; 2821834349; 2952996808; 3210313671; 3336571891; 3584528711;
    113926993; 338241895; 666307205; 773529912; 1294757372; 1396182291;
    1695183700; 1986661051; 2177026350; 2456956037; 2730485921; 2820302411;
    3259730800; 3345764771; 3516065817; 3600352804; 4094571909; 275423344;
    430227734; 506948616; 659060556; 883997877; 958139571; 1322822218;
    1537002063; 1747873779; 1955562222; 2024104815; 2227730452; 2361852424;
    2428436474; 2756734187; 3204031479; 3329325298 ].

(** The eight working variables / the chaining value. *)
Record state : Type := State {
  ha : Z; hb : Z; hc : Z; hd : Z; he : Z; hf : Z; hg : Z; hh : Z
}.

Definition H0 : state :=
  State 1779033703 3144134277 1013904242 2773480762
        1359893119 2600822924 528734635 1541459225.

(** Big-endian bytes of a 32-bit word, and of a 64-bit length. *)
Definition word_bytes (x : Z) : list Z :=
  [ (x / 2 ^ 24) mod 256; (x / 2 ^ 16) mod 256; (x / 2 ^ 8) mod 256; x mod 256 ].

Definition length_bytes (x : Z) : list Z :=
  word_bytes (x / 2 ^ 32) ++ word_bytes x.

Definition pad (msg : list Z) : list Z :=
  let l := Z.of_nat (length msg) in
  msg ++ [128] ++ repeat 0 (Z.to_nat ((55 - l) mod 64)) ++ length_bytes (8 * l).

Fixpoint words (bs : list Z) : list Z :=
  match bs with
  | b3 :: b2 :: b1 :: b0 :: rest =>
      (b3 * 2 ^ 24 + b2 * 2 ^ 16 + b1 * 2 ^ 8 + b0) :: words rest
  | _ => []
  end.

(** Message schedule; [recent] holds the words computed so far, newest
    first, so that W(t-2), W(t-7), W(t-15), W(t-16) sit at 1, 6, 14, 15. *)
Fixpoint expand (n : nat) (recent : list Z) : list Z :=
  match n with
  | O => recent
  | S n' =>
      let wt := add32 (add32 (sig1 (nth 1 recent 0)) (nth 6 recent 0))
                      (add32 (sig0 (nth 14 recent 0)) (nth 15 recent 0)) in
      expand n' (wt :: recent)
  end.

Definition schedule (block : list Z) : list Z := rev (expand 48 (rev block)).

Definition round (s : state) (kw : Z * Z) : state :=
  let (k, w) := kw in
  let t1 := add32 (add32 (add32 (hh s) (Sum1 (he s))) (Ch (he s) (hf s) (hg s)))
                  (add32 k w) in
  let t2 := add32 (Sum0 (ha s)) (Maj (ha s) (hb s) (hc s)) in
  State (add32 t1 t2) (ha s) (hb s) (hc s) (add32 (hd s) t1) (he s) (hf s) (hg s).

Definition compress (h : state) (block : list Z) : state :=
  let s := fold_left round (combine K (schedule block)) h in
  State (add32 (ha h) (ha s)) (add32 (hb h) (hb s)) (add32 (hc h) (hc s))
        (add32 (hd h) (hd s)) (add32 (he h) (he s)) (add32 (hf h) (hf s))
        (add32 (hg h) (hg s)) (add32 (hh h) (hh s)).

(** Absorb [n] blocks of sixteen words. *)
Fixpoint absorb (n : nat) (h : state) (ws : list Z) : state :=
  match n with
  | O => h
  | S n' => absorb n' (compress h (firstn 16 ws)) (skipn 16 ws)
  end.

Definition state_bytes (s : state) : list Z :=
  word_bytes (ha s) ++ word_bytes (hb s) ++ word_bytes (hc s) ++
  word_bytes (hd s) ++ word_bytes (he s) ++ word_bytes (hf s) ++
  word_bytes (hg s) ++ word_bytes (hh s).

Definition final_state (msg : list Z) : state :=
  let ws := words (pad msg) in
  absorb (Nat.div (length ws) 16) H0 ws.

(** [hashlib.sha256(msg).digest()] on a message given as byte values. *)
Definition digest (msg : list Z) : list Z := state_bytes (final_state msg).

End SHA256.

Module HMAC.

Definition BLOCK_SIZE : nat := 64.

Definition byte_val (b : byte) : Z := Z.of_N (Byte.to_N b).

(** Keys longer than a block are hashed first; the key is then padded
    with zeros to the block size. *)
Definition block_key (key : list Z) : list Z :=
  let k := if Nat.ltb BLOCK_SIZE (length key) then SHA256.digest key else key in
  k ++ repeat 0 (BLOCK_SIZE - length k).

Definition final_state (key msg : list byte) : SHA256.state :=
  let k := block_key (map byte_val key) in
  let inner := SHA256.digest (map (Z.lxor 54) k ++ map byte_val msg) in
  SHA256.final_state (map (Z.lxor 92) k ++ inner).

(** [hmac.new(key, msg, hashlib.sha256).digest()] *)
Definition digest (key msg : list byte) : list Z :=
  SHA256.state_bytes (final_state key msg).

Definition HEX_DIGITS : str := lit "0123456789abcdef".

Definition hex_digit (n : Z) : N := nth (Z.to_nat (n mod 16)) HEX_DIGITS 48%N.

(** [bytes.hex()] *)
Definition hex (bs : list Z) : str :=
  flat_map (fun b => [hex_digit (b / 16); hex_digit b]) bs.

(** [hmac.new(key, msg, hashlib.sha256).hexdigest()] *)
Definition hexdigest (key msg : list byte) : str := hex (digest key msg).

End HMAC.

(** [s.encode()] for an ASCII literal, to write test inputs. *)
Definition ascii_bytes (s : string) : list byte :=
  map byte_of_ascii (list_ascii_of_string s).

(** ** Dynamically typed values: a parsed JSON payload *)

(** What [request.json] yields: [None], [bool], [int], [float], [str],
    [list] and [dict] with string keys (its items, keys distinct). *)
#[local] Set Warnings "-register-all".
Inductive json : Type :=
| JNull
| JBool (b : bool)
| JInt (n : Z)
| JFloat (f : float)
| JStr (s : str)
| JList (items : list json)
| JDict (items : list (str * json)).

(** Python truthiness, as tested by [if x:] and [not x]. *)
Definition truthy (v : json) : bool :=
  match v with
  | JNull => false
  | JBool b => b
  | JInt n => negb (Z.eqb n 0)
  | JFloat f => negb (PrimFloat.eqb f 0%float)
  | JStr s => negb (Nat.eqb (List.length s) 0)
  | JList l => negb (Nat.eqb (List.length l) 0)
  | JDict d => negb (Nat.eqb (List.length d) 0)
  end.

(** [v == 'literal'] *)
Definition eq_str (v : json) (s : str) : bool :=
  match v with
  | JStr t => str_eqb t s
  | _ => false
  end.

(** [v in ['a', 'b', ...]] *)
Definition in_strs (v : json) (l : list str) : bool := existsb (eq_str v) l.

Fixpoint lookup (k : str) (d : list (str * json)) : option json :=
  match d with
  | [] => None
  | (k', v) :: d' => if str_eqb k' k then Some v else lookup k d'
  end.

(** ** Exceptions *)

Inductive exn : Type :=
| KeyError
| IndexError
| TypeError
| AttributeError
| UnicodeEncodeError
| HTTPException (code : Z)   (* raised by the web framework itself *)
| GithubException            (* raised by the hosting-platform client *)
| ConnectionError.           (* any other failure of an upstream call *)

Inductive result (A : Type) : Type :=
| Ok (a : A)
| Raise (e : exn).
Arguments Ok {A} a.
Arguments Raise {A} e.

Definition rbind {A B} (r : result A) (f : A -> result B) : result B :=
  match r with
  | Ok a => f a
  | Raise e => Raise e
  end.

Declare Scope res_scope.
Delimit Scope res_scope with res.
Notation "x <- r ;; k" := (rbind r (fun x => k))
  (at level 61, r at next level, right associativity) : res_scope.

(** [v[key]] with a string key: only a [dict] can be subscripted so. *)
Definition getitem (v : json) (key : string) : result json :=
  match v with
  | JDict d => match lookup (lit key) d with
               | Some x => Ok x
               | None => Raise KeyError
               end
  | _ => Raise TypeError
  end.

(** [v.get(key, default)]; [v.get(key)] is [get v key JNull]. *)
Definition get (v : json) (key : string) (default : json) : result json :=
  match v with
  | JDict d => match lookup (lit key) d with
               | Some x => Ok x
               | None => Ok default
               end
  | _ => Raise AttributeError
  end.

(** [v[0]] *)
Definition getitem0 (v : json) : result json :=
  match v with
  | JList (x :: _) => Ok x
  | JStr (c :: _) => Ok (JStr [c])
  | JList [] | JStr [] => Raise IndexError
  | JDict _ => Raise KeyError
  | _ => Raise TypeError
  end.

(** [len(v)] *)
Definition len (v : json) : result nat :=
  match v with
  | JStr s => Ok (List.length s)
  | JList l => Ok (List.length l)
  | JDict d => Ok (List.length d)
  | _ => Raise TypeError
  end.

(** The receiver of a [str] method such as [.split] or [.capitalize]. *)
Definition as_str (v : json) : result str :=
  match v with
  | JStr s => Ok s
  | _ => Raise AttributeError
  end.

(** [l[i]] on a Python list. *)
Definition index {A} (l : list A) (i : nat) : result A :=
  match nth_error l i with
  | Some x => Ok x
  | None => Raise IndexError
  end.

(** [l[-1]] *)
Definition index_last {A} (l : list A) : result A :=
  match rev l with
  | x :: _ => Ok x
  | [] => Raise IndexError
  end.

(** Substring test, [sub in s] on two [str]. *)
Fixpoint substring_of (sub s : str) : bool :=
  startswith s sub ||
  match s with
  | [] => false
  | _ :: s' => substring_of sub s'
  end.

(** ['key' in v] *)
Definition contains (v : json) (key : string) : result bool :=
  match v with
  | JDict d => Ok (match lookup (lit key) d with Some _ => true | None => false end)
  | JList l => Ok (existsb (fun x => eq_str x (lit key)) l)
  | JStr s => Ok (substring_of (lit key) s)
  | _ => Raise TypeError
  end.

(** ** Rendered text *)

(** The pieces of a formatted string. [str(v)] of a [float], [list] or
    [dict], and the case mapping of non-ASCII text, are kept symbolic;
    everything else is the literal characters. *)
Inductive piece : Type :=
| Lit (s : str)
| StrOf (v : json)
| Capitalized (s : str)
| StrOfExn (e : exn).

Definition text := list piece.

(** [str(v)] inside an f-string or an embed field. *)
Definition str_of (v : json) : piece :=
  match v with
  | JStr s => Lit s
  | JInt n => Lit (str_of_int n)
  | JBool true => Lit (lit "True")
  | JBool false => Lit (lit "False")
  | JNull => Lit (lit "None")
  | _ => StrOf v
  end.

(** An f-string: its pieces in order, adjacent literals joined. *)
Fixpoint fstring (ps : list piece) : text :=
  match ps with
  | [] => []
  | Lit a :: ps' =>
      match fstring ps' with
      | Lit b :: t => Lit (a ++ b) :: t
      | t => match a with [] => t | _ => Lit a :: t end
      end
  | p :: ps' => p :: fstring ps'
  end.

Definition upper (c : N) : N := if (97 <=? c)%N && (c <=? 122)%N then (c - 32)%N else c.
Definition lower (c : N) : N := if (65 <=? c)%N && (c <=? 90)%N then (c + 32)%N else c.

(** [s.capitalize()] *)
Definition capitalize (s : str) : piece :=
  if isascii s then
    match s with
    | [] => Lit []
    | c :: s' => Lit (upper c :: map lower s')
    end
  else Capitalized s.

(** ** Embeds *)

Record Field : Type := mkField {
  field_name : text;
  field_value : text;
  field_inline : bool
}.

(** A [discord.Embed], with the attributes the formatters set. *)
Record Embed : Type := mkEmbed {
  title : text;
  description : option text;
  color : Z;
  url : option text;
  timestamp : option Z;
  fields : list Field;
  footer : option text
}.

(** [embed.add_field(name=..., value=..., inline=...)] *)
Definition add_field (e : Embed) (name value : text) (inl : bool) : Embed :=
  mkEmbed (title e) (description e) (color e) (url e) (timestamp e)
          (fields e ++ [mkField name value inl]) (footer e).

(** [embed.set_footer(text=...)] *)
Definition set_footer (e : Embed) (t : text) : Embed :=
  mkEmbed (title e) (description e) (color e) (url e) (timestamp e)
          (fields e) (Some t).

(** The [url=] argument: [None] stays [None], anything else is [str]'d. *)
Definition url_of (v : json) : option text :=
  match v with
  | JNull => None
  | _ => Some [str_of v]
  end.

(** The value of the first field called [name], if any. *)
Definition field_named (name : string) (e : Embed) : option text :=
  match filter (fun f => match field_name f with
                         | [Lit n] => str_eqb n (lit name)
                         | _ => false
                         end) (fields e) with
  | f :: _ => Some (field_value f)
  | [] => None
  end.

(** ** Effects: what a call does besides returning *)

Inductive level : Type := INFO | WARNING | ERROR.

(** What a command answers with: an embed or a plain message. *)
Inductive reply : Type :=
| ReplyEmbed (e : Embed)
| ReplyText (msg : text).

Inductive effect : Type :=
| Log (lv : level) (msg : text)            (* logger.info / warning / error *)
| HmacNew (key msg : list byte)             (* hmac.new(key, msg, sha256) *)
| RequestJson                               (* request.json is evaluated *)
| Submit (e : Embed)                        (* run_coroutine_threadsafe(
                                               discord_bot.send_notification(e), loop)
                                               has returned its future *)
| Defer                                     (* interaction.response.defer() *)
| Followup (r : reply) (ephemeral : bool)   (* interaction.followup.send(...) *)
| SendMessage (r : reply) (ephemeral : bool).  (* interaction.response.send_message(...) *)

(** A computation: the effects it performed, in order, and how it ended. *)
Definition M (A : Type) : Type := (list effect * result A)%type.

Definition ret {A} (a : A) : M A := ([], Ok a).
Definition raise {A} (e : exn) : M A := ([], Raise e).
Definition lift {A} (r : result A) : M A := ([], r).
Definition emit (ev : effect) : M unit := ([ev], Ok tt).
Definition log (lv : level) (msg : text) : M unit := emit (Log lv msg).

Definition bind {A B} (m : M A) (f : A -> M B) : M B :=
  match m with
  | (t, Ok a) => let (t', r) := f a in (t ++ t', r)
  | (t, Raise e) => (t, Raise e)
  end.

(** [try: m  except Exception as e: handler e] *)
Definition try_except {A} (m : M A) (handler : exn -> M A) : M A :=
  match m with
  | (t, Ok a) => (t, Ok a)
  | (t, Raise e) => let (t', r) := handler e in (t ++ t', r)
  end.

Definition trace {A} (m : M A) : list effect := fst m.
Definition outcome {A} (m : M A) : result A := snd m.

Declare Scope m_scope.
Delimit Scope m_scope with M.
Notation "x <- m ;; k" := (bind m (fun x => k))
  (at level 61, m at next level, right associativity) : m_scope.
Notation "m ;; k" := (bind m (fun _ => k))
  (at level 61, right associativity) : m_scope.

Definition is_log (ev : effect) : bool :=
  match ev with Log _ _ => true | _ => false end.

(** ** webhook_server.py: [verify_signature] *)

(** [hmac.compare_digest(a, b)] on two [str]: defined on ASCII-only
    strings, where it is equality; any other [str] raises [TypeError]. *)
Definition compare_digest (a b : str) : result bool :=
  if isascii a && isascii b then Ok (str_eqb a b) else Raise TypeError.

(** [hmac.new(secret, payload, hashlib.sha256).hexdigest()] *)
Definition hmac_hexdigest (secret payload : list byte) : M str :=
  (emit (HmacNew secret payload) ;; ret (HMAC.hexdigest secret payload))%M.

(** [verify_signature], given the bytes of the secret: [secret] is the
    value of [Config.GITHUB_WEBHOOK_SECRET.encode('utf-8')], [signature] is
    the header value, [None] when the header is absent. The encoding
    itself, which the source performs after the two early returns and
    which can raise, is part of [verify_signature_configured] below. *)
Definition verify_signature (secret payload : list byte) (signature : option str)
  : M bool :=
  match signature with
  | None | Some [] =>
      (log WARNING [Lit (lit "No signature provided in webhook request")] ;;
       ret false)%M
  | Some signature =>
      if negb (startswith signature (lit "sha256=")) then
        (log WARNING [Lit (lit "Invalid signature format")] ;;
         ret false)%M
      else
        (received_hash <- lift (index (split CHAR_EQ signature) 1) ;;
         expected_hash <- hmac_hexdigest secret payload ;;
         is_valid <- lift (compare_digest expected_hash received_hash) ;;
         (if negb is_valid
          then log WARNING [Lit (lit "Webhook signature validation failed")]
          else ret tt) ;;
         ret is_valid)%M
  end.

(** [str.encode('utf-8')]. A code point of the surrogate range, which a
    [str] holds when an undecodable byte of the environment was read with
    [surrogateescape], cannot be encoded. (A Python [str] has no code point
    above U+10FFFF.) *)
Definition is_surrogate (c : N) : bool := N.leb 55296 c && N.leb c 57343.

Definition byte_of_N (n : N) : byte :=
  match Byte.of_N (n mod 256) with
  | Some b => b
  | None => x00
  end.

Definition utf8 (c : N) : list byte :=
  (if c <? 128 then [byte_of_N c]
   else if c <? 2048 then [byte_of_N (192 + c / 64); byte_of_N (128 + c mod 64)]
   else if c <? 65536 then
     [byte_of_N (224 + c / 4096); byte_of_N (128 + (c / 64) mod 64);
      byte_of_N (128 + c mod 64)]
   else
     [byte_of_N (240 + c / 262144); byte_of_N (128 + (c / 4096) mod 64);
      byte_of_N (128 + (c / 64) mod 64); byte_of_N (128 + c mod 64)])%N.

Fixpoint encode_utf8 (s : str) : result (list byte) :=
  match s with
  | [] => Ok []
  | c :: s' =>
      if is_surrogate c then Raise UnicodeEncodeError
      else
        match encode_utf8 s' with
        | Ok bytes => Ok (utf8 c ++ bytes)
        | Raise e => Raise e
        end
  end.

(** [Config.GITHUB_WEBHOOK_SECRET.encode('utf-8')], the configured value
    being [None] when the variable is not set. *)
Definition encode_secret (GITHUB_WEBHOOK_SECRET : option str) : result (list byte) :=
  match GITHUB_WEBHOOK_SECRET with
  | Some s => encode_utf8 s
  | None => Raise AttributeError
  end.

(** [verify_signature] as the source has it, from the configured secret:
    the secret is encoded after the two early returns and after the
    signature has been split. *)
Definition verify_signature_configured (GITHUB_WEBHOOK_SECRET : option str)
    (payload : list byte) (signature : option str) : M bool :=
  match signature with
  | None | Some [] =>
      (log WARNING [Lit (lit "No signature provided in webhook request")] ;;
       ret false)%M
  | Some signature =>
      if negb (startswith signature (lit "sha256=")) then
        (log WARNING [Lit (lit "Invalid signature format")] ;;
         ret false)%M
      else
        (received_hash <- lift (index (split CHAR_EQ signature) 1) ;;
         secret <- lift (encode_secret GITHUB_WEBHOOK_SECRET) ;;
         expected_hash <- hmac_hexdigest secret payload ;;
         is_valid <- lift (compare_digest expected_hash received_hash) ;;
         (if negb is_valid
          then log WARNING [Lit (lit "Webhook signature validation failed")]
          else ret tt) ;;
         ret is_valid)%M
  end.

(** The header GitHub sends for [payload] under [secret]. *)
Definition sign (secret payload : list byte) : str :=
  lit "sha256=" ++ HMAC.hexdigest secret payload.

(** All strings of length [n] over an alphabet. *)
Fixpoint words_over (alphabet : list N) (n : nat) : list str :=
  match n with
  | O => [[]]
  | S n' => flat_map (fun c => map (cons c) (words_over alphabet n')) alphabet
  end.

(** ** What the hosting-platform client hands back *)

(** A lazily fetched [PaginatedList]: iterating it yields the items until
    the pages end or a request fails. *)
Inductive paginated (A : Type) : Type :=
| PEnd
| PItem (a : A) (rest : paginated A)
| PFail (e : exn).
Arguments PEnd {A}.
Arguments PItem {A} a rest.
Arguments PFail {A} e.

(** [for x in items: out.append(body(x))] *)
Fixpoint for_each {A B} (items : paginated A) (body : A -> result B)
  : result (list B) :=
  match items with
  | PEnd => Ok []
  | PItem a rest =>
      (b <- body a ;; bs <- for_each rest body ;; Ok (b :: bs))%res
  | PFail e => Raise e
  end.

(** [items[:n]], still lazy: nothing after the [n]-th item is fetched. *)
Fixpoint ptake {A} (n : nat) (items : paginated A) : paginated A :=
  match n, items with
  | S n', PItem a rest => PItem a (ptake n' rest)
  | S _, PFail e => PFail e
  | _, _ => PEnd
  end.

Record Review : Type := mkReview {
  review_user_login : str;
  review_state : str
}.

(** A [PullRequest] object; datetimes are in seconds. *)
Record PullRequest : Type := mkPullRequest {
  pull_number : Z;
  pull_title : str;
  pull_user_login : str;
  pull_head_ref : str;
  pull_base_ref : str;
  pull_html_url : str;
  pull_state : str;
  pull_created_at : Z;
  pull_get_reviews : paginated Review;
  pull_changed_files : Z;
  pull_additions : Z;
  pull_deletions : Z;
  pull_body : option str;
  pull_mergeable : option bool;
  pull_merged : bool
}.

Record Commit : Type := mkCommit {
  commit_sha : str;
  commit_message : str;
  commit_author_name : str;
  commit_author_date : Z;
  commit_html_url : str
}.

Record Branch : Type := mkBranch {
  branch_name : str;
  branch_protected : bool
}.

(** The repository as the client answers for it. *)
Record Repository : Type := mkRepository {
  repo_get_pulls : paginated PullRequest;       (* get_pulls(state='open', ...) *)
  repo_get_pull : Z -> result PullRequest;      (* get_pull(number) *)
  repo_get_commits : str -> paginated Commit;   (* get_commits(sha=branch) *)
  repo_get_branches : paginated Branch;         (* get_branches() *)
  repo_commits_since_today : result Z;          (* get_commits(since=today).totalCount *)
  repo_open_pulls_count : result Z;             (* get_pulls(state='open').totalCount *)
  repo_open_issues_count : result Z;            (* get_issues(state='open').totalCount *)
  repo_branches_count : result Z;               (* get_branches().totalCount *)
  repo_full_name : str;
  repo_default_branch : str
}.

(** The dictionaries the wrapper builds. *)
Record PRInfo : Type := mkPRInfo {
  pr_number : Z;
  pr_title : str;
  pr_author : str;
  pr_branch : str;
  pr_url : str;
  pr_created_at : Z;
  pr_age : str;
  pr_reviewers : list (str * str);
  pr_state : str
}.

Record PRDetail : Type := mkPRDetail {
  prd_info : PRInfo;
  prd_files_changed : Z;
  prd_additions : Z;
  prd_deletions : Z;
  prd_body : str;
  prd_mergeable : option bool;
  prd_merged : bool
}.

Record CommitInfo : Type := mkCommitInfo {
  ci_sha : str;
  ci_message : str;
  ci_author : str;
  ci_date : Z;
  ci_url : str
}.

Record BranchInfo : Type := mkBranchInfo {
  bi_name : str;
  bi_protected : bool
}.

Record RepositoryStatus : Type := mkRepositoryStatus {
  st_repo_name : str;
  st_commits_today : Z;
  st_open_prs : Z;
  st_open_issues : Z;
  st_branches : Z;
  st_default_branch : str
}.

(** [sep.join(pieces)] *)
Fixpoint join (sep : str) (pieces : list str) : str :=
  match pieces with
  | [] => []
  | [p] => p
  | p :: rest => p ++ sep ++ join sep rest
  end.

(** [d[k] = v] on a dictionary kept in insertion order. *)
Fixpoint dict_set (d : list (str * str)) (k v : str) : list (str * str) :=
  match d with
  | [] => [(k, v)]
  | (k', v') :: d' =>
      if str_eqb k' k then (k', v) :: d' else (k', v') :: dict_set d' k v
  end.

(** ** utils/formatters.py: [MessageFormatter] *)

Module MessageFormatter.

Local Open Scope res_scope.

Definition COLOR_BLUE : Z := 0x0366d6.
Definition COLOR_GREEN : Z := 0x28a745.
Definition COLOR_RED : Z := 0xd73a49.
Definition COLOR_PURPLE : Z := 0x6f42c1.
Definition COLOR_ORANGE : Z := 0xfb8500.

Definition L (s : string) : piece := Lit (lit s).

(** [now] is the reading of [datetime.utcnow()]. *)
Definition format_commit_notification (now : Z) (payload : json) : result Embed :=
  ref_v <- getitem payload "ref" ;;
  ref_s <- as_str ref_v ;;
  ref <- index_last (split CHAR_SLASH ref_s) ;;
  commits <- getitem payload "commits" ;;
  pusher_d <- getitem payload "pusher" ;;
  pusher <- getitem pusher_d "name" ;;
  repository <- getitem payload "repository" ;;
  repo_name <- getitem repository "name" ;;
  compare_url <- getitem payload "compare" ;;
  shown <-
    (if truthy commits then
       commit <- getitem0 commits ;;
       message_v <- getitem commit "message" ;;
       message_s <- as_str message_v ;;
       first_line <- index (split CHAR_NL message_s) 0 ;;
       author_d <- getitem commit "author" ;;
       author <- getitem author_d "name" ;;
       commit_url <- getitem commit "url" ;;
       Ok (slice_to 100 first_line, author, commit_url)
     else
       Ok (lit "No commit message", pusher, compare_url)) ;;
  let '(message, author, commit_url) := shown in
  n <- len commits ;;
  let embed :=
    mkEmbed (fstring [L "New Commit"; L (if Nat.ltb 1 n then "s" else "");
                      L " to `"; Lit ref; L "`"])
            (Some (fstring [L "**"; Lit message; L "**"]))
            COLOR_BLUE (url_of compare_url) (Some now) [] None in
  let embed := add_field embed [L "Author"] [str_of author] true in
  let embed := add_field embed [L "Branch"] (fstring [L "`"; Lit ref; L "`"]) true in
  let embed := add_field embed [L "Commits"] [Lit (str_of_int (Z.of_nat n))] true in
  Ok (set_footer embed (fstring [str_of repo_name])).

Definition format_pull_request_notification (now : Z) (payload : json)
  : result Embed :=
  action <- getitem payload "action" ;;
  pr <- getitem payload "pull_request" ;;
  pr_number <- getitem pr "number" ;;
  pr_title <- getitem pr "title" ;;
  user <- getitem pr "user" ;;
  author <- getitem user "login" ;;
  head <- getitem pr "head" ;;
  head_ref <- getitem head "ref" ;;
  base <- getitem pr "base" ;;
  base_ref <- getitem base "ref" ;;
  let branch := fstring [str_of head_ref; L " -> "; str_of base_ref] in
  pr_url <- getitem pr "html_url" ;;
  merged <- get pr "merged" (JBool false) ;;
  styling <-
    (if eq_str action (lit "opened") then
       Ok ("", [L "Awaiting Review"], COLOR_BLUE)
     else if eq_str action (lit "closed") && truthy merged then
       Ok ("", [L "Merged"], COLOR_PURPLE)
     else if eq_str action (lit "closed") then
       Ok ("", [L "Closed"], COLOR_RED)
     else if eq_str action (lit "reopened") then
       Ok ("", [L "Reopened"], COLOR_ORANGE)
     else
       a <- as_str action ;;
       Ok ("", [capitalize a], COLOR_BLUE))%string ;;
  let '(emoji, status, colour) := styling in
  a <- as_str action ;;
  let embed :=
    mkEmbed (fstring [L emoji; L " Pull Request #"; str_of pr_number; L " ";
                      capitalize a])
            (Some (fstring [L "**"; str_of pr_title; L "**"]))
            colour (url_of pr_url) (Some now) [] None in
  let embed := add_field embed [L "Author"] [str_of author] true in
  let embed := add_field embed [L "Status"] status true in
  let embed := add_field embed [L "Branch"] (fstring ([L "`"] ++ branch ++ [L "`"])) false in
  if truthy merged then
    has_merger <- contains pr "merged_by" ;;
    if has_merger then
      merged_by <- getitem pr "merged_by" ;;
      if truthy merged_by then
        merger <- getitem merged_by "login" ;;
        Ok (add_field embed [L "Merged by"] [str_of merger] true)
      else Ok embed
    else Ok embed
  else Ok embed.

(** [comment[:197] + "..."]: only a [str] can be sliced and then joined
    to a [str]. *)
Definition truncate_comment (comment : json) : result json :=
  match comment with
  | JStr s => Ok (JStr (firstn 197 s ++ lit "..."))
  | _ => Raise TypeError
  end.

Definition format_review_notification (now : Z) (payload : json) : result Embed :=
  review <- getitem payload "review" ;;
  pr <- getitem payload "pull_request" ;;
  pr_number <- getitem pr "number" ;;
  pr_title <- getitem pr "title" ;;
  user <- getitem review "user" ;;
  reviewer <- getitem user "login" ;;
  state <- getitem review "state" ;;
  body <- getitem review "body" ;;
  let comment := if truthy body then body else JStr (lit "No comment provided") in
  review_url <- getitem review "html_url" ;;
  let '(emoji, status, colour) :=
    (if eq_str state (lit "approved") then ("", "Approved", COLOR_GREEN)
     else if eq_str state (lit "changes_requested") then
       ("", "Changes Requested", COLOR_RED)
     else ("", "Commented", COLOR_BLUE))%string in
  let embed :=
    mkEmbed (fstring [L emoji; L " Review on PR #"; str_of pr_number])
            (Some (fstring [L "**"; str_of pr_title; L "**"]))
            colour (url_of review_url) (Some now) [] None in
  let embed := add_field embed [L "Reviewer"] [str_of reviewer] true in
  let embed := add_field embed [L "Status"] [L status] true in
  n <- len comment ;;
  comment <- (if Nat.ltb 200 n then truncate_comment comment else Ok comment) ;;
  Ok (add_field embed [L "Comment"] [str_of comment] false).

Definition format_issue_notification (now : Z) (payload : json) : result Embed :=
  action <- getitem payload "action" ;;
  issue <- getitem payload "issue" ;;
  issue_number <- getitem issue "number" ;;
  issue_title <- getitem issue "title" ;;
  user <- getitem issue "user" ;;
  author <- getitem user "login" ;;
  issue_url <- getitem issue "html_url" ;;
  let '(emoji, colour) :=
    (if eq_str action (lit "opened") then ("", COLOR_GREEN)
     else if eq_str action (lit "closed") then ("", COLOR_RED)
     else ("", COLOR_BLUE))%string in
  a <- as_str action ;;
  let embed :=
    mkEmbed (fstring [L emoji; L " Issue #"; str_of issue_number; L " ";
                      capitalize a])
            (Some (fstring [L "**"; str_of issue_title; L "**"]))
            colour (url_of issue_url) (Some now) [] None in
  Ok (add_field embed [L "Author"] [str_of author] true).

Definition format_branch_notification (now : Z) (payload : json) (deleted : bool)
  : result Embed :=
  ref_type <- get payload "ref_type" (JStr (lit "branch")) ;;
  ref <- get payload "ref" (JStr (lit "unknown")) ;;
  sender_d <- getitem payload "sender" ;;
  sender <- getitem sender_d "login" ;;
  let '(emoji, action, colour) :=
    (if deleted then ("", "Deleted", COLOR_RED)
     else ("", "Created", COLOR_GREEN))%string in
  rt <- as_str ref_type ;;
  let embed :=
    mkEmbed (fstring [L emoji; L " "; capitalize rt; L " "; L action])
            (Some (fstring [L "**`"; str_of ref; L "`**"]))
            colour None (Some now) [] None in
  Ok (add_field embed [L "By"] [str_of sender] true).

(** An embed with a title, a colour, and what else is passed. *)
Definition new_embed (ttl : text) (desc : option text) (colour : Z)
    (link : option text) (stamp : option Z) : Embed :=
  mkEmbed ttl desc colour link stamp [] None.

Definition add_fields (e : Embed) (fs : list Field) : Embed :=
  fold_left (fun e f => add_field e (field_name f) (field_value f) (field_inline f))
            fs e.

Definition reviewer_with_state (rs : str * str) : str :=
  let (reviewer, state) := rs in
  if str_eqb state (lit "APPROVED") then reviewer ++ lit " "
  else if str_eqb state (lit "CHANGES_REQUESTED") then reviewer ++ lit " "
  else reviewer ++ lit " ".

Definition pr_list_field (pr : PRInfo) : Field :=
  let reviewers_text :=
    match pr_reviewers pr with
    | [] => []
    | reviewers =>
        [CHAR_NL] ++ lit "Reviewers: "
        ++ join (lit ", ") (map reviewer_with_state reviewers)
    end in
  mkField
    [Lit (lit "PR #" ++ str_of_int (pr_number pr) ++ lit ": "
          ++ slice_to 50 (pr_title pr))]
    [Lit (lit "Author: " ++ pr_author pr ++ lit " | Age: " ++ pr_age pr
          ++ [CHAR_NL] ++ lit "Branch: `" ++ pr_branch pr ++ lit "`"
          ++ reviewers_text)]
    false.

Definition format_pr_list (now : Z) (prs : list PRInfo) : Embed :=
  match prs with
  | [] =>
      new_embed [L "Open Pull Requests"] (Some [L "No open pull requests found."])
                COLOR_BLUE None None
  | _ =>
      let n := Z.of_nat (List.length prs) in
      let embed :=
        new_embed [Lit (lit "Open Pull Requests (" ++ str_of_int n ++ lit ")")]
                  None COLOR_BLUE None (Some now) in
      let embed := add_fields embed (map pr_list_field (firstn 10 prs)) in
      if Nat.ltb 10 (List.length prs) then
        set_footer embed
          [Lit (lit "Showing 10 of " ++ str_of_int n ++ lit " pull requests")]
      else embed
  end.

Definition reviewer_in_detail (rs : str * str) : str :=
  let (reviewer, state) := rs in
  if str_eqb state (lit "APPROVED") then lit " " ++ reviewer
  else if str_eqb state (lit "CHANGES_REQUESTED") then lit " " ++ reviewer
  else lit " " ++ reviewer.

Definition changes_text (additions deletions files_changed : Z) : text :=
  [Lit (lit "+" ++ str_of_int additions ++ lit " -" ++ str_of_int deletions
        ++ lit " (" ++ str_of_int files_changed ++ lit " files)")].

Definition format_pr_detail (now : Z) (pr : PRDetail) : Embed :=
  let info := prd_info pr in
  let '(colour, status) :=
    (if prd_merged pr then (COLOR_PURPLE, " Merged")
     else if str_eqb (pr_state info) (lit "closed") then (COLOR_RED, " Closed")
     else (COLOR_BLUE, " Open - Awaiting Review"))%string in
  let embed :=
    new_embed [Lit (lit "PR #" ++ str_of_int (pr_number info) ++ lit ": "
                    ++ pr_title info)]
              (Some [Lit (if Nat.ltb 200 (List.length (prd_body pr))
                          then slice_to 200 (prd_body pr) ++ lit "..."
                          else prd_body pr)])
              colour (Some [Lit (pr_url info)]) (Some now) in
  let embed := add_field embed [L "Author"] [Lit (pr_author info)] true in
  let embed := add_field embed [L "Status"] [L status] true in
  let embed := add_field embed [L "Age"] [Lit (pr_age info)] true in
  let embed := add_field embed [L "Branch"]
                 [Lit (lit "`" ++ pr_branch info ++ lit "`")] false in
  let embed := add_field embed [L "Changes"]
                 (changes_text (prd_additions pr) (prd_deletions pr)
                               (prd_files_changed pr)) true in
  match pr_reviewers info with
  | [] => embed
  | reviewers =>
      add_field embed [L "Reviewers"]
        [Lit (join [CHAR_NL] (map reviewer_in_detail reviewers))] true
  end.

Definition format_commit_list (now : Z) (commits : list CommitInfo) (branch : str)
  : Embed :=
  let ttl := [Lit (lit "Recent Commits on `" ++ branch ++ lit "`")] in
  match commits with
  | [] => new_embed ttl (Some [L "No commits found."]) COLOR_BLUE None None
  | _ =>
      add_fields (new_embed ttl None COLOR_BLUE None (Some now))
        (map (fun c =>
                mkField [Lit (lit "`" ++ ci_sha c ++ lit "` - " ++ ci_author c)]
                        [Lit (slice_to 100 (ci_message c))] false)
             commits)
  end.

Definition format_repository_status (now : Z) (st : RepositoryStatus) : Embed :=
  let embed :=
    new_embed [Lit (lit "Repository Status - " ++ st_repo_name st)] None
              COLOR_GREEN None (Some now) in
  let embed := add_field embed [L " Today's Activity"]
                 [Lit (str_of_int (st_commits_today st) ++ lit " commits")] true in
  let embed := add_field embed [L " Open PRs"]
                 [Lit (str_of_int (st_open_prs st))] true in
  let embed := add_field embed [L " Open Issues"]
                 [Lit (str_of_int (st_open_issues st))] true in
  let embed := add_field embed [L " Active Branches"]
                 [Lit (str_of_int (st_branches st))] true in
  add_field embed [L " Default Branch"]
    [Lit (lit "`" ++ st_default_branch st ++ lit "`")] true.

(** [[text[i:i+size] for i in range(0, len(text), size)]]; [n] bounds the
    number of chunks. *)
Fixpoint chunks {A} (n size : nat) (l : list A) : list (list A) :=
  match n, l with
  | S n', _ :: _ => firstn size l :: chunks n' size (skipn size l)
  | _, _ => []
  end.

Definition ZERO_WIDTH_SPACE : N := 8203.

Definition format_branch_list (now : Z) (branches : list BranchInfo) : Embed :=
  match branches with
  | [] =>
      new_embed [L "Active Branches"] (Some [L "No branches found."])
                COLOR_BLUE None None
  | _ =>
      let n := Z.of_nat (List.length branches) in
      let embed :=
        new_embed [Lit (lit "Active Branches (" ++ str_of_int n ++ lit ")")]
                  None COLOR_GREEN None (Some now) in
      let branch_text :=
        map (fun b => lit "`" ++ bi_name b ++ lit "`"
                      ++ (if bi_protected b then lit " " else []))
            (firstn 25 branches) in
      let embed :=
        add_fields embed
          (map (fun chunk => mkField [Lit [ZERO_WIDTH_SPACE]]
                                     [Lit (join [CHAR_NL] chunk)] true)
               (chunks (List.length branch_text) 10 branch_text)) in
      if Nat.ltb 25 (List.length branches) then
        set_footer embed
          [Lit (lit "Showing 25 of " ++ str_of_int n ++ lit " branches")]
      else embed
  end.

End MessageFormatter.

(** ** webhook_server.py: the event handlers *)

Import MessageFormatter.

Local Open Scope m_scope.

Definition handle_push_event (now : Z) (payload : json) : M (option Embed) :=
  commits <- lift (get payload "commits" JNull) ;;
  if negb (truthy commits) then ret None
  else
    embed <- lift (format_commit_notification now payload) ;;
    ref <- lift (getitem payload "ref") ;;
    log INFO (fstring [L "Processed push event for "; str_of ref]) ;;
    ret (Some embed).

Definition handle_pull_request_event (now : Z) (payload : json) : M (option Embed) :=
  action <- lift (getitem payload "action") ;;
  if negb (in_strs action [lit "opened"; lit "closed"; lit "reopened"]) then ret None
  else
    embed <- lift (format_pull_request_notification now payload) ;;
    log INFO (fstring [L "Processed pull_request event: "; str_of action]) ;;
    ret (Some embed).

Definition handle_review_event (now : Z) (payload : json) : M (option Embed) :=
  action <- lift (getitem payload "action") ;;
  if negb (eq_str action (lit "submitted")) then ret None
  else
    embed <- lift (format_review_notification now payload) ;;
    log INFO [L "Processed pull_request_review event"] ;;
    ret (Some embed).

Definition handle_review_comment_event (now : Z) (payload : json)
  : M (option Embed) :=
  action <- lift (getitem payload "action") ;;
  if negb (eq_str action (lit "created")) then ret None
  else
    log INFO [L "Skipped pull_request_review_comment event (to avoid spam)"] ;;
    ret None.

Definition handle_issue_event (now : Z) (payload : json) : M (option Embed) :=
  action <- lift (getitem payload "action") ;;
  if negb (in_strs action [lit "opened"; lit "closed"; lit "reopened"]) then ret None
  else
    embed <- lift (format_issue_notification now payload) ;;
    log INFO (fstring [L "Processed issues event: "; str_of action]) ;;
    ret (Some embed).

Definition handle_create_event (now : Z) (payload : json) : M (option Embed) :=
  ref_type <- lift (get payload "ref_type" JNull) ;;
  if negb (eq_str ref_type (lit "branch")) then ret None
  else
    embed <- lift (format_branch_notification now payload false) ;;
    log INFO (fstring [L "Processed create event: "; str_of ref_type]) ;;
    ret (Some embed).

Definition handle_delete_event (now : Z) (payload : json) : M (option Embed) :=
  ref_type <- lift (get payload "ref_type" JNull) ;;
  if negb (eq_str ref_type (lit "branch")) then ret None
  else
    embed <- lift (format_branch_notification now payload true) ;;
    log INFO (fstring [L "Processed delete event: "; str_of ref_type]) ;;
    ret (Some embed).

(** ** webhook_server.py: [handle_webhook] *)

(** The inbound request: [request.data] (the bytes of the body as the
    framework exposes them, which is the raw body of a JSON delivery and
    is empty when the framework has parsed a form-encoded body), the
    headers, and what evaluating [request.json] yields (the framework's
    parse of the body; it can also abort the request with an
    [HTTPException]). *)
Record Request : Type := mkRequest {
  data : list byte;
  headers : list (str * str);
  request_json : result json
}.

(** [request.headers.get(name)]: header names compare case-insensitively. *)
Definition headers_get (request : Request) (name : string) : option str :=
  match filter (fun h => str_eqb (map lower (fst h)) (map lower (lit name)))
               (headers request) with
  | h :: _ => Some (snd h)
  | [] => None
  end.

(** The process-wide state the handler reads. [hand_off] is what the call
    [asyncio.run_coroutine_threadsafe(discord_bot.send_notification(embed),
    discord_bot.loop)] does when it is made: it returns the future, or it
    raises, as it does while the chat client's loop is not running yet
    (the web server's thread is started before the client). *)
Record World : Type := mkWorld {
  GITHUB_WEBHOOK_SECRET : list byte;  (* Config.GITHUB_WEBHOOK_SECRET.encode('utf-8') *)
  discord_bot : bool;                 (* the global [discord_bot] is not [None] *)
  hand_off : result unit;             (* asyncio.run_coroutine_threadsafe(...) *)
  utcnow : Z                          (* datetime.utcnow() *)
}.

(** [(jsonify(body), status)] *)
Record Response : Type := mkResponse {
  body : json;
  status : Z
}.

Definition jsonify (key value : string) : json := JDict [(lit key, JStr (lit value))].

Definition RESPONSE_SUCCESS : Response := mkResponse (jsonify "status" "success") 200.
Definition RESPONSE_INVALID_SIGNATURE : Response :=
  mkResponse (jsonify "error" "Invalid signature") 401.
Definition RESPONSE_NO_EVENT_TYPE : Response :=
  mkResponse (jsonify "error" "No event type") 400.
Definition RESPONSE_NO_PAYLOAD : Response :=
  mkResponse (jsonify "error" "No payload") 400.
Definition RESPONSE_INTERNAL_ERROR : Response :=
  mkResponse (jsonify "error" "Internal server error") 500.

(** The [if]/[elif] chain on the event type. *)
Definition dispatch_event (now : Z) (event_type : str) (payload : json)
  : M (option Embed) :=
  if str_eqb event_type (lit "push") then handle_push_event now payload
  else if str_eqb event_type (lit "pull_request") then
    handle_pull_request_event now payload
  else if str_eqb event_type (lit "pull_request_review") then
    handle_review_event now payload
  else if str_eqb event_type (lit "pull_request_review_comment") then
    handle_review_comment_event now payload
  else if str_eqb event_type (lit "issues") then handle_issue_event now payload
  else if str_eqb event_type (lit "create") then handle_create_event now payload
  else if str_eqb event_type (lit "delete") then handle_delete_event now payload
  else
    log INFO (fstring [L "Unhandled event type: "; Lit event_type]) ;;
    ret None.

(** The [try] block around the dispatch, with its [except Exception]. *)
Definition process_event (w : World) (event_type : str) (payload : json)
  : M Response :=
  try_except
    (embed <- dispatch_event (utcnow w) event_type payload ;;
     match embed with
     | Some e =>
         if discord_bot w then lift (hand_off w) ;; emit (Submit e) else ret tt
     | None => ret tt
     end ;;
     ret RESPONSE_SUCCESS)
    (fun e =>
       log ERROR (fstring [L "Error processing webhook: "; StrOfExn e]) ;;
       ret RESPONSE_INTERNAL_ERROR).

(** An exception that leaves [handle_webhook] is an unhandled fault of the
    view function; the model ends in [Raise]. *)
Definition handle_webhook (w : World) (request : Request) : M Response :=
  let signature := headers_get request "X-Hub-Signature-256" in
  verified <- verify_signature (GITHUB_WEBHOOK_SECRET w) (data request) signature ;;
  if negb verified then
    log ERROR [L "Webhook signature verification failed"] ;;
    ret RESPONSE_INVALID_SIGNATURE
  else
    match headers_get request "X-GitHub-Event" with
    | None | Some [] =>
        log ERROR [L "No event type in webhook request"] ;;
        ret RESPONSE_NO_EVENT_TYPE
    | Some event_type =>
        payload <- (emit RequestJson ;; lift (request_json request)) ;;
        if negb (truthy payload) then
          log ERROR [L "No payload in webhook request"] ;;
          ret RESPONSE_NO_PAYLOAD
        else
          log INFO (fstring [L "Received "; Lit event_type; L " event from GitHub"]) ;;
          process_event w event_type payload
    end.

(** ** The classification table and the payload schemas *)

(** The embeds a computation handed to the chat client. *)
Definition submitted (t : list effect) : list Embed :=
  flat_map (fun ev => match ev with Submit e => [e] | _ => [] end) t.

(** A field of the payload, when the payload is an object that has it. *)
Definition field (payload : json) (key : string) : option json :=
  match payload with
  | JDict d => lookup (lit key) d
  | _ => None
  end.

Definition field_is (payload : json) (key : string) (values : list string) : bool :=
  match field payload key with
  | Some v => in_strs v (map lit values)
  | None => false
  end.

(** Modelled from the spec's words (section 4.2, the table of event type,
    condition on the payload and outcome): [true] on the rows whose outcome
    is a notification, [false] on every other row. *)
Definition handled (event_type : str) (payload : json) : bool :=
  if str_eqb event_type (lit "push") then
    match field payload "commits" with
    | Some (JList (_ :: _)) => true
    | _ => false
    end
  else if str_eqb event_type (lit "pull_request") then
    field_is payload "action" ["opened"; "closed"; "reopened"]%string
  else if str_eqb event_type (lit "pull_request_review") then
    field_is payload "action" ["submitted"]%string
  else if str_eqb event_type (lit "pull_request_review_comment") then false
  else if str_eqb event_type (lit "issues") then
    field_is payload "action" ["opened"; "closed"; "reopened"]%string
  else if str_eqb event_type (lit "create") then
    field_is payload "ref_type" ["branch"]%string
  else if str_eqb event_type (lit "delete") then
    field_is payload "ref_type" ["branch"]%string
  else false.

(** Schema checks: the fields GitHub's payload for an event carries, as
    far as the handler and its formatter read them. *)
Definition has (v : json) (key : string) : bool :=
  match field v key with Some _ => true | None => false end.

Definition has_str (v : json) (key : string) : bool :=
  match field v key with Some (JStr _) => true | _ => false end.

Definition has_in (v : json) (key1 key2 : string) : bool :=
  match field v key1 with Some x => has x key2 | None => false end.

Definition is_dict (v : json) : bool :=
  match v with JDict _ => true | _ => false end.

Definition commit_schema (commit : json) : bool :=
  has_str commit "message" && has_in commit "author" "name" && has commit "url".

Definition push_schema (payload : json) : bool :=
  is_dict payload &&
  match field payload "commits" with
  | None | Some JNull | Some (JList []) => true
  | Some (JList (commit :: _)) =>
      commit_schema commit && has_str payload "ref" &&
      has_in payload "pusher" "name" && has_in payload "repository" "name" &&
      has payload "compare"
  | Some _ => false
  end.

(** [merged_by] is read only when [merged] is true; it may be absent or
    null, and is otherwise an object with a [login]. *)
Definition merged_by_schema (pr : json) : bool :=
  match field pr "merged" with
  | Some merged =>
      if truthy merged then
        match field pr "merged_by" with
        | Some merged_by => negb (truthy merged_by) || has merged_by "login"
        | None => true
        end
      else true
  | None => true
  end.

Definition pull_request_schema (payload : json) : bool :=
  has payload "action" &&
  (if field_is payload "action" ["opened"; "closed"; "reopened"]%string then
     match field payload "pull_request" with
     | Some pr =>
         has pr "number" && has pr "title" && has_in pr "user" "login" &&
         has_in pr "head" "ref" && has_in pr "base" "ref" && has pr "html_url" &&
         merged_by_schema pr
     | None => false
     end
   else true).





(** A request that passes the three checks in front of the dispatch. *)
Definition accepted (w : World) (request : Request) (event_type : str)
    (payload : json) : Prop :=
  outcome (verify_signature (GITHUB_WEBHOOK_SECRET w) (data request)
             (headers_get request "X-Hub-Signature-256")) = Ok true /\
  headers_get request "X-GitHub-Event" = Some event_type /\
  event_type <> [] /\
  request_json request = Ok payload /\
  truthy payload = true.

(** Test inputs: JSON objects and requests signed with the world's secret. *)
Definition S_ (s : string) : json := JStr (lit s).
Definition D_ (items : list (string * json)) : json :=
  JDict (map (fun kv => (lit (fst kv), snd kv)) items).

Definition signed_request (w : World) (raw : list byte) (event_type : string)
    (parsed : json) : Request :=
  mkRequest raw
    [(lit "X-Hub-Signature-256", sign (GITHUB_WEBHOOK_SECRET w) raw);
     (lit "X-GitHub-Event", lit event_type)]
    (Ok parsed).

Definition DQUOTE : string := String (ascii_of_nat 34) EmptyString.

(** Sample payloads, shaped as GitHub sends them. *)
Definition SAMPLE_WORLD : World :=
  mkWorld (ascii_bytes "s3cret") true (Ok tt) 1700000000.

(** The same world while the chat client has not started its loop: the
    hand-off call raises. *)
Definition STARTING_WORLD : World :=
  mkWorld (ascii_bytes "s3cret") true (Raise AttributeError) 1700000000.

Definition sample_commit (message : string) : json :=
  D_ [("message", S_ message);
      ("author", D_ [("name", S_ "alice")]);
      ("url", S_ "https://github.com/o/r/commit/1")]%string.

Definition sample_push (commits : list json) : json :=
  D_ [("ref", S_ "refs/heads/main");
      ("commits", JList commits);
      ("pusher", D_ [("name", S_ "bob")]);
      ("repository", D_ [("name", S_ "r")]);
      ("compare", S_ "https://github.com/o/r/compare/a...b")]%string.

Definition sample_pull_request (action : string) (merged : bool) : json :=
  D_ [("action", S_ action);
      ("pull_request",
       D_ [("number", JInt 7);
           ("title", S_ "Add feature");
           ("user", D_ [("login", S_ "alice")]);
           ("head", D_ [("ref", S_ "feature")]);
           ("base", D_ [("ref", S_ "main")]);
           ("html_url", S_ "https://github.com/o/r/pull/7");
           ("merged", JBool merged)])]%string.

(** [pr.get('merged', False)] *)
Definition merged_flag (pr : json) : json :=
  match field pr "merged" with
  | Some merged => merged
  | None => JBool false
  end.

(** Whether a handler produced a notification. *)
Definition notifies (r : option Embed) : bool :=
  match r with Some _ => true | None => false end.

(** The text of a JSON string literal, for raw request bodies. *)
Definition quoted (s : string) : string := (DQUOTE ++ s ++ DQUOTE)%string.


(** A signed [create] delivery without [ref_type]: [{"ref": "feature-x"}]. *)
Definition CREATE_WITHOUT_REF_TYPE : Request :=
  signed_request SAMPLE_WORLD
    (ascii_bytes ("{" ++ quoted "ref" ++ ": " ++ quoted "feature-x" ++ "}"))
    "create"
    (D_ [("ref", S_ "feature-x")]%string).

(** A signed [push] delivery of two commits. *)
Definition PUSH_OF_TWO_COMMITS : Request :=
  signed_request SAMPLE_WORLD (ascii_bytes "(the raw JSON text of the payload)")
    "push"
    (sample_push [sample_commit "Fix the parser"; sample_commit "Add tests"]).

(** A delivery whose signature header is [sha256=] followed by the single
    character U+00E9, as the byte 0xE9 in the header line decodes. *)
Definition NON_ASCII_SIGNATURE : Request :=
  mkRequest (ascii_bytes "{}")
    [(lit "X-Hub-Signature-256", lit "sha256=" ++ [233%N]);
     (lit "X-GitHub-Event", lit "push")]
    (Ok (sample_push [])).

(** A step into a payload: the value under a key of an object, or the
    first element of a list. *)
Inductive step : Type :=
| Key (k : string)
| First.

(** The value at the end of a path; [None] where a key is absent, the list
    is empty, or the value reached is no object (no list). *)
Fixpoint at_path (v : json) (path : list step) : option json :=
  match path with
  | [] => Some v
  | Key k :: rest =>
      match field v k with
      | Some x => at_path x rest
      | None => None
      end
  | First :: rest =>
      match v with
      | JList (x :: _) => at_path x rest
      | _ => None
      end
  end.

(** The fields that the handler and the formatter of a handled event read
    by subscript on every run, each by its path through the payload:
    [payload['pusher']['name']] is [[Key "pusher"; Key "name"]], and
    [payload['commits'][0]['message']] is
    [[Key "commits"; First; Key "message"]]. *)
Definition required_paths (event_type : str) : list (list step) :=
  (if str_eqb event_type (lit "push") then
     [[Key "ref"]; [Key "pusher"]; [Key "pusher"; Key "name"];
      [Key "repository"]; [Key "repository"; Key "name"]; [Key "compare"];
      [Key "commits"; First; Key "message"];
      [Key "commits"; First; Key "author"];
      [Key "commits"; First; Key "author"; Key "name"];
      [Key "commits"; First; Key "url"]]
   else if str_eqb event_type (lit "pull_request") then
     [[Key "action"]; [Key "pull_request"];
      [Key "pull_request"; Key "number"]; [Key "pull_request"; Key "title"];
      [Key "pull_request"; Key "user"]; [Key "pull_request"; Key "user"; Key "login"];
      [Key "pull_request"; Key "head"]; [Key "pull_request"; Key "head"; Key "ref"];
      [Key "pull_request"; Key "base"]; [Key "pull_request"; Key "base"; Key "ref"];
      [Key "pull_request"; Key "html_url"]]
   else if str_eqb event_type (lit "pull_request_review") then
     [[Key "action"]; [Key "review"]; [Key "pull_request"];
      [Key "pull_request"; Key "number"]; [Key "pull_request"; Key "title"];
      [Key "review"; Key "user"]; [Key "review"; Key "user"; Key "login"];
      [Key "review"; Key "state"]; [Key "review"; Key "body"];
      [Key "review"; Key "html_url"]]
   else if str_eqb event_type (lit "issues") then
     [[Key "action"]; [Key "issue"];
      [Key "issue"; Key "number"]; [Key "issue"; Key "title"];
      [Key "issue"; Key "user"]; [Key "issue"; Key "user"; Key "login"];
      [Key "issue"; Key "html_url"]]
   else if str_eqb event_type (lit "create") then
     [[Key "sender"]; [Key "sender"; Key "login"]]
   else if str_eqb event_type (lit "delete") then
     [[Key "sender"]; [Key "sender"; Key "login"]]
   else [])%string.

(** A subject line of 120 characters, and a commit whose message is that
    line, an empty line and a body. *)
Definition LONG_SUBJECT : string :=
  ("0123456789" ++ "0123456789" ++ "0123456789" ++ "0123456789" ++
   "0123456789" ++ "0123456789" ++ "0123456789" ++ "0123456789" ++
   "0123456789" ++ "0123456789" ++ "0123456789" ++ "0123456789")%string.

Definition LONG_COMMIT : json :=
  D_ [("message"%string,
       JStr (lit LONG_SUBJECT ++ [CHAR_NL; CHAR_NL] ++ lit "The body."));
      ("author"%string, D_ [("name"%string, S_ "alice")]);
      ("url"%string, S_ "https://github.com/o/r/commit/1")].

(** A signed [push] delivery whose first commit has no [message]. *)
Definition PUSH_WITHOUT_MESSAGE : Request :=
  signed_request SAMPLE_WORLD (ascii_bytes "(the raw JSON text of the payload)")
    "push"
    (sample_push [D_ [("author", D_ [("name", S_ "alice")]);
                      ("url", S_ "https://github.com/o/r/commit/1")]%string]).

(** The event types whose handler starts with [payload['action']]. *)
Definition reads_action (event_type : str) : bool :=
  str_eqb event_type (lit "pull_request") ||
  str_eqb event_type (lit "pull_request_review") ||
  str_eqb event_type (lit "pull_request_review_comment") ||
  str_eqb event_type (lit "issues").

(** ** utils/github_api.py: [GitHubAPI] *)

Module GitHubAPI.

Local Open Scope m_scope.

(** [try: m  except GithubException as e: handler e]; any other exception
    passes through. *)
Definition except_GithubException {A} (m : M A) (handler : exn -> M A) : M A :=
  match m with
  | (t, Raise GithubException) =>
      let (t', r) := handler GithubException in (t ++ t', r)
  | _ => m
  end.

(** [td.days] and [td.seconds] of a time difference of [seconds]. *)
Definition _format_timedelta (seconds : Z) : str :=
  let days := seconds / 86400 in
  let secs := seconds mod 86400 in
  let hours := secs / 3600 in
  let minutes := (secs mod 3600) / 60 in
  if 0 <? days then
    str_of_int days ++ lit " day" ++ (if days =? 1 then [] else lit "s")
  else if 0 <? hours then
    str_of_int hours ++ lit " hour" ++ (if hours =? 1 then [] else lit "s")
  else if 0 <? minutes then
    str_of_int minutes ++ lit " minute" ++ (if minutes =? 1 then [] else lit "s")
  else lit "just now".

(** [reviewers = {}; for review in pr.get_reviews(): reviewers[login] = state] *)
Definition reviewers_of (pr : PullRequest) : result (list (str * str)) :=
  (reviews <- for_each (pull_get_reviews pr) Ok ;;
   Ok (fold_left (fun d r => dict_set d (review_user_login r) (review_state r))
                 reviews []))%res.

Definition pr_info (now : Z) (pr : PullRequest) : result PRInfo :=
  (reviewers <- reviewers_of pr ;;
   Ok (mkPRInfo (pull_number pr) (pull_title pr) (pull_user_login pr)
                (pull_head_ref pr ++ lit " -> " ++ pull_base_ref pr)
                (pull_html_url pr) (pull_created_at pr)
                (_format_timedelta (now - pull_created_at pr))
                reviewers (pull_state pr)))%res.

Definition get_open_pull_requests (now : Z) (repo : Repository) : M (list PRInfo) :=
  except_GithubException
    (pr_list <- lift (for_each (repo_get_pulls repo) (pr_info now)) ;;
     log INFO [Lit (lit "Retrieved " ++ str_of_int (Z.of_nat (List.length pr_list))
                    ++ lit " open pull requests")] ;;
     ret pr_list)
    (fun e =>
       log ERROR [L "Error fetching pull requests: "; StrOfExn e] ;;
       ret []).

Definition get_pull_request (now : Z) (repo : Repository) (pr_number : Z)
  : M (option PRDetail) :=
  except_GithubException
    (detail <- lift (pr <- repo_get_pull repo pr_number ;;
                     info <- pr_info now pr ;;
                     Ok (mkPRDetail info (pull_changed_files pr) (pull_additions pr)
                           (pull_deletions pr)
                           (match pull_body pr with
                            | Some (c :: b) => c :: b
                            | _ => lit "No description provided."
                            end)
                           (pull_mergeable pr) (pull_merged pr)))%res ;;
     log INFO [Lit (lit "Retrieved pull request #" ++ str_of_int pr_number)] ;;
     ret (Some detail))
    (fun e =>
       log ERROR [Lit (lit "Error fetching pull request #" ++ str_of_int pr_number
                       ++ lit ": "); StrOfExn e] ;;
       ret None).

Definition commit_info (c : Commit) : result CommitInfo :=
  (first_line <- index (split CHAR_NL (commit_message c)) 0 ;;
   Ok (mkCommitInfo (slice_to 7 (commit_sha c)) first_line (commit_author_name c)
                    (commit_author_date c) (commit_html_url c)))%res.

Definition get_commits (repo : Repository) (branch : str) (limit : nat)
  : M (list CommitInfo) :=
  except_GithubException
    (commit_list <- lift (for_each (ptake limit (repo_get_commits repo branch))
                                   commit_info) ;;
     log INFO [Lit (lit "Retrieved "
                    ++ str_of_int (Z.of_nat (List.length commit_list))
                    ++ lit " commits from branch '" ++ branch ++ lit "'")] ;;
     ret commit_list)
    (fun e =>
       log ERROR [Lit (lit "Error fetching commits for branch '" ++ branch
                       ++ lit "': "); StrOfExn e] ;;
       ret []).

Definition get_branches (repo : Repository) : M (list BranchInfo) :=
  except_GithubException
    (branch_list <- lift (for_each (repo_get_branches repo)
                            (fun b => Ok (mkBranchInfo (branch_name b)
                                                       (branch_protected b)))) ;;
     log INFO [Lit (lit "Retrieved "
                    ++ str_of_int (Z.of_nat (List.length branch_list))
                    ++ lit " branches")] ;;
     ret branch_list)
    (fun e =>
       log ERROR [L "Error fetching branches: "; StrOfExn e] ;;
       ret []).

(** The inner [try] around today's commit count has a bare [except:]. *)
Definition repository_status (repo : Repository) : result RepositoryStatus :=
  (let commits_today :=
     match repo_commits_since_today repo with
     | Ok n => n
     | Raise _ => 0
     end in
   open_prs <- repo_open_pulls_count repo ;;
   all_issues <- repo_open_issues_count repo ;;
   branches <- repo_branches_count repo ;;
   Ok (mkRepositoryStatus (repo_full_name repo) commits_today open_prs
                          (all_issues - open_prs) branches
                          (repo_default_branch repo)))%res.

(** Returns the status, or [None] for the empty dictionary [{}]. *)
Definition get_repository_status (repo : Repository) : M (option RepositoryStatus) :=
  except_GithubException
    (st <- lift (repository_status repo) ;;
     log INFO [L "Retrieved repository status"] ;;
     ret (Some st))
    (fun e =>
       log ERROR [L "Error fetching repository status: "; StrOfExn e] ;;
       ret None).

End GitHubAPI.

(** ** bot.py: the slash commands *)

Module Bot.

Local Open Scope m_scope.

(** Who invoked the command ([interaction.user]). *)
Record Interaction : Type := mkInteraction {
  user : str;
  display_name : str
}.

(** The bot's surroundings: the repository behind [bot.github] and the
    readings of the two clocks. *)
Record Env : Type := mkEnv {
  github : Repository;
  now : Z;
  utc_now : Z
}.

Definition list_prs (env : Env) (interaction : Interaction) : M unit :=
  emit Defer ;;
  try_except
    (prs <- GitHubAPI.get_open_pull_requests (now env) (github env) ;;
     emit (Followup (ReplyEmbed (format_pr_list (utc_now env) prs)) false) ;;
     log INFO [Lit (lit "User " ++ user interaction ++ lit " requested PR list")])
    (fun e =>
       log ERROR [L "Error in /prs command: "; StrOfExn e] ;;
       emit (Followup
               (ReplyText [L "An error occurred while fetching pull requests. Please try again later."])
               true)).

Definition not_found (number : Z) : text :=
  [Lit (lit "Pull request #" ++ str_of_int number ++ lit " not found.")].

Definition get_pr (env : Env) (interaction : Interaction) (number : Z) : M unit :=
  emit Defer ;;
  try_except
    (pr <- GitHubAPI.get_pull_request (now env) (github env) number ;;
     match pr with
     | Some pr =>
         emit (Followup (ReplyEmbed (format_pr_detail (utc_now env) pr)) false) ;;
         log INFO [Lit (lit "User " ++ user interaction ++ lit " requested PR #"
                        ++ str_of_int number)]
     | None => emit (Followup (ReplyText (not_found number)) true)
     end)
    (fun e =>
       log ERROR [L "Error in /pr command: "; StrOfExn e] ;;
       emit (Followup
               (ReplyText [L "An error occurred while fetching the pull request. Please try again later."])
               true)).

Definition get_commits (env : Env) (interaction : Interaction) (branch : str)
  : M unit :=
  emit Defer ;;
  try_except
    (commits <- GitHubAPI.get_commits (github env) branch 10 ;;
     match commits with
     | _ :: _ =>
         emit (Followup (ReplyEmbed (format_commit_list (utc_now env) commits branch))
                        false) ;;
         log INFO [Lit (lit "User " ++ user interaction
                        ++ lit " requested commits for branch '" ++ branch ++ lit "'")]
     | [] =>
         emit (Followup
                 (ReplyText [Lit (lit "No commits found for branch `" ++ branch
                                  ++ lit "` or branch does not exist.")])
                 true)
     end)
    (fun e =>
       log ERROR [L "Error in /commits command: "; StrOfExn e] ;;
       emit (Followup
               (ReplyText [Lit (lit "An error occurred while fetching commits for branch `"
                                ++ branch
                                ++ lit "`. Please check the branch name and try again.")])
               true)).

Definition list_branches (env : Env) (interaction : Interaction) : M unit :=
  emit Defer ;;
  try_except
    (branches <- GitHubAPI.get_branches (github env) ;;
     emit (Followup (ReplyEmbed (format_branch_list (utc_now env) branches)) false) ;;
     log INFO [Lit (lit "User " ++ user interaction ++ lit " requested branch list")])
    (fun e =>
       log ERROR [L "Error in /branches command: "; StrOfExn e] ;;
       emit (Followup
               (ReplyText [L "An error occurred while fetching branches. Please try again later."])
               true)).

Definition get_status (env : Env) (interaction : Interaction) : M unit :=
  emit Defer ;;
  try_except
    (st <- GitHubAPI.get_repository_status (github env) ;;
     match st with
     | Some st =>
         emit (Followup (ReplyEmbed (format_repository_status (utc_now env) st))
                        false) ;;
         log INFO [Lit (lit "User " ++ user interaction
                        ++ lit " requested repository status")]
     | None =>
         emit (Followup
                 (ReplyText [L "An error occurred while fetching repository status."])
                 true)
     end)
    (fun e =>
       log ERROR [L "Error in /status command: "; StrOfExn e] ;;
       emit (Followup
               (ReplyText [L "An error occurred while fetching repository status. Please try again later."])
               true)).

(** The member to ping (the command's [user] argument): [user.mention]
    and [str(user)]. *)
Record Member : Type := mkMember {
  mention : str;
  member_str : str
}.

Definition assign_reviewer (env : Env) (interaction : Interaction) (member : Member)
    (pr_number : Z) : M unit :=
  try_except
    (pr <- GitHubAPI.get_pull_request (now env) (github env) pr_number ;;
     match pr with
     | Some pr =>
         let info := prd_info pr in
         let embed :=
           new_embed [Lit (lit "Review Request for PR #" ++ str_of_int pr_number)]
             (Some [Lit (lit "**" ++ pr_title info ++ lit "**" ++ [CHAR_NL; CHAR_NL]
                         ++ mention member
                         ++ lit ", you've been requested to review this pull request.")])
             COLOR_ORANGE (Some [Lit (pr_url info)]) None in
         let embed := add_field embed [L "Author"] [Lit (pr_author info)] true in
         let embed := add_field embed [L "Branch"]
                        [Lit (lit "`" ++ pr_branch info ++ lit "`")] true in
         let embed := add_field embed [L "Changes"]
                        (changes_text (prd_additions pr) (prd_deletions pr)
                                      (prd_files_changed pr)) true in
         let embed := set_footer embed
                        [Lit (lit "Requested by " ++ display_name interaction)] in
         emit (SendMessage (ReplyEmbed embed) false) ;;
         log INFO [Lit (lit "User " ++ user interaction ++ lit " requested review from "
                        ++ member_str member ++ lit " for PR #"
                        ++ str_of_int pr_number)]
     | None => emit (SendMessage (ReplyText (not_found pr_number)) true)
     end)
    (fun e =>
       log ERROR [L "Error in /assign command: "; StrOfExn e] ;;
       emit (SendMessage
               (ReplyText [L "An error occurred while processing your request. Please try again later."])
               true)).

(** The six commands of the bot. *)
Inductive command : Type :=
| Prs
| Pr (number : Z)
| Commits (branch : str)
| Branches
| Status
| Assign (member : Member) (pr_number : Z).

Definition run (env : Env) (interaction : Interaction) (c : command) : M unit :=
  match c with
  | Prs => list_prs env interaction
  | Pr number => get_pr env interaction number
  | Commits branch => get_commits env interaction branch
  | Branches => list_branches env interaction
  | Status => get_status env interaction
  | Assign member pr_number => assign_reviewer env interaction member pr_number
  end.

(** What the invoking user is sent, with the [ephemeral] flag. *)
Definition replies (t : list effect) : list (reply * bool) :=
  flat_map (fun ev => match ev with
                      | Followup r eph | SendMessage r eph => [(r, eph)]
                      | _ => []
                      end) t.







Definition SAMPLE_INTERACTION : Interaction := mkInteraction (lit "dev#1") (lit "dev").

End Bot.

(** ** Observations on traces *)

(** Rejections before any hashing leave no [HmacNew] in the trace. *)
Definition no_hmac {A} (m : M A) : Prop :=
  forall key msg, ~ In (HmacNew key msg) (trace m).

(** The log entry of [handle_webhook]'s [except] block. *)
Definition ERROR_LOG (e : exn) : effect :=
  Log ERROR (fstring [L "Error processing webhook: "; StrOfExn e]).

(** What the hand-off of a dispatch result ends in: the call is made only
    for an embed and with a chat client. *)
Definition delivery (w : World) (r : option Embed) : result unit :=
  match r with
  | Some _ => if discord_bot w then hand_off w else Ok tt
  | None => Ok tt
  end.

(** What the chat client is handed for a dispatch result, the hand-off
    having returned. *)
Definition handed_over (w : World) (r : option Embed) : list Embed :=
  match r with
  | Some e => if discord_bot w then [e] else []
  | None => []
  end.

(** [request.json] was not evaluated. *)
Definition never_parsed {A} (m : M A) : Prop := ~ In RequestJson (trace m).

(** ** Further observations *)

(** The (key, message) pairs a computation hashed. *)
Definition hmacs (t : list effect) : list (list byte * list byte) :=
  flat_map (fun ev => match ev with HmacNew k m => [(k, m)] | _ => [] end) t.

(** The event types named in the [if]/[elif] chain of [handle_webhook]. *)
Definition DISPATCHED_EVENT_TYPES : list str :=
  [lit "push"; lit "pull_request"; lit "pull_request_review";
   lit "pull_request_review_comment"; lit "issues"; lit "create"; lit "delete"].

(** A signed [ping] delivery. *)
Definition PING : Request :=
  signed_request SAMPLE_WORLD
    (ascii_bytes ("{" ++ quoted "zen" ++ ": " ++ quoted "Design for failure." ++ "}"))
    "ping"
    (D_ [("zen", S_ "Design for failure.")]%string).

(** Sample payloads of the other handled events. *)
Definition sample_issue (action : string) : json :=
  D_ [("action", S_ action);
      ("issue",
       D_ [("number", JInt 12);
           ("title", S_ "Crash on start");
           ("user", D_ [("login", S_ "carol")]);
           ("html_url", S_ "https://github.com/o/r/issues/12")])]%string.

Definition sample_review (state : string) (body : json) : json :=
  D_ [("action", S_ "submitted");
      ("review",
       D_ [("user", D_ [("login", S_ "dave")]);
           ("state", S_ state);
           ("body", body);
           ("html_url", S_ "https://github.com/o/r/pull/7#pullrequestreview-1")]);
      ("pull_request", D_ [("number", JInt 7); ("title", S_ "Add feature")])]%string.

Definition sample_branch_event (items : list (string * json)) : json :=
  D_ (List.app items [("sender"%string, D_ [("login"%string, S_ "erin")])]).

(** A push of [commits] to the given [ref]. *)
Definition sample_push_to (ref : string) (commits : list json) : json :=
  D_ [("ref", S_ ref);
      ("commits", JList commits);
      ("pusher", D_ [("name", S_ "bob")]);
      ("repository", D_ [("name", S_ "r")]);
      ("compare", S_ "https://github.com/o/r/compare/a...b")]%string.

(** A pull request reviewed twice by [ann] and once by [bob]. *)
Definition SAMPLE_REVIEWED_PULL : PullRequest :=
  mkPullRequest 7 (lit "Add login") (lit "carol") (lit "feature/login") (lit "main")
    (lit "https://github.com/o/r/pull/7") (lit "open") 0
    (PItem (mkReview (lit "ann") (lit "CHANGES_REQUESTED"))
       (PItem (mkReview (lit "bob") (lit "COMMENTED"))
          (PItem (mkReview (lit "ann") (lit "APPROVED")) PEnd)))
    3 10 2 None None false.

(** A repository with twelve commits on every branch, one open pull
    request and two branches; counting today's commits fails. *)
Definition SAMPLE_COMMIT : Commit :=
  mkCommit (lit "0123456789abcdef0123456789abcdef01234567")
           (lit "Add login" ++ [CHAR_NL; CHAR_NL] ++ lit "With tests.")
           (lit "ann") 0 (lit "https://github.com/o/r/commit/0123456").

Definition SAMPLE_REPOSITORY : Repository :=
  mkRepository
    (PItem SAMPLE_REVIEWED_PULL PEnd)
    (fun number => if number =? 7 then Ok SAMPLE_REVIEWED_PULL else Raise GithubException)
    (fun _ => fold_right PItem PEnd (repeat SAMPLE_COMMIT 12))
    (PItem (mkBranch (lit "main") true) (PItem (mkBranch (lit "feature/login") false) PEnd))
    (Raise ConnectionError) (Ok 1) (Ok 4) (Ok 2) (lit "o/r") (lit "main").

(** ** config.py: [Config] *)

Module Config.

Local Open Scope m_scope.

(** The class attributes read from the environment; [os.getenv] gives
    [None] for a variable that is not set. *)
Record Settings : Type := mkSettings {
  DISCORD_BOT_TOKEN : option str;
  DISCORD_GUILD_ID : option str;
  DISCORD_CHANNEL_ID : option str;
  GITHUB_TOKEN : option str;
  GITHUB_REPO : option str;
  GITHUB_WEBHOOK_SECRET : option str
}.

Definition required_vars (cfg : Settings) : list (string * option str) :=
  [("DISCORD_BOT_TOKEN", DISCORD_BOT_TOKEN cfg);
   ("DISCORD_GUILD_ID", DISCORD_GUILD_ID cfg);
   ("DISCORD_CHANNEL_ID", DISCORD_CHANNEL_ID cfg);
   ("GITHUB_TOKEN", GITHUB_TOKEN cfg);
   ("GITHUB_REPO", GITHUB_REPO cfg);
   ("GITHUB_WEBHOOK_SECRET", GITHUB_WEBHOOK_SECRET cfg)]%string.

(** [not value], for a value that is [None] or a [str]. *)
Definition unset (value : option str) : bool :=
  match value with
  | None | Some [] => true
  | Some (_ :: _) => false
  end.

Definition validate (cfg : Settings) : M bool :=
  let missing_vars :=
    map fst (filter (fun item => unset (snd item)) (required_vars cfg)) in
  match missing_vars with
  | _ :: _ =>
      log ERROR [Lit (lit "Missing required environment variables: "
                      ++ join (lit ", ") (map lit missing_vars))] ;;
      log ERROR [L "Please create a .env file based on .env.example"] ;;
      ret false
  | [] =>
      has_slash <- lift (match GITHUB_REPO cfg with
                         | Some repo => Ok (existsb (N.eqb CHAR_SLASH) repo)
                         | None => Raise TypeError
                         end) ;;
      if negb has_slash then
        log ERROR [L "GITHUB_REPO must be in format 'owner/repository'"] ;;
        ret false
      else
        log INFO [L "Configuration validated successfully"] ;;
        ret true
  end.

Definition get_repo_parts (cfg : Settings) : result (str * str) :=
  match GITHUB_REPO cfg with
  | None => Raise AttributeError
  | Some repo =>
      let parts := split CHAR_SLASH repo in
      (owner <- index parts 0 ;;
       name <- index parts 1 ;;
       Ok (owner, name))%res
  end.

(** The settings of a deployment for the repository [repo]. *)
Definition sample (repo : string) : Settings :=
  mkSettings (Some (lit "token")) (Some (lit "1")) (Some (lit "2"))
             (Some (lit "ghp")) (Some (lit repo)) (Some (lit "secret")).

End Config.

(** The trace without what was handed to the chat client. *)
Definition without_submits (t : list effect) : list effect :=
  filter (fun ev => match ev with Submit _ => false | _ => true end) t.

(** A signed delivery whose body is the empty JSON object. *)
Definition EMPTY_OBJECT : Request :=
  signed_request SAMPLE_WORLD (ascii_bytes "{}") "push" (D_ []).

(* ================================================================ *)
(** * Properties *)

(** ** The hash functions agree with the published test vectors *)

Example sha256_abc :
  HMAC.hex (SHA256.digest [97; 98; 99]) =
  lit "ba7816bf8f01cfea414140de5dae2223b00361a396177a9cb410ff61f20015ad".
Proof. vm_compute. reflexivity. Qed.

Example sha256_empty :
  HMAC.hex (SHA256.digest []) =
  lit "e3b0c44298fc1c149afbf4c8996fb92427ae41e4649b934ca495991b7852b855".
Proof. vm_compute. reflexivity. Qed.

Example hmac_rfc4231_case2 :
  HMAC.hexdigest (ascii_bytes "Jefe") (ascii_bytes "what do ya want for nothing?") =
  lit "5bdcc146bf60754e6a042426089575c75a003f089d2739839dec58b964ec3843".
Proof. vm_compute. reflexivity. Qed.

Example hmac_rfc4231_case1 :
  HMAC.hexdigest (repeat x0b 20) (ascii_bytes "Hi There") =
  lit "b0344c61d8db38535ca8afceaf0bf12b881dc200c9833da726e9376c2e32cff7".
Proof. vm_compute. reflexivity. Qed.

Example hmac_long_key :
  HMAC.hexdigest (repeat x6b 70) (repeat x78 130) =
  lit "65f3828fb4164fc0fce3be71ca4cf0a8915b8e484444e7765ab030abe4c28ac0".
Proof. vm_compute. reflexivity. Qed.

(** ** Strings *)

Lemma str_eqb_refl (s : str) : str_eqb s s = true.
Proof.
  induction s as [|c s IH]; simpl; [reflexivity|].
  now rewrite N.eqb_refl, IH.
Qed.

Lemma str_eqb_eq (a b : str) : str_eqb a b = true <-> a = b.
Proof.
  split; [|intros ->; apply str_eqb_refl].
  revert b; induction a as [|x a IH]; intros [|y b]; simpl; try discriminate; auto.
  intros H. apply andb_true_iff in H as [Hx Hab].
  apply N.eqb_eq in Hx. f_equal; auto.
Qed.

Lemma str_eqb_neq (a b : str) : str_eqb a b = false <-> a <> b.
Proof.
  split.
  - intros H E. apply str_eqb_eq in E. congruence.
  - intros H. destruct (str_eqb a b) eqn:E; [|reflexivity].
    apply str_eqb_eq in E. contradiction.
Qed.

Lemma startswith_app (p s : str) : startswith (p ++ s) p = true.
Proof.
  induction p as [|c p IH]; simpl; [reflexivity|].
  now rewrite N.eqb_refl, IH.
Qed.

Lemma split_without_sep (sep : N) (s : str) :
  ~ In sep s -> split sep s = [s].
Proof.
  induction s as [|c s IH]; simpl; intros H; [reflexivity|].
  destruct (N.eqb_spec c sep) as [->|_]; [tauto|].
  rewrite IH by tauto. reflexivity.
Qed.

Lemma split_at_first_sep (sep : N) (a b : str) :
  ~ In sep a -> split sep (a ++ sep :: b) = a :: split sep b.
Proof.
  induction a as [|c a IH]; simpl; intros H.
  - now rewrite N.eqb_refl.
  - destruct (N.eqb_spec c sep) as [->|_]; [tauto|].
    rewrite IH by tauto. reflexivity.
Qed.

Lemma split_nonempty (sep : N) (s : str) : split sep s <> [].
Proof.
  destruct s as [|c s]; simpl; [discriminate|].
  destruct (N.eqb c sep); [discriminate|].
  destruct (split sep s); discriminate.
Qed.

(** ** The digest is sixty-four lowercase hexadecimal characters *)

Lemma hex_digit_in (n : Z) : In (HMAC.hex_digit n) HMAC.HEX_DIGITS.
Proof.
  unfold HMAC.hex_digit.
  assert (Hlt : (Z.to_nat (n mod 16) < 16)%nat).
  { pose proof (Z.mod_pos_bound n 16 ltac:(lia)). lia. }
  apply nth_In. exact Hlt.
Qed.

Lemma hex_alphabet (bs : list Z) :
  Forall (fun c => In c HMAC.HEX_DIGITS) (HMAC.hex bs).
Proof.
  induction bs as [|b bs IH]; [constructor|].
  unfold HMAC.hex in *. cbn [flat_map app].
  constructor; [apply hex_digit_in|].
  constructor; [apply hex_digit_in|exact IH].
Qed.

Lemma hex_length (bs : list Z) :
  List.length (HMAC.hex bs) = (2 * List.length bs)%nat.
Proof.
  induction bs as [|b bs IH]; [reflexivity|].
  unfold HMAC.hex in *. cbn [flat_map app List.length]. rewrite IH. lia.
Qed.

Lemma state_bytes_length (s : SHA256.state) :
  List.length (SHA256.state_bytes s) = 32%nat.
Proof. destruct s; reflexivity. Qed.

Lemma hexdigest_alphabet (key msg : list byte) :
  Forall (fun c => In c HMAC.HEX_DIGITS) (HMAC.hexdigest key msg).
Proof. apply hex_alphabet. Qed.

Lemma hexdigest_length (key msg : list byte) :
  List.length (HMAC.hexdigest key msg) = 64%nat.
Proof.
  unfold HMAC.hexdigest, HMAC.digest.
  now rewrite hex_length, state_bytes_length.
Qed.

Lemma hex_digits_ascii (c : N) : In c HMAC.HEX_DIGITS -> (c <? 128)%N = true.
Proof.
  intros H. vm_compute in H.
  repeat (destruct H as [<-|H]; [reflexivity|]). contradiction.
Qed.

Lemma hex_digits_not_eq_sign (c : N) : In c HMAC.HEX_DIGITS -> c <> CHAR_EQ.
Proof.
  intros H. vm_compute in H.
  repeat (destruct H as [<-|H]; [discriminate|]). contradiction.
Qed.

Lemma hexdigest_isascii (key msg : list byte) :
  isascii (HMAC.hexdigest key msg) = true.
Proof.
  apply forallb_forall. intros c Hc.
  apply hex_digits_ascii.
  exact (proj1 (Forall_forall _ _) (hexdigest_alphabet key msg) c Hc).
Qed.

Lemma hexdigest_no_eq_sign (key msg : list byte) :
  ~ In CHAR_EQ (HMAC.hexdigest key msg).
Proof.
  intros Hin.
  apply (hex_digits_not_eq_sign CHAR_EQ); [|reflexivity].
  exact (proj1 (Forall_forall _ _) (hexdigest_alphabet key msg) _ Hin).
Qed.

Lemma compare_digest_hexdigest (key msg msg' : list byte) :
  compare_digest (HMAC.hexdigest key msg) (HMAC.hexdigest key msg') =
  Ok (str_eqb (HMAC.hexdigest key msg) (HMAC.hexdigest key msg')).
Proof.
  unfold compare_digest. now rewrite !hexdigest_isascii.
Qed.

(** ** [verify_signature] *)

Lemma startswith_inv (s p : str) :
  startswith s p = true -> exists rest, s = p ++ rest.
Proof.
  revert s; induction p as [|c p IH]; intros s H.
  - now exists s.
  - destruct s as [|d s]; [discriminate|]. simpl in H.
    apply andb_true_iff in H as [Hc Hp]. apply N.eqb_eq in Hc. subst d.
    destruct (IH s Hp) as [rest ->]. now exists rest.
Qed.

(** With the scheme tag in front, the received hash is what stands between
    the tag's ['='] and the next one. *)
Lemma received_hash_after_tag (rest : str) :
  index (split CHAR_EQ (lit "sha256=" ++ rest)) 1 = Ok (hd [] (split CHAR_EQ rest)).
Proof.
  cbn. destruct (split CHAR_EQ rest) as [|h t] eqn:E.
  - now apply split_nonempty in E.
  - reflexivity.
Qed.

Lemma verify_signature_tagged (secret payload : list byte) (rest : str) :
  outcome (verify_signature secret payload (Some (lit "sha256=" ++ rest))) =
  compare_digest (HMAC.hexdigest secret payload) (hd [] (split CHAR_EQ rest)).
Proof.
  pose proof (received_hash_after_tag rest) as Hr.
  unfold verify_signature.
  change (lit "sha256=" ++ rest) with (115 :: lit "ha256=" ++ rest)%N in *.
  cbv beta iota.
  rewrite (startswith_app (lit "sha256=") rest
           : startswith (115%N :: lit "ha256=" ++ rest) (lit "sha256=") = true).
  cbn [negb]. rewrite Hr.
  cbv [outcome hmac_hexdigest lift bind emit ret log].
  destruct (compare_digest _ _) as [[|]|e]; reflexivity.
Qed.

Lemma verify_signature_sign_eqb (secret b1 b2 : list byte) :
  outcome (verify_signature secret b1 (Some (sign secret b2))) =
  Ok (str_eqb (HMAC.hexdigest secret b1) (HMAC.hexdigest secret b2)).
Proof.
  unfold sign. rewrite verify_signature_tagged.
  rewrite split_without_sep by apply hexdigest_no_eq_sign.
  apply compare_digest_hexdigest.
Qed.

(** C5. A signature that is absent, empty, or does not start with the tag
    [sha256=] makes [verify_signature] return [False] from one of its two
    early returns: the trace holds the warning only, no HMAC is computed. *)
Theorem verify_signature_untagged_early_return
    (secret payload : list byte) (signature : option str) :
  signature = None \/ signature = Some [] \/
  (exists s, signature = Some s /\ startswith s (lit "sha256=") = false) ->
  outcome (verify_signature secret payload signature) = Ok false /\
  no_hmac (verify_signature secret payload signature) /\
  (trace (verify_signature secret payload signature) =
     [Log WARNING [Lit (lit "No signature provided in webhook request")]] \/
   trace (verify_signature secret payload signature) =
     [Log WARNING [Lit (lit "Invalid signature format")]]).
Proof.
  intros [-> | [-> | [s [-> Hs]]]].
  - repeat split; [|now left]. intros k m [E|[]]. discriminate.
  - repeat split; [|now left]. intros k m [E|[]]. discriminate.
  - destruct s as [|c s].
    + repeat split; [|now left]. intros k m [E|[]]. discriminate.
    + unfold verify_signature. rewrite Hs. cbn [negb].
      repeat split; [|now right]. intros k m [E|[]]. discriminate.
Qed.

Lemma verify_signature_untagged_early_return_witness :
  outcome (verify_signature (ascii_bytes "s3cret") (ascii_bytes "{}")
             (Some (lit "sha1=da39a3ee"))) = Ok false /\
  no_hmac (verify_signature (ascii_bytes "s3cret") (ascii_bytes "{}")
             (Some (lit "sha1=da39a3ee"))).
Proof.
  destruct (verify_signature_untagged_early_return
              (ascii_bytes "s3cret") (ascii_bytes "{}") (Some (lit "sha1=da39a3ee")))
    as [Ho [Hn _]].
  - right; right. exists (lit "sha1=da39a3ee"). split; reflexivity.
  - split; assumption.
Defined.

(** C8. After the tag, only the text up to the next ['='] is compared with
    the expected digest; so the correct digest followed by ['='] and any
    suffix at all is accepted. *)
Theorem verify_signature_ignores_text_after_second_eq :
  (forall (secret payload : list byte) (rest : str),
      outcome (verify_signature secret payload (Some (lit "sha256=" ++ rest))) =
      compare_digest (HMAC.hexdigest secret payload) (hd [] (split CHAR_EQ rest))) /\
  (forall digest suffix : str,
      ~ In CHAR_EQ digest ->
      hd [] (split CHAR_EQ (digest ++ CHAR_EQ :: suffix)) = digest) /\
  (forall (secret payload : list byte) (suffix : str),
      outcome (verify_signature secret payload
                 (Some (sign secret payload ++ CHAR_EQ :: suffix))) = Ok true).
Proof.
  split; [exact verify_signature_tagged|]. split.
  - intros digest suffix H. now rewrite split_at_first_sep.
  - intros secret payload suffix. unfold sign. rewrite <- app_assoc.
    rewrite verify_signature_tagged.
    rewrite split_at_first_sep by apply hexdigest_no_eq_sign.
    cbn [hd]. rewrite compare_digest_hexdigest. now rewrite str_eqb_refl.
Qed.

(** ** Signing and verifying *)

Lemma words_over_complete (alphabet : list N) (n : nat) (s : str) :
  List.length s = n -> Forall (fun c => In c alphabet) s ->
  In s (words_over alphabet n).
Proof.
  revert s; induction n as [|n IH]; intros [|c s] Hl Hf; simpl in *;
    try discriminate.
  - now left.
  - inversion Hf as [|? ? Hc Hs]; subst.
    apply in_flat_map. exists c. split; [assumption|].
    apply in_map. apply IH; [now injection Hl | assumption].
Qed.

(** No function from [nat] into a finite list is injective. *)
Lemma no_injection_into_list {A} (f : nat -> A) (W : list A) :
  (forall n, In (f n) W) -> ~ (forall x y, f x = f y -> x = y).
Proof.
  intros Hin Hinj.
  assert (Hnd : NoDup (map f (seq 0 (S (List.length W))))).
  { apply Injective_map_NoDup; [exact Hinj | apply seq_NoDup]. }
  assert (Hincl : incl (map f (seq 0 (S (List.length W)))) W).
  { intros a Ha. apply in_map_iff in Ha as [n [<- _]]. apply Hin. }
  pose proof (NoDup_incl_length Hnd Hincl) as Hlen.
  rewrite length_map, length_seq in Hlen. lia.
Qed.

(** C1, as amended. A request signed for its own body verifies. A signature
    computed over body [b2] verifies against body [b1] exactly when the two
    bodies have the same HMAC-SHA256 digest under the secret, and is
    rejected whenever the digests differ. *)
Theorem verify_signature_sign :
  (forall secret body : list byte,
      outcome (verify_signature secret body (Some (sign secret body))) = Ok true) /\
  (forall secret b1 b2 : list byte,
      outcome (verify_signature secret b1 (Some (sign secret b2))) = Ok true <->
      HMAC.hexdigest secret b1 = HMAC.hexdigest secret b2) /\
  (forall secret b1 b2 : list byte,
      HMAC.hexdigest secret b1 <> HMAC.hexdigest secret b2 ->
      outcome (verify_signature secret b1 (Some (sign secret b2))) = Ok false).
Proof.
  split; [|split].
  - intros. now rewrite verify_signature_sign_eqb, str_eqb_refl.
  - intros. rewrite verify_signature_sign_eqb. split.
    + intros H. apply str_eqb_eq. congruence.
    + intros ->. now rewrite str_eqb_refl.
  - intros secret b1 b2 H. rewrite verify_signature_sign_eqb.
    now apply str_eqb_neq in H as ->.
Qed.

Lemma verify_signature_sign_witness :
  outcome (verify_signature (ascii_bytes "s3cret") (ascii_bytes "[1]")
             (Some (sign (ascii_bytes "s3cret") (ascii_bytes "[2]")))) = Ok false.
Proof.
  apply (proj2 (proj2 verify_signature_sign)).
  vm_compute. discriminate.
Defined.

(** C1 as stated fails: digests are sixty-four hexadecimal characters, so
    the bodies, which are unboundedly many, cannot all have different ones;
    some signature computed over one body verifies against another. *)
Lemma verify_signature_other_body_not_always_rejected :
  ~ (forall secret b1 b2 : list byte,
        b1 <> b2 ->
        outcome (verify_signature secret b1 (Some (sign secret b2))) = Ok false).
Proof.
  intros H.
  apply (no_injection_into_list
           (fun n => HMAC.hexdigest [] (repeat x00 n))
           (words_over HMAC.HEX_DIGITS 64)).
  - intros n. apply words_over_complete;
      [apply hexdigest_length | apply hexdigest_alphabet].
  - intros x y E. destruct (Nat.eq_dec x y) as [|Hne]; [assumption|]. exfalso.
    assert (Hb : repeat x00 x <> repeat x00 y).
    { intros E'. apply (f_equal (@List.length _)) in E'.
      rewrite !repeat_length in E'. contradiction. }
    specialize (H [] _ _ Hb).
    cbv beta in E. rewrite verify_signature_sign_eqb, E, str_eqb_refl in H.
    clear -H. discriminate H.
Qed.

(** ** Reading fields of a payload *)

Arguments field : simpl never.
Arguments getitem : simpl never.
Arguments get : simpl never.

Lemma getitem_field (v : json) (k : string) (x : json) :
  field v k = Some x -> getitem v k = Ok x.
Proof. destruct v; cbn; try discriminate. unfold field, getitem. now intros ->. Qed.

Lemma getitem_ok_field (v : json) (k : string) (x : json) :
  getitem v k = Ok x -> field v k = Some x.
Proof.
  destruct v; cbn; try discriminate. unfold field, getitem.
  destruct lookup; [now intros [= ->] | discriminate].
Qed.

Lemma getitem_missing (v : json) (k : string) :
  field v k = None -> exists e, getitem v k = Raise e.
Proof.
  destruct v; unfold field, getitem; try (now eexists).
  intros ->. now eexists.
Qed.

Lemma get_field (v : json) (k : string) (d x : json) :
  field v k = Some x -> get v k d = Ok x.
Proof. destruct v; cbn; try discriminate. unfold field, get. now intros ->. Qed.

Lemma get_dict (v : json) (k : string) (d : json) :
  is_dict v = true ->
  get v k d = Ok (match field v k with Some x => x | None => d end).
Proof.
  destruct v; cbn; try discriminate. intros _. unfold field, get.
  now destruct lookup.
Qed.

Lemma get_ok_dict (v : json) (k : string) (d x : json) :
  get v k d = Ok x ->
  is_dict v = true /\ x = match field v k with Some y => y | None => d end.
Proof.
  destruct v; cbn; try discriminate. unfold field, get.
  destruct lookup; intros [= ->]; auto.
Qed.

Lemma contains_dict (v : json) (k : string) :
  is_dict v = true ->
  contains v k = Ok (match field v k with Some _ => true | None => false end).
Proof. destruct v; cbn; try discriminate. reflexivity. Qed.

Lemma field_is_dict (v : json) (k : string) (x : json) :
  field v k = Some x -> is_dict v = true.
Proof. destruct v; cbn; try discriminate. reflexivity. Qed.

Lemma has_inv (v : json) (k : string) :
  has v k = true -> exists x, field v k = Some x.
Proof. unfold has. destruct (field v k) as [x|]; [now exists x | discriminate]. Qed.

Lemma has_str_inv (v : json) (k : string) :
  has_str v k = true -> exists s, field v k = Some (JStr s).
Proof.
  unfold has_str. destruct (field v k) as [[]|]; try discriminate. now eexists.
Qed.

Lemma has_in_inv (v : json) (k1 k2 : string) :
  has_in v k1 k2 = true ->
  exists x y, field v k1 = Some x /\ field x k2 = Some y.
Proof.
  unfold has_in. destruct (field v k1) as [x|]; [|discriminate].
  intros H. apply has_inv in H as [y Hy]. now exists x, y.
Qed.

Lemma index_split_0 (sep : N) (s : str) :
  index (split sep s) 0 = Ok (hd [] (split sep s)).
Proof.
  destruct (split sep s) eqn:E; [now apply split_nonempty in E | reflexivity].
Qed.

Lemma index_last_split (sep : N) (s : str) :
  exists x, index_last (split sep s) = Ok x.
Proof.
  unfold index_last. destruct (rev (split sep s)) eqn:E.
  - apply (f_equal (@rev _)) in E. rewrite rev_involutive in E.
    now apply split_nonempty in E.
  - now eexists.
Qed.

(** Turn schema checks into equations on fields. *)
Ltac invert_schema :=
  repeat match goal with
         | H : (_ && _)%bool = true |- _ => apply andb_true_iff in H as [? ?]
         | H : has _ _ = true |- _ => apply has_inv in H as [? ?]
         | H : has_str _ _ = true |- _ => apply has_str_inv in H as [? ?]
         | H : has_in _ _ _ = true |- _ => apply has_in_inv in H as [? [? [? ?]]]
         end.

(** Replace the reads of known fields by their values. *)
Ltac read_fields :=
  repeat (first [ erewrite getitem_field by eassumption
                | erewrite get_field by eassumption ];
          cbn [rbind as_str]).

(** Peel the binds of a computation known to succeed. *)
Ltac peel H :=
  repeat match type of H with
         | rbind ?r _ = Ok _ =>
             let E := fresh "E" in
             destruct r eqn:E; cbn [rbind] in H; [|discriminate H]
         end.

(** Peel binds, opening the tuples bound on the way. *)
Ltac peel_styled H :=
  peel H;
  repeat (match type of H with
          | context [match ?s with pair _ _ => _ end] => is_var s; destruct s
          end;
          cbv beta iota in H; peel H).

(** ** The monad: traces and outcomes *)

Lemma submitted_app (t1 t2 : list effect) :
  submitted (t1 ++ t2) = submitted t1 ++ submitted t2.
Proof. unfold submitted. now rewrite flat_map_app. Qed.

Lemma submitted_logs (t : list effect) :
  forallb is_log t = true -> submitted t = [].
Proof.
  induction t as [|ev t IH]; [reflexivity|]. cbn [forallb].
  intros H. apply andb_true_iff in H as [Hev Ht].
  destruct ev; try discriminate. cbn. auto.
Qed.

(** ** [handle_webhook] in terms of the dispatch *)

(** Case analysis on an innermost scrutinee of the goal. *)
Ltac case_scrutinee :=
  match goal with
  | |- context [match ?x with _ => _ end] =>
      lazymatch x with
      | context [match _ with _ => _ end] => fail
      | _ => destruct x
      end
  end.

Lemma handlers_log_only (now : Z) (event_type : str) (payload : json) :
  forallb is_log (trace (dispatch_event now event_type payload)) = true.
Proof.
  unfold dispatch_event, handle_push_event, handle_pull_request_event,
    handle_review_event, handle_review_comment_event, handle_issue_event,
    handle_create_event, handle_delete_event.
  cbv [bind lift ret log emit trace fst].
  repeat (case_scrutinee; cbn [forallb is_log andb app]); reflexivity.
Qed.

Lemma verify_signature_submits_nothing (secret payload : list byte)
    (signature : option str) :
  submitted (trace (verify_signature secret payload signature)) = [].
Proof.
  unfold verify_signature, hmac_hexdigest.
  cbv [bind lift ret log emit trace fst].
  repeat (case_scrutinee; cbn [submitted flat_map app]); reflexivity.
Qed.

(** The ways the [try] block ends. *)
Lemma process_event_cases (w : World) (event_type : str) (payload : json) :
  match outcome (dispatch_event (utcnow w) event_type payload) with
  | Ok r =>
      match delivery w r with
      | Ok _ =>
          outcome (process_event w event_type payload) = Ok RESPONSE_SUCCESS /\
          submitted (trace (process_event w event_type payload)) = handed_over w r
      | Raise x =>
          outcome (process_event w event_type payload) = Ok RESPONSE_INTERNAL_ERROR /\
          submitted (trace (process_event w event_type payload)) = [] /\
          In (ERROR_LOG x) (trace (process_event w event_type payload))
      end
  | Raise x =>
      outcome (process_event w event_type payload) = Ok RESPONSE_INTERNAL_ERROR /\
      submitted (trace (process_event w event_type payload)) = [] /\
      In (ERROR_LOG x) (trace (process_event w event_type payload))
  end.
Proof.
  pose proof (handlers_log_only (utcnow w) event_type payload) as Hlog.
  apply submitted_logs in Hlog.
  unfold process_event.
  destruct (dispatch_event (utcnow w) event_type payload) as [t [[e|]|x]];
    cbn [outcome trace fst snd delivery handed_over] in *.
  - destruct (discord_bot w); [destruct (hand_off w) as [[]|x]|];
      cbv [bind lift ret emit log try_except outcome trace fst snd];
      rewrite ?app_nil_r, ?submitted_app, Hlog; repeat split;
      apply in_or_app; right; now left.
  - cbv [bind ret emit log try_except outcome trace fst snd].
    rewrite ?app_nil_r. split; [reflexivity | exact Hlog].
  - cbv [bind ret emit log try_except outcome trace fst snd].
    rewrite submitted_app, Hlog. repeat split.
    apply in_or_app. right. now left.
Qed.

Lemma handle_webhook_accepted (w : World) (request : Request) (event_type : str)
    (payload : json) :
  accepted w request event_type payload ->
  outcome (handle_webhook w request) = outcome (process_event w event_type payload) /\
  submitted (trace (handle_webhook w request)) =
    submitted (trace (process_event w event_type payload)).
Proof.
  intros (Hv & He & Hne & Hj & Ht).
  pose proof (verify_signature_submits_nothing (GITHUB_WEBHOOK_SECRET w)
                (data request) (headers_get request "X-Hub-Signature-256")) as Hs.
  unfold handle_webhook. rewrite He, Hj.
  destruct (verify_signature _ _ _) as [tv rv]. cbn [outcome snd trace fst] in *.
  subst rv. destruct event_type as [|c et]; [contradiction|].
  cbv [bind lift ret log emit]. rewrite Ht. cbn [negb].
  destruct (process_event w (c :: et) payload) as [tp rp].
  cbn [outcome trace fst snd]. split; [reflexivity|].
  rewrite !submitted_app, Hs. reflexivity.
Qed.

Lemma handle_webhook_accepted_trace (w : World) (request : Request)
    (event_type : str) (payload : json) :
  accepted w request event_type payload ->
  exists before : list effect,
    trace (handle_webhook w request) =
      before ++ trace (process_event w event_type payload).
Proof.
  intros (Hv & He & Hne & Hj & Ht).
  unfold handle_webhook. rewrite He, Hj.
  destruct (verify_signature _ _ _) as [tv rv]. cbn [outcome snd] in Hv.
  subst rv. destruct event_type as [|c et]; [contradiction|].
  cbv [bind lift ret log emit negb]. rewrite Ht.
  destruct (process_event w (c :: et) payload) as [tp rp].
  cbn [trace fst].
  eexists. rewrite !app_assoc. reflexivity.
Qed.

(** What the [try] block logs, the handler logs. *)
Lemma handle_webhook_accepted_In (w : World) (request : Request)
    (event_type : str) (payload : json) (ev : effect) :
  accepted w request event_type payload ->
  In ev (trace (process_event w event_type payload)) ->
  In ev (trace (handle_webhook w request)).
Proof.
  intros Hacc Hin.
  destruct (handle_webhook_accepted_trace w request event_type payload Hacc)
    as [before ->].
  apply in_or_app. now right.
Qed.

(** ** Push events *)

Lemma format_commit_notification_ok (now : Z) (payload first : json)
    (rest : list json) (message : str) :
  push_schema payload = true ->
  field payload "commits" = Some (JList (first :: rest)) ->
  field first "message" = Some (JStr message) ->
  exists e,
    format_commit_notification now payload = Ok e /\
    field_named "Commits" e =
      Some [Lit (str_of_int (Z.of_nat (List.length (first :: rest))))] /\
    description e =
      Some [Lit (lit "**" ++ slice_to 100 (hd [] (split CHAR_NL message)) ++ lit "**")].
Proof.
  intros H Hc Hm. unfold push_schema in H. rewrite Hc in H.
  unfold commit_schema in H. invert_schema.
  unfold format_commit_notification. read_fields.
  match goal with
  | |- context [index_last (split ?a ?b)] =>
      destruct (index_last_split a b) as [ref ->]
  end.
  cbn [rbind]. read_fields.
  cbn [truthy List.length Nat.eqb negb getitem0 rbind]. read_fields.
  rewrite index_split_0. cbn [rbind]. read_fields. cbn [len rbind].
  eexists. split; [reflexivity|].
  match goal with
  | Hm' : field first "message" = Some (JStr ?m) |- _ =>
      rewrite Hm in Hm'; injection Hm' as <-
  end.
  split; reflexivity.
Qed.

(** The first piece of a split is the text up to the first separator. *)
Lemma split_hd (sep : N) (s : str) :
  ~ In sep (hd [] (split sep s)) /\
  (s = hd [] (split sep s) \/
   exists more, s = hd [] (split sep s) ++ sep :: more).
Proof.
  induction s as [|c s [IHn IHs]]; cbn [split].
  - cbn. split; [tauto | now left].
  - destruct (N.eqb_spec c sep) as [->|Hc].
    + cbn [hd app]. split; [intros [] | right; now exists s].
    + destruct (split sep s) as [|piece rest] eqn:E;
        [now apply split_nonempty in E|].
      cbn [hd] in *. split.
      * intros [H|H]; [congruence | contradiction].
      * destruct IHs as [->|[more ->]]; [now left | right; now exists more].
Qed.

(** C7. A push with an empty or absent commit list produces no
    notification. With commits, the notification's "Commits" field is the
    number of commits in decimal ("1" for a single commit) and its
    description is the first line of the first commit's message (the text
    up to its first line break), cut to its first 100 characters, between
    the bold markers. *)
Theorem push_event_notification :
  (forall (now : Z) (payload : json),
      is_dict payload = true ->
      field payload "commits" = None \/ field payload "commits" = Some (JList []) ->
      handle_push_event now payload = ([], Ok None)) /\
  (forall (now : Z) (payload first : json),
      push_schema payload = true ->
      field payload "commits" = Some (JList [first]) ->
      exists e,
        outcome (handle_push_event now payload) = Ok (Some e) /\
        field_named "Commits" e = Some [Lit (lit "1")]) /\
  (forall (now : Z) (payload first : json) (rest : list json) (message : str),
      push_schema payload = true ->
      field payload "commits" = Some (JList (first :: rest)) ->
      field first "message" = Some (JStr message) ->
      exists (e : Embed) (line : str),
        outcome (handle_push_event now payload) = Ok (Some e) /\
        field_named "Commits" e =
          Some [Lit (str_of_int (Z.of_nat (List.length (first :: rest))))] /\
        ~ In CHAR_NL line /\
        (message = line \/ exists more, message = line ++ CHAR_NL :: more) /\
        description e = Some [Lit (lit "**" ++ firstn 100 line ++ lit "**")] /\
        (List.length (firstn 100 line) <= 100)%nat).
Proof.
  assert (Hmany : forall now payload first rest message,
             push_schema payload = true ->
             field payload "commits" = Some (JList (first :: rest)) ->
             field first "message" = Some (JStr message) ->
             exists e,
               outcome (handle_push_event now payload) = Ok (Some e) /\
               field_named "Commits" e =
                 Some [Lit (str_of_int (Z.of_nat (List.length (first :: rest))))] /\
               description e =
                 Some [Lit (lit "**" ++ slice_to 100 (hd [] (split CHAR_NL message))
                              ++ lit "**")]).
  { intros now payload first rest message H Hc Hm.
    destruct (format_commit_notification_ok now payload first rest message H Hc Hm)
      as (e & He & Hcount & Hdesc).
    exists e. split; [|now split].
    unfold handle_push_event. rewrite (get_field _ _ _ _ Hc), He.
    unfold push_schema in H. rewrite Hc in H. invert_schema. read_fields.
    reflexivity. }
  split; [|split].
  - intros now payload Hd Hc. unfold handle_push_event.
    rewrite (get_dict _ _ _ Hd). destruct Hc as [-> | ->]; reflexivity.
  - intros now payload first H Hc.
    pose proof H as H'. unfold push_schema in H'. rewrite Hc in H'.
    unfold commit_schema in H'. invert_schema.
    match goal with
    | Hm : field first "message" = Some (JStr ?m) |- _ =>
        destruct (Hmany now payload first [] m H Hc Hm) as (e & He & Hcount & _)
    end.
    exists e. now split.
  - intros now payload first rest message H Hc Hm.
    destruct (Hmany now payload first rest message H Hc Hm) as (e & He & Hcount & Hdesc).
    destruct (split_hd CHAR_NL message) as [Hline Hprefix].
    exists e, (hd [] (split CHAR_NL message)).
    split; [exact He | split; [exact Hcount | split; [exact Hline | split]]];
      [exact Hprefix | split; [exact Hdesc | apply firstn_le_length]].
Qed.

Lemma push_event_notification_witness :
  exists e,
    outcome (handle_push_event 0 (sample_push [LONG_COMMIT; sample_commit "Add tests"]))
      = Ok (Some e) /\
    field_named "Commits" e = Some [Lit (lit "2")] /\
    description e = Some [Lit (lit "**" ++ firstn 100 (lit LONG_SUBJECT) ++ lit "**")] /\
    List.length (lit LONG_SUBJECT) = 120%nat.
Proof.
  destruct (proj2 (proj2 push_event_notification) 0
              (sample_push [LONG_COMMIT; sample_commit "Add tests"])
              LONG_COMMIT [sample_commit "Add tests"]
              (lit LONG_SUBJECT ++ [CHAR_NL; CHAR_NL] ++ lit "The body."))
    as (e & line & He & Hcount & _); try reflexivity.
  exists e. split; [exact He | split; [exact Hcount|]].
  vm_compute in He. injection He as <-. split; vm_compute; reflexivity.
Defined.

(** ** Pull request events *)

Lemma field_is_value (payload : json) (key : string) (v : json)
    (values : list string) :
  field payload key = Some v ->
  field_is payload key values = in_strs v (map lit values).
Proof. unfold field_is. now intros ->. Qed.

Lemma format_pull_request_closed (now : Z) (payload pr : json) :
  pull_request_schema payload = true ->
  field payload "action" = Some (JStr (lit "closed")) ->
  field payload "pull_request" = Some pr ->
  exists e,
    format_pull_request_notification now payload = Ok e /\
    field_named "Status" e =
      Some [L (if truthy (merged_flag pr) then "Merged" else "Closed")] /\
    color e = (if truthy (merged_flag pr) then COLOR_PURPLE else COLOR_RED).
Proof.
  intros H Ha Hpr. unfold pull_request_schema in H.
  rewrite (field_is_value _ _ _ _ Ha), Hpr in H. cbn [in_strs map existsb] in H.
  change (eq_str (JStr (lit "closed")) (lit "closed")) with true in H.
  rewrite orb_true_r in H. cbn [orb] in H.
  apply andb_true_iff in H as [_ H].
  apply andb_true_iff in H as [H Hmb]. invert_schema.
  assert (Hd : is_dict pr = true) by eauto using field_is_dict.
  unfold format_pull_request_notification. read_fields.
  rewrite (get_dict _ _ _ Hd). fold (merged_flag pr). cbn [rbind].
  change (eq_str (JStr (lit "closed")) (lit "opened")) with false.
  change (eq_str (JStr (lit "closed")) (lit "closed")) with true.
  cbn [andb].
  unfold merged_by_schema in Hmb. unfold merged_flag in *.
  destruct (field pr "merged") as [merged|] eqn:Em.
  - destruct (truthy merged) eqn:Et; cbn [rbind].
    + rewrite (contains_dict _ _ Hd).
      destruct (field pr "merged_by") as [merged_by|] eqn:Eb; cbn [rbind].
      * read_fields. destruct (truthy merged_by) eqn:Etb.
        -- cbn [negb orb] in Hmb. apply has_inv in Hmb as [login Hl].
           read_fields. eexists. repeat split; reflexivity.
        -- eexists. repeat split; reflexivity.
      * eexists. repeat split; reflexivity.
    + eexists. repeat split; reflexivity.
  - cbn [truthy rbind]. eexists. repeat split; reflexivity.
Qed.

Lemma handle_pull_request_closed (now : Z) (payload pr : json) :
  pull_request_schema payload = true ->
  field payload "action" = Some (JStr (lit "closed")) ->
  field payload "pull_request" = Some pr ->
  exists e,
    outcome (handle_pull_request_event now payload) = Ok (Some e) /\
    field_named "Status" e =
      Some [L (if truthy (merged_flag pr) then "Merged" else "Closed")] /\
    color e = (if truthy (merged_flag pr) then COLOR_PURPLE else COLOR_RED).
Proof.
  intros H Ha Hpr.
  destruct (format_pull_request_closed now payload pr H Ha Hpr) as (e & He & Hs & Hc).
  exists e. split; [|now split].
  unfold handle_pull_request_event. rewrite (getitem_field _ _ _ Ha), He.
  reflexivity.
Qed.

(** C6. A closed pull request always produces a notification; when its
    [merged] flag is true the status is "Merged" in purple, when it is
    false (or missing) the status is "Closed" in red, and the two
    notifications differ. *)
Theorem closed_pull_request_merged_differs
    (now : Z) (p_merged p_closed pr_merged pr_closed : json) :
  pull_request_schema p_merged = true ->
  pull_request_schema p_closed = true ->
  field p_merged "action" = Some (JStr (lit "closed")) ->
  field p_closed "action" = Some (JStr (lit "closed")) ->
  field p_merged "pull_request" = Some pr_merged ->
  field p_closed "pull_request" = Some pr_closed ->
  truthy (merged_flag pr_merged) = true ->
  truthy (merged_flag pr_closed) = false ->
  exists e_merged e_closed,
    outcome (handle_pull_request_event now p_merged) = Ok (Some e_merged) /\
    outcome (handle_pull_request_event now p_closed) = Ok (Some e_closed) /\
    field_named "Status" e_merged = Some [L "Merged"] /\
    color e_merged = COLOR_PURPLE /\
    field_named "Status" e_closed = Some [L "Closed"] /\
    color e_closed = COLOR_RED /\
    e_merged <> e_closed.
Proof.
  intros H1 H2 Ha1 Ha2 Hp1 Hp2 Hm1 Hm2.
  destruct (handle_pull_request_closed now p_merged pr_merged H1 Ha1 Hp1)
    as (e1 & He1 & Hs1 & Hc1).
  destruct (handle_pull_request_closed now p_closed pr_closed H2 Ha2 Hp2)
    as (e2 & He2 & Hs2 & Hc2).
  rewrite Hm1 in Hs1, Hc1. rewrite Hm2 in Hs2, Hc2.
  exists e1, e2. repeat split; try assumption.
  intros E. rewrite E, Hc2 in Hc1. discriminate Hc1.
Qed.

Lemma closed_pull_request_merged_differs_witness :
  exists e_merged e_closed,
    outcome (handle_pull_request_event 0 (sample_pull_request "closed" true))
      = Ok (Some e_merged) /\
    outcome (handle_pull_request_event 0 (sample_pull_request "closed" false))
      = Ok (Some e_closed) /\
    field_named "Status" e_merged = Some [L "Merged"] /\
    field_named "Status" e_closed = Some [L "Closed"] /\
    e_merged <> e_closed.
Proof.
  destruct (closed_pull_request_merged_differs 0
              (sample_pull_request "closed" true) (sample_pull_request "closed" false)
              (D_ [("number", JInt 7); ("title", S_ "Add feature");
                   ("user", D_ [("login", S_ "alice")]);
                   ("head", D_ [("ref", S_ "feature")]);
                   ("base", D_ [("ref", S_ "main")]);
                   ("html_url", S_ "https://github.com/o/r/pull/7");
                   ("merged", JBool true)]%string)
              (D_ [("number", JInt 7); ("title", S_ "Add feature");
                   ("user", D_ [("login", S_ "alice")]);
                   ("head", D_ [("ref", S_ "feature")]);
                   ("base", D_ [("ref", S_ "main")]);
                   ("html_url", S_ "https://github.com/o/r/pull/7");
                   ("merged", JBool false)]%string))
    as (e1 & e2 & He1 & He2 & Hs1 & _ & Hs2 & _ & Hne); try reflexivity.
  exists e1, e2. repeat split; assumption.
Defined.

(** ** The dispatch against the table: whenever no exception is raised *)

Ltac run_in H := cbv [bind lift ret log emit outcome snd] in H.

Lemma handle_push_event_sound (now : Z) (payload : json) (r : option Embed) :
  outcome (handle_push_event now payload) = Ok r ->
  notifies r = match field payload "commits" with
               | Some (JList (_ :: _)) => true
               | _ => false
               end.
Proof.
  unfold handle_push_event. intros H.
  destruct (get payload "commits" JNull) as [commits|] eqn:Eg; [|discriminate H].
  apply get_ok_dict in Eg as [Hd Ec].
  destruct (truthy commits) eqn:Et; run_in H; rewrite Et in H; cbn [negb] in H.
  - destruct (format_commit_notification now payload) as [e|] eqn:Ef;
      [|discriminate H].
    destruct (getitem payload "ref"); [|discriminate H].
    injection H as <-. cbn [notifies].
    unfold format_commit_notification in Ef. peel Ef.
    match goal with
    | E : getitem payload "commits" = Ok ?c |- _ =>
        apply getitem_ok_field in E; rewrite E in Ec |- *; subst c
    end.
    match goal with
    | E : (if truthy commits then _ else _) = Ok _ |- _ =>
        rewrite Et in E; peel E
    end.
    destruct commits as [| | | |[|c s]|[|x l]|]; try discriminate; try reflexivity.
    match goal with
    | E : getitem0 (JStr (c :: s)) = Ok ?k, E' : getitem ?k "message" = Ok _ |- _ =>
        injection E as <-; discriminate E'
    end.
  - injection H as <-. cbn [notifies].
    destruct (field payload "commits") as [c|]; [|reflexivity]. subst commits.
    destruct c as [| | | | |[|x l]|]; try reflexivity. discriminate Et.
Qed.

Lemma handle_by_action_sound (now : Z) (payload : json) (test : json -> bool)
    (format : Z -> json -> result Embed) (note : json -> text)
    (r : option Embed) :
  outcome (action <- lift (getitem payload "action") ;;
           if negb (test action) then ret None
           else
             embed <- lift (format now payload) ;;
             log INFO (note action) ;;
             ret (Some embed))%M = Ok r ->
  notifies r = match field payload "action" with
               | Some action => test action
               | None => false
               end.
Proof.
  intros H.
  destruct (getitem payload "action") as [action|] eqn:Ea; [|discriminate H].
  apply getitem_ok_field in Ea. rewrite Ea.
  run_in H. destruct (test action); cbn [negb] in H.
  - destruct (format now payload); [|discriminate H]. now injection H as <-.
  - now injection H as <-.
Qed.

Lemma handle_branch_event_sound (now : Z) (payload : json) (deleted : bool)
    (verb : string) (r : option Embed) :
  outcome (ref_type <- lift (get payload "ref_type" JNull) ;;
           if negb (eq_str ref_type (lit "branch")) then ret None
           else
             embed <- lift (format_branch_notification now payload deleted) ;;
             log INFO (fstring [L verb; str_of ref_type]) ;;
             ret (Some embed))%M = Ok r ->
  notifies r = field_is payload "ref_type" ["branch"]%string.
Proof.
  intros H.
  destruct (get payload "ref_type" JNull) as [ref_type|] eqn:Eg; [|discriminate H].
  apply get_ok_dict in Eg as [Hd Er].
  assert (Hf : field_is payload "ref_type" ["branch"]%string =
               eq_str ref_type (lit "branch")).
  { unfold field_is. subst ref_type.
    destruct (field payload "ref_type"); cbn [in_strs map existsb];
      [now rewrite orb_false_r | reflexivity]. }
  rewrite Hf. run_in H. destruct (eq_str ref_type (lit "branch")); cbn [negb] in H.
  - destruct (format_branch_notification now payload deleted); [|discriminate H].
    now injection H as <-.
  - now injection H as <-.
Qed.

Lemma handle_review_comment_event_silent (now : Z) (payload : json)
    (r : option Embed) :
  outcome (handle_review_comment_event now payload) = Ok r -> r = None.
Proof.
  unfold handle_review_comment_event. intros H.
  destruct (getitem payload "action") as [action|]; [|discriminate H].
  run_in H. destruct (negb (eq_str action (lit "created")));
    now injection H as <-.
Qed.

Lemma dispatch_event_sound (now : Z) (event_type : str) (payload : json)
    (r : option Embed) :
  outcome (dispatch_event now event_type payload) = Ok r ->
  notifies r = handled event_type payload.
Proof.
  unfold dispatch_event, handled, field_is.
  destruct (str_eqb event_type (lit "push"));
    [apply handle_push_event_sound|].
  destruct (str_eqb event_type (lit "pull_request"));
    [apply (handle_by_action_sound now payload
              (fun action => in_strs action [lit "opened"; lit "closed"; lit "reopened"])
              format_pull_request_notification
              (fun action => fstring [L "Processed pull_request event: "; str_of action]))|].
  destruct (str_eqb event_type (lit "pull_request_review")).
  { intros H.
    apply (handle_by_action_sound now payload
             (fun action => eq_str action (lit "submitted"))
             format_review_notification
             (fun _ => [L "Processed pull_request_review event"])) in H.
    rewrite H. destruct (field payload "action"); [|reflexivity].
    cbn [in_strs map existsb]. now rewrite orb_false_r. }
  destruct (str_eqb event_type (lit "pull_request_review_comment")).
  { intros H. now apply handle_review_comment_event_silent in H as ->. }
  destruct (str_eqb event_type (lit "issues"));
    [apply (handle_by_action_sound now payload
              (fun action => in_strs action [lit "opened"; lit "closed"; lit "reopened"])
              format_issue_notification
              (fun action => fstring [L "Processed issues event: "; str_of action]))|].
  destruct (str_eqb event_type (lit "create"));
    [apply (handle_branch_event_sound now payload false "Processed create event: ")|].
  destruct (str_eqb event_type (lit "delete"));
    [apply (handle_branch_event_sound now payload true "Processed delete event: ")|].
  intros H. run_in H. now injection H as <-.
Qed.

(** ** The dispatch on payloads that follow the schema: no exception *)







Ltac run := cbv [bind lift ret log emit outcome snd].




(** Split a conjunction of closed facts and evaluate each of them. *)
Ltac evaluate :=
  repeat match goal with
         | |- _ /\ _ => split
         end;
  try (vm_compute; reflexivity).



(** ** Payloads with a field missing *)

Lemma handle_push_event_formats (now : Z) (payload : json) (e : Embed) :
  outcome (handle_push_event now payload) = Ok (Some e) ->
  format_commit_notification now payload = Ok e.
Proof.
  unfold handle_push_event. intros H.
  destruct (get payload "commits" JNull) as [commits|]; [|discriminate H].
  run_in H. destruct (negb (truthy commits)); [discriminate H|].
  destruct (format_commit_notification now payload); [|discriminate H].
  destruct (getitem payload "ref"); [|discriminate H].
  now injection H as ->.
Qed.

Lemma handle_by_action_formats (now : Z) (payload : json) (test : json -> bool)
    (format : Z -> json -> result Embed) (note : json -> text) (e : Embed) :
  outcome (action <- lift (getitem payload "action") ;;
           if negb (test action) then ret None
           else
             embed <- lift (format now payload) ;;
             log INFO (note action) ;;
             ret (Some embed))%M = Ok (Some e) ->
  format now payload = Ok e /\ exists action, field payload "action" = Some action.
Proof.
  intros H.
  destruct (getitem payload "action") as [action|] eqn:Ea; [|discriminate H].
  apply getitem_ok_field in Ea.
  run_in H. destruct (negb (test action)); [discriminate H|].
  destruct (format now payload); [|discriminate H].
  injection H as ->. eauto.
Qed.

Lemma handle_branch_event_formats (now : Z) (payload : json) (deleted : bool)
    (verb : string) (e : Embed) :
  outcome (ref_type <- lift (get payload "ref_type" JNull) ;;
           if negb (eq_str ref_type (lit "branch")) then ret None
           else
             embed <- lift (format_branch_notification now payload deleted) ;;
             log INFO (fstring [L verb; str_of ref_type]) ;;
             ret (Some embed))%M = Ok (Some e) ->
  format_branch_notification now payload deleted = Ok e.
Proof.
  intros H.
  destruct (get payload "ref_type" JNull) as [ref_type|]; [|discriminate H].
  run_in H. destruct (negb (eq_str ref_type (lit "branch"))); [discriminate H|].
  destruct (format_branch_notification now payload deleted); [|discriminate H].
  now injection H as ->.
Qed.

(** Collect the fields a successful formatter has read. *)
Ltac fields_read H :=
  peel H;
  repeat match goal with
         | E : getitem _ _ = Ok _ |- _ => apply getitem_ok_field in E
         end.

(** Follow a path along the fields that were read. *)
Ltac follow_path :=
  cbn [at_path];
  repeat match goal with
         | E : field ?v ?k = Some _ |- context [field ?v ?k] => rewrite E
         end;
  eauto.

Ltac pick_path Hin :=
  cbn [In] in Hin;
  repeat (destruct Hin as [<- | Hin]; [follow_path|]);
  contradiction.

(** A notification was formatted only if every required field is there. *)
Lemma dispatch_event_reads_required (now : Z) (event_type : str) (payload : json)
    (e : Embed) (path : list step) :
  outcome (dispatch_event now event_type payload) = Ok (Some e) ->
  In path (required_paths event_type) ->
  exists x, at_path payload path = Some x.
Proof.
  intros H. pose proof (dispatch_event_sound _ _ _ _ H) as Hh. revert H Hh.
  unfold dispatch_event, required_paths, handled, notifies.
  destruct (str_eqb event_type (lit "push")).
  { intros H Hh Hin. apply handle_push_event_formats in H.
    destruct (field payload "commits") as [[| | | | |[|first rest]|]|] eqn:Hc;
      try discriminate Hh.
    unfold format_commit_notification in H.
    rewrite (getitem_field _ _ _ Hc) in H || idtac.
    peel H.
    repeat match goal with
           | E : getitem payload "commits" = Ok ?c |- _ =>
               apply getitem_ok_field in E;
               assert (c = JList (first :: rest)) as -> by congruence
           end.
    match goal with
    | E : (if truthy (JList (first :: rest)) then _ else _) = Ok _ |- _ =>
        change (truthy (JList (first :: rest))) with true in E;
        cbn [getitem0 rbind] in E; peel E
    end.
    repeat match goal with
           | E : getitem _ _ = Ok _ |- _ => apply getitem_ok_field in E
           end.
    pick_path Hin. }
  destruct (str_eqb event_type (lit "pull_request")).
  { intros H _ Hin.
    apply (handle_by_action_formats now payload
             (fun action => in_strs action [lit "opened"; lit "closed"; lit "reopened"])
             format_pull_request_notification
             (fun action => fstring [L "Processed pull_request event: "; str_of action]))
      in H as [H _].
    unfold format_pull_request_notification in H. fields_read H. pick_path Hin. }
  destruct (str_eqb event_type (lit "pull_request_review")).
  { intros H _ Hin.
    apply (handle_by_action_formats now payload
             (fun action => eq_str action (lit "submitted"))
             format_review_notification
             (fun _ => [L "Processed pull_request_review event"]))
      in H as [H [action Ha]].
    unfold format_review_notification in H. fields_read H. pick_path Hin. }
  destruct (str_eqb event_type (lit "pull_request_review_comment")).
  { intros H. now apply handle_review_comment_event_silent in H. }
  destruct (str_eqb event_type (lit "issues")).
  { intros H _ Hin.
    apply (handle_by_action_formats now payload
             (fun action => in_strs action [lit "opened"; lit "closed"; lit "reopened"])
             format_issue_notification
             (fun action => fstring [L "Processed issues event: "; str_of action]))
      in H as [H _].
    unfold format_issue_notification in H. fields_read H. pick_path Hin. }
  destruct (str_eqb event_type (lit "create")).
  { intros H _ Hin.
    apply (handle_branch_event_formats now payload false "Processed create event: ")
      in H.
    unfold format_branch_notification in H. fields_read H. pick_path Hin. }
  destruct (str_eqb event_type (lit "delete")).
  { intros H _ Hin.
    apply (handle_branch_event_formats now payload true "Processed delete event: ")
      in H.
    unfold format_branch_notification in H. fields_read H. pick_path Hin. }
  intros _ _ [].
Qed.

Lemma dispatch_event_without_action (now : Z) (event_type : str) (payload : json) :
  reads_action event_type = true ->
  field payload "action" = None ->
  exists x, outcome (dispatch_event now event_type payload) = Raise x.
Proof.
  intros Hr Ha. destruct (getitem_missing _ _ Ha) as [x Hx].
  unfold reads_action in Hr. unfold dispatch_event.
  destruct (str_eqb event_type (lit "push")) eqn:E1.
  { apply str_eqb_eq in E1. subst event_type. discriminate Hr. }
  destruct (str_eqb event_type (lit "pull_request"));
    [unfold handle_pull_request_event; rewrite Hx; now exists x|].
  destruct (str_eqb event_type (lit "pull_request_review"));
    [unfold handle_review_event; rewrite Hx; now exists x|].
  destruct (str_eqb event_type (lit "pull_request_review_comment"));
    [unfold handle_review_comment_event; rewrite Hx; now exists x|].
  destruct (str_eqb event_type (lit "issues"));
    [unfold handle_issue_event; rewrite Hx; now exists x|].
  discriminate Hr.
Qed.

Lemma handle_webhook_on_raise (w : World) (request : Request) (event_type : str)
    (payload : json) (x : exn) :
  accepted w request event_type payload ->
  outcome (dispatch_event (utcnow w) event_type payload) = Raise x ->
  outcome (handle_webhook w request) = Ok RESPONSE_INTERNAL_ERROR /\
  submitted (trace (handle_webhook w request)) = [].
Proof.
  intros Hacc Hx.
  destruct (handle_webhook_accepted w request event_type payload Hacc) as [-> ->].
  pose proof (process_event_cases w event_type payload) as Hp.
  rewrite Hx in Hp. destruct Hp as (? & ? & _). auto.
Qed.

Lemma handle_webhook_on_none (w : World) (request : Request) (event_type : str)
    (payload : json) :
  accepted w request event_type payload ->
  outcome (dispatch_event (utcnow w) event_type payload) = Ok None ->
  outcome (handle_webhook w request) = Ok RESPONSE_SUCCESS /\
  submitted (trace (handle_webhook w request)) = [].
Proof.
  intros Hacc Hx.
  destruct (handle_webhook_accepted w request event_type payload Hacc) as [-> ->].
  pose proof (process_event_cases w event_type payload) as Hp.
  now rewrite Hx in Hp.
Qed.

(** The login of the merger is read when the pull request is flagged as
    merged and names one. *)
Lemma format_pull_request_reads_merger (now : Z) (payload pr merged_by : json)
    (e : Embed) :
  format_pull_request_notification now payload = Ok e ->
  field payload "pull_request" = Some pr ->
  truthy (merged_flag pr) = true ->
  field pr "merged_by" = Some merged_by ->
  truthy merged_by = true ->
  exists login, field merged_by "login" = Some login.
Proof.
  intros H Hpr Hm Hmb Ht. unfold format_pull_request_notification in H.
  peel_styled H.
  repeat match goal with
         | E : getitem payload "pull_request" = Ok ?x |- _ =>
             apply getitem_ok_field in E;
             assert (x = pr) as -> by congruence
         | E : get pr "merged" _ = Ok ?m |- _ =>
             apply get_ok_dict in E as [_ E];
             change (match field pr "merged" with
                     | Some y => y
                     | None => JBool false
                     end) with (merged_flag pr) in E;
             subst m
         end.
  rewrite Hm in H.
  rewrite (contains_dict pr "merged_by" (field_is_dict _ _ _ Hmb)), Hmb in H.
  cbn [rbind] in H. rewrite (getitem_field _ _ _ Hmb) in H. cbn [rbind] in H.
  rewrite Ht in H.
  destruct (getitem merged_by "login") as [login|] eqn:El; [|discriminate H].
  apply getitem_ok_field in El. eauto.
Qed.

(** C4, as amended. For a request that passed the three checks:
    a payload without [action] under [pull_request], [pull_request_review],
    [pull_request_review_comment] or [issues] is answered 500; so is a
    handled event whose payload lacks, at any depth, a field that its
    handler or formatter reads by subscript, among them the name of the
    pusher and of the repository, the message, author and URL of the first
    commit, the number of the pull request and the login of the one who
    merged it; an object without [ref_type] under [create] or [delete],
    and an object without [commits] under [push], is answered 200 with no
    notification; and the answer is always one of 200 and 500, no
    exception leaves the handler. *)
Theorem missing_payload_fields
    (w : World) (request : Request) (event_type : str) (payload : json) :
  accepted w request event_type payload ->
  (reads_action event_type = true ->
   field payload "action" = None ->
   outcome (handle_webhook w request) = Ok RESPONSE_INTERNAL_ERROR /\
   submitted (trace (handle_webhook w request)) = []) /\
  (forall path : list step,
      handled event_type payload = true ->
      In path (required_paths event_type) ->
      at_path payload path = None ->
      outcome (handle_webhook w request) = Ok RESPONSE_INTERNAL_ERROR /\
      submitted (trace (handle_webhook w request)) = []) /\
  (forall pr merged_by : json,
      event_type = lit "pull_request" ->
      handled event_type payload = true ->
      field payload "pull_request" = Some pr ->
      truthy (merged_flag pr) = true ->
      field pr "merged_by" = Some merged_by ->
      truthy merged_by = true ->
      field merged_by "login" = None ->
      outcome (handle_webhook w request) = Ok RESPONSE_INTERNAL_ERROR /\
      submitted (trace (handle_webhook w request)) = []) /\
  (event_type = lit "create" \/ event_type = lit "delete" ->
   is_dict payload = true ->
   field payload "ref_type" = None ->
   outcome (handle_webhook w request) = Ok RESPONSE_SUCCESS /\
   submitted (trace (handle_webhook w request)) = []) /\
  (event_type = lit "push" ->
   is_dict payload = true ->
   field payload "commits" = None ->
   outcome (handle_webhook w request) = Ok RESPONSE_SUCCESS /\
   submitted (trace (handle_webhook w request)) = []) /\
  (outcome (handle_webhook w request) = Ok RESPONSE_SUCCESS \/
   outcome (handle_webhook w request) = Ok RESPONSE_INTERNAL_ERROR).
Proof.
  intros Hacc.
  assert (Hformatted : forall P : Prop,
             handled event_type payload = true ->
             (forall e, outcome (dispatch_event (utcnow w) event_type payload)
                        = Ok (Some e) -> P -> False) ->
             P ->
             outcome (handle_webhook w request) = Ok RESPONSE_INTERNAL_ERROR /\
             submitted (trace (handle_webhook w request)) = []).
  { intros P Hh Hread HP.
    destruct (outcome (dispatch_event (utcnow w) event_type payload)) as [r|x] eqn:Hd;
      [|exact (handle_webhook_on_raise w request event_type payload x Hacc Hd)].
    exfalso.
    pose proof (dispatch_event_sound _ _ _ _ Hd) as Hn. rewrite Hh in Hn.
    destruct r as [e|]; [|discriminate Hn].
    exact (Hread e eq_refl HP). }
  repeat match goal with |- _ /\ _ => split end.
  - intros Hr Ha.
    destruct (dispatch_event_without_action (utcnow w) event_type payload Hr Ha)
      as [x Hx].
    exact (handle_webhook_on_raise w request event_type payload x Hacc Hx).
  - intros path Hh Hin Hnone.
    apply (Hformatted (at_path payload path = None) Hh); [|exact Hnone].
    intros e Hd Hn.
    destruct (dispatch_event_reads_required _ _ _ _ path Hd Hin) as [v Hv].
    congruence.
  - intros pr merged_by -> Hh Hpr Hm Hmb Ht Hlogin.
    apply (Hformatted (field merged_by "login" = None) Hh); [|exact Hlogin].
    intros e Hd Hn. unfold dispatch_event in Hd.
    change (str_eqb (lit "pull_request") (lit "push")) with false in Hd.
    change (str_eqb (lit "pull_request") (lit "pull_request")) with true in Hd.
    cbv iota in Hd.
    apply (handle_by_action_formats (utcnow w) payload
             (fun action => in_strs action [lit "opened"; lit "closed"; lit "reopened"])
             format_pull_request_notification
             (fun action => fstring [L "Processed pull_request event: "; str_of action]))
      in Hd as [Hd _].
    destruct (format_pull_request_reads_merger _ _ _ _ _ Hd Hpr Hm Hmb Ht)
      as [login Hl].
    congruence.
  - intros Het Hdict Hnone.
    apply (handle_webhook_on_none w request event_type payload Hacc).
    destruct Het as [-> | ->]; unfold dispatch_event;
      [change (str_eqb (lit "create") (lit "push")) with false;
       change (str_eqb (lit "create") (lit "pull_request")) with false;
       change (str_eqb (lit "create") (lit "pull_request_review")) with false;
       change (str_eqb (lit "create") (lit "pull_request_review_comment")) with false;
       change (str_eqb (lit "create") (lit "issues")) with false;
       change (str_eqb (lit "create") (lit "create")) with true;
       cbv iota; unfold handle_create_event
      |change (str_eqb (lit "delete") (lit "push")) with false;
       change (str_eqb (lit "delete") (lit "pull_request")) with false;
       change (str_eqb (lit "delete") (lit "pull_request_review")) with false;
       change (str_eqb (lit "delete") (lit "pull_request_review_comment")) with false;
       change (str_eqb (lit "delete") (lit "issues")) with false;
       change (str_eqb (lit "delete") (lit "create")) with false;
       change (str_eqb (lit "delete") (lit "delete")) with true;
       cbv iota; unfold handle_delete_event];
      rewrite (get_dict _ _ _ Hdict), Hnone; reflexivity.
  - intros -> Hdict Hnone.
    apply (handle_webhook_on_none w request (lit "push") payload Hacc).
    unfold dispatch_event.
    change (str_eqb (lit "push") (lit "push")) with true. cbv iota.
    unfold handle_push_event. rewrite (get_dict _ _ _ Hdict), Hnone. reflexivity.
  - destruct (handle_webhook_accepted w request event_type payload Hacc) as [-> _].
    pose proof (process_event_cases w event_type payload) as Hp.
    destruct (outcome (dispatch_event (utcnow w) event_type payload)) as [r|x];
      [destruct (delivery w r); [left|right] | right]; apply Hp.
Qed.

Lemma missing_payload_fields_witness :
  (outcome (handle_webhook SAMPLE_WORLD CREATE_WITHOUT_REF_TYPE) = Ok RESPONSE_SUCCESS /\
   submitted (trace (handle_webhook SAMPLE_WORLD CREATE_WITHOUT_REF_TYPE)) = []) /\
  (outcome (handle_webhook SAMPLE_WORLD PUSH_WITHOUT_MESSAGE)
     = Ok RESPONSE_INTERNAL_ERROR /\
   submitted (trace (handle_webhook SAMPLE_WORLD PUSH_WITHOUT_MESSAGE)) = []).
Proof.
  split.
  - destruct (missing_payload_fields SAMPLE_WORLD CREATE_WITHOUT_REF_TYPE (lit "create")
                (D_ [("ref", S_ "feature-x")]%string))
      as (_ & _ & _ & Hcreate & _).
    + unfold accepted. evaluate. discriminate.
    + apply Hcreate; [now left | reflexivity | reflexivity].
  - destruct (missing_payload_fields SAMPLE_WORLD PUSH_WITHOUT_MESSAGE (lit "push")
                (sample_push [D_ [("author", D_ [("name", S_ "alice")]);
                                  ("url", S_ "https://github.com/o/r/commit/1")]%string]))
      as (_ & Hpath & _).
    + unfold accepted. evaluate. discriminate.
    + apply (Hpath [Key "commits"; First; Key "message"]%string).
      * reflexivity.
      * vm_compute. tauto.
      * reflexivity.
Defined.

(** C4 as stated fails: a [create] delivery whose payload has no
    [ref_type] is not answered 500; it is answered 200 and nothing is
    sent. *)
Lemma create_without_ref_type_is_answered_200 :
  accepted SAMPLE_WORLD CREATE_WITHOUT_REF_TYPE (lit "create")
    (D_ [("ref", S_ "feature-x")]%string) /\
  field (D_ [("ref", S_ "feature-x")]%string) "ref_type" = None /\
  outcome (handle_webhook SAMPLE_WORLD CREATE_WITHOUT_REF_TYPE) = Ok RESPONSE_SUCCESS /\
  status RESPONSE_SUCCESS = 200 /\
  submitted (trace (handle_webhook SAMPLE_WORLD CREATE_WITHOUT_REF_TYPE)) = [].
Proof.
  unfold accepted. evaluate. discriminate.
Qed.

(** ** The order of the checks in [handle_webhook] *)

Lemma verify_signature_never_parses (secret payload : list byte)
    (signature : option str) :
  never_parsed (verify_signature secret payload signature).
Proof.
  unfold never_parsed, verify_signature, hmac_hexdigest.
  cbv [bind lift ret log emit trace fst].
  repeat (case_scrutinee; cbn [app]); cbn [In]; intuition discriminate.
Qed.

(** Signature first, then the event type, then the payload; whenever
    [verify_signature] returns, the answer is the documented one. *)
Lemma handle_webhook_responses (w : World) (request : Request) :
  match outcome (verify_signature (GITHUB_WEBHOOK_SECRET w) (data request)
                   (headers_get request "X-Hub-Signature-256")) with
  | Raise x => outcome (handle_webhook w request) = Raise x
  | Ok false =>
      outcome (handle_webhook w request) = Ok RESPONSE_INVALID_SIGNATURE /\
      never_parsed (handle_webhook w request) /\
      submitted (trace (handle_webhook w request)) = []
  | Ok true =>
      match headers_get request "X-GitHub-Event" with
      | None | Some [] =>
          outcome (handle_webhook w request) = Ok RESPONSE_NO_EVENT_TYPE /\
          never_parsed (handle_webhook w request)
      | Some _ =>
          match request_json request with
          | Raise x => outcome (handle_webhook w request) = Raise x
          | Ok payload =>
              if truthy payload then
                outcome (handle_webhook w request) = Ok RESPONSE_SUCCESS \/
                outcome (handle_webhook w request) = Ok RESPONSE_INTERNAL_ERROR
              else
                outcome (handle_webhook w request) = Ok RESPONSE_NO_PAYLOAD
          end
      end
  end.
Proof.
  pose proof (verify_signature_never_parses (GITHUB_WEBHOOK_SECRET w)
                (data request) (headers_get request "X-Hub-Signature-256")) as Hnp.
  pose proof (verify_signature_submits_nothing (GITHUB_WEBHOOK_SECRET w)
                (data request) (headers_get request "X-Hub-Signature-256")) as Hns.
  unfold handle_webhook, never_parsed in *.
  destruct (verify_signature _ _ _) as [tv [[|]|x]]; cbn [outcome snd trace fst] in *.
  - destruct (headers_get request "X-GitHub-Event") as [[|c et]|].
    + cbv [bind ret log emit outcome trace fst snd negb]. split; [reflexivity|].
      rewrite in_app_iff. cbn [In app]. intuition congruence.
    + destruct (request_json request) as [payload|x]; [|reflexivity].
      destruct (truthy payload) eqn:Et.
      * pose proof (process_event_cases w (c :: et) payload) as Hp.
        cbv [bind lift ret log emit]. rewrite Et. cbn [negb].
        destruct (process_event w (c :: et) payload) as [tp rp].
        cbn [outcome snd] in *.
        destruct (outcome (dispatch_event (utcnow w) (c :: et) payload)) as [r|x];
          [destruct (delivery w r); [left|right] | right]; apply Hp.
      * cbv [bind lift ret log emit outcome snd]. rewrite Et. reflexivity.
    + cbv [bind ret log emit outcome trace fst snd negb]. split; [reflexivity|].
      rewrite in_app_iff. cbn [In app]. intuition congruence.
  - cbv [bind ret log emit outcome trace fst snd negb]. split; [reflexivity|]. split.
    + rewrite in_app_iff. cbn [In app]. intuition congruence.
    + rewrite submitted_app, Hns. reflexivity.
  - reflexivity.
Qed.

(** C3 fails on the code at this request: the text after [sha256=] is not
    ASCII, [hmac.compare_digest] raises [TypeError] inside
    [verify_signature], outside the [try] block of [handle_webhook]; the
    request ends in an unhandled exception, not in the 401 response. *)
Theorem handle_webhook_non_ascii_signature_raises :
  outcome (verify_signature (GITHUB_WEBHOOK_SECRET SAMPLE_WORLD)
             (data NON_ASCII_SIGNATURE)
             (headers_get NON_ASCII_SIGNATURE "X-Hub-Signature-256"))
    = Raise TypeError /\
  outcome (handle_webhook SAMPLE_WORLD NON_ASCII_SIGNATURE) = Raise TypeError /\
  outcome (handle_webhook SAMPLE_WORLD NON_ASCII_SIGNATURE)
    <> Ok RESPONSE_INVALID_SIGNATURE.
Proof.
  evaluate. vm_compute. discriminate.
Qed.

(** ** The commands when the hosting-platform call fails *)

Lemma wrapper_cases {A B} (r : result A) (note : A -> text) (f : A -> B)
    (complaint : exn -> text) (fallback : B) :
  GitHubAPI.except_GithubException
    (x <- lift r ;; log INFO (note x) ;; ret (f x))%M
    (fun e => log ERROR (complaint e) ;; ret fallback)%M =
  match r with
  | Ok a => ([Log INFO (note a)], Ok (f a))
  | Raise GithubException => ([Log ERROR (complaint GithubException)], Ok fallback)
  | Raise x => ([], Raise x)
  end.
Proof. destruct r as [a|[]]; reflexivity. Qed.





(* ================================================================ *)
(** * Further properties of the code *)

(** ** [verify_signature]: exactly what is accepted, and when it raises *)

Lemma compare_digest_true (a b : str) :
  compare_digest a b = Ok true -> a = b.
Proof.
  unfold compare_digest. destruct (isascii a && isascii b); [|discriminate].
  intros [= H]. now apply str_eqb_eq.
Qed.

Lemma compare_digest_raise (a b : str) (e : exn) :
  compare_digest a b = Raise e -> e = TypeError /\ isascii a && isascii b = false.
Proof.
  unfold compare_digest. destruct (isascii a && isascii b); [discriminate|].
  now intros [= <-].
Qed.

(** The shape of the three ways [verify_signature] starts. *)
Lemma verify_signature_shape (secret payload : list byte) (signature : option str) :
  (outcome (verify_signature secret payload signature) = Ok false /\
   hmacs (trace (verify_signature secret payload signature)) = [] /\
   forall rest, signature <> Some (lit "sha256=" ++ rest)) \/
  (exists rest,
      signature = Some (lit "sha256=" ++ rest) /\
      hmacs (trace (verify_signature secret payload signature)) = [(secret, payload)]).
Proof.
  destruct signature as [[|c s]|].
  - left. repeat split. intros rest H. discriminate H.
  - destruct (startswith (c :: s) (lit "sha256=")) eqn:Hs.
    + right. destruct (startswith_inv _ _ Hs) as [rest Hrest].
      exists rest. split; [now rewrite Hrest|]. rewrite Hrest.
      pose proof (received_hash_after_tag rest) as Hr.
      unfold verify_signature.
      change (lit "sha256=" ++ rest) with (115 :: lit "ha256=" ++ rest)%N in *.
      cbv beta iota.
      rewrite (startswith_app (lit "sha256=") rest
               : startswith (115%N :: lit "ha256=" ++ rest) (lit "sha256=") = true).
      cbn [negb]. rewrite Hr.
      cbv [trace hmac_hexdigest lift bind emit ret log fst].
      destruct (compare_digest _ _) as [[|]|e]; reflexivity.
    + left. unfold verify_signature. rewrite Hs. cbn [negb]. repeat split.
      intros rest H.
      apply (f_equal (fun o => match o with
                               | Some x => startswith x (lit "sha256=")
                               | None => true
                               end)) in H.
      cbv beta iota in H. rewrite Hs, startswith_app in H. discriminate H.
  - left. repeat split. intros rest H. discriminate H.
Qed.

(** X1. [verify_signature] returns [True] exactly for the signatures that
    start with [sha256=] and carry, between that tag and the next ['='] (or
    the end), the expected lowercase hexadecimal HMAC-SHA256 of the payload
    under the secret. *)
Theorem verify_signature_accepts_iff
    (secret payload : list byte) (signature : option str) :
  outcome (verify_signature secret payload signature) = Ok true <->
  exists rest,
    signature = Some (lit "sha256=" ++ rest) /\
    hd [] (split CHAR_EQ rest) = HMAC.hexdigest secret payload.
Proof.
  split.
  - intros H.
    destruct (verify_signature_shape secret payload signature)
      as [(Hf & _) | (rest & -> & _)]; [congruence|].
    exists rest. split; [reflexivity|].
    rewrite verify_signature_tagged in H. now apply compare_digest_true in H.
  - intros (rest & -> & Hr). rewrite verify_signature_tagged, Hr.
    rewrite compare_digest_hexdigest. now rewrite str_eqb_refl.
Qed.

(** Given the bytes of the secret, only the comparison can raise. *)
Lemma verify_signature_raises_encoded
    (secret payload : list byte) (signature : option str) (e : exn) :
  outcome (verify_signature secret payload signature) = Raise e <->
  e = TypeError /\
  exists rest,
    signature = Some (lit "sha256=" ++ rest) /\
    isascii (hd [] (split CHAR_EQ rest)) = false.
Proof.
  split.
  - intros H.
    destruct (verify_signature_shape secret payload signature)
      as [(Hf & _) | (rest & -> & _)]; [congruence|].
    rewrite verify_signature_tagged in H.
    apply compare_digest_raise in H as [-> H]. split; [reflexivity|].
    exists rest. split; [reflexivity|].
    now rewrite hexdigest_isascii in H.
  - intros (-> & rest & -> & Hr). rewrite verify_signature_tagged.
    unfold compare_digest. now rewrite Hr, andb_false_r.
Qed.

(** ** The secret and its encoding *)

(** The encoder on the code points of one, two, three and four bytes. *)
Lemma encode_utf8_examples :
  encode_utf8 [97; 233; 8364; 128512]%N =
  Ok [x61; xc3; xa9; xe2; x82; xac; xf0; x9f; x98; x80].
Proof. vm_compute. reflexivity. Qed.

Lemma encode_utf8_raise (s : str) (e : exn) :
  encode_utf8 s = Raise e <-> e = UnicodeEncodeError /\ existsb is_surrogate s = true.
Proof.
  induction s as [|c s IH]; cbn [encode_utf8 existsb].
  - split; [discriminate | intros [_ H]; discriminate H].
  - destruct (is_surrogate c); cbn [orb].
    + split; [now intros [= <-] | now intros [-> _]].
    + rewrite <- IH. destruct (encode_utf8 s); split; try discriminate;
        congruence.
Qed.

Lemma encode_utf8_ok (s : str) :
  existsb is_surrogate s = false <-> exists bytes, encode_utf8 s = Ok bytes.
Proof.
  destruct (encode_utf8 s) as [bytes|e] eqn:E.
  - split; [now exists bytes|]. intros _.
    destruct (existsb is_surrogate s) eqn:Ex; [|reflexivity].
    assert (encode_utf8 s = Raise UnicodeEncodeError) by now apply encode_utf8_raise.
    congruence.
  - apply encode_utf8_raise in E as [_ E]. rewrite E. split; [discriminate|].
    intros [bytes H]. discriminate H.
Qed.

(** Once the secret has been encoded, the function is [verify_signature]
    on its bytes. *)
Lemma verify_signature_configured_encoded
    (configured : option str) (secret payload : list byte) (signature : option str) :
  encode_secret configured = Ok secret ->
  verify_signature_configured configured payload signature =
  verify_signature secret payload signature.
Proof.
  intros H. unfold verify_signature_configured, verify_signature.
  destruct signature as [[|c s]|]; try reflexivity.
  destruct (negb (startswith (c :: s) (lit "sha256="))); [reflexivity|].
  cbv [bind lift hmac_hexdigest emit ret log]. rewrite H.
  destruct (index _ 1) as [received_hash|]; [|reflexivity].
  destruct (compare_digest _ received_hash) as [[|]|]; reflexivity.
Qed.

(** A secret that is not there, or cannot be encoded, ends the call after
    the tests of the signature, and before anything is hashed. *)
Lemma verify_signature_configured_unencoded
    (configured : option str) (payload : list byte) (signature : option str)
    (e : exn) :
  encode_secret configured = Raise e ->
  hmacs (trace (verify_signature_configured configured payload signature)) = [] /\
  ((outcome (verify_signature_configured configured payload signature) = Ok false /\
    forall rest, signature <> Some (lit "sha256=" ++ rest)) \/
   (outcome (verify_signature_configured configured payload signature) = Raise e /\
    exists rest, signature = Some (lit "sha256=" ++ rest))).
Proof.
  intros H. unfold verify_signature_configured.
  destruct signature as [[|c s]|].
  - split; [reflexivity|]. left. split; [reflexivity|]. intros rest E. discriminate E.
  - destruct (startswith (c :: s) (lit "sha256=")) eqn:Hs; cbn [negb].
    + destruct (startswith_inv _ _ Hs) as [rest Hrest]. rewrite Hrest.
      rewrite received_hash_after_tag. cbv [bind lift]. rewrite H.
      split; [reflexivity|]. right. split; [reflexivity | now exists rest].
    + split; [reflexivity|]. left. split; [reflexivity|].
      intros rest E.
      apply (f_equal (fun o => match o with
                               | Some x => startswith x (lit "sha256=")
                               | None => true
                               end)) in E.
      cbv beta iota in E. rewrite Hs, startswith_app in E. discriminate E.
  - split; [reflexivity|]. left. split; [reflexivity|]. intros rest E. discriminate E.
Qed.

(** X2. [verify_signature] raises in exactly three cases, all of them
    after the signature has been found to start with [sha256=]:
    [AttributeError] when the secret is not configured, [UnicodeEncodeError]
    when the configured secret holds a surrogate code point and so cannot
    be encoded, and [TypeError] when the secret encodes and the text
    between the tag and the next ['='] holds a character that is not ASCII.
    On every other input it returns a boolean. *)
Theorem verify_signature_raises_iff
    (configured : option str) (payload : list byte) (signature : option str)
    (e : exn) :
  outcome (verify_signature_configured configured payload signature) = Raise e <->
  exists rest,
    signature = Some (lit "sha256=" ++ rest) /\
    ((configured = None /\ e = AttributeError) \/
     (exists s, configured = Some s /\ existsb is_surrogate s = true /\
                e = UnicodeEncodeError) \/
     (exists s, configured = Some s /\ existsb is_surrogate s = false /\
                isascii (hd [] (split CHAR_EQ rest)) = false /\ e = TypeError)).
Proof.
  destruct (encode_secret configured) as [secret|x] eqn:Hsecret.
  - rewrite (verify_signature_configured_encoded _ _ _ _ Hsecret).
    rewrite verify_signature_raises_encoded.
    destruct configured as [s|]; [|discriminate Hsecret]. cbn [encode_secret] in Hsecret.
    assert (existsb is_surrogate s = false) as Hs
      by (apply encode_utf8_ok; now exists secret).
    split.
    + intros (-> & rest & -> & Hr). exists rest. split; [reflexivity|].
      right. right. now exists s.
    + intros (rest & -> & [[H _]|[(s' & H & Hs' & _)|(s' & H & _ & Hr & ->)]]).
      * discriminate H.
      * injection H as <-. congruence.
      * split; [reflexivity|]. now exists rest.
  - destruct (verify_signature_configured_unencoded configured payload signature x
                Hsecret) as [_ [[Ho Hn]|[Ho [rest Hr]]]]; rewrite Ho.
    + split; [discriminate|]. intros (rest & Hr & _). now apply Hn in Hr.
    + split.
      * intros [= <-]. exists rest. split; [exact Hr|].
        destruct configured as [s|]; cbn [encode_secret] in Hsecret.
        -- apply encode_utf8_raise in Hsecret as [-> Hs]. right. left. now exists s.
        -- injection Hsecret as <-. now left.
      * intros (rest' & _ & [[-> ->]|[(s & -> & Hs & ->)|(s & -> & Hs & _)]]).
        -- cbn in Hsecret. congruence.
        -- cbn [encode_secret] in Hsecret.
           apply encode_utf8_raise in Hsecret as [-> _]. reflexivity.
        -- cbn [encode_secret] in Hsecret.
           apply encode_utf8_raise in Hsecret as [_ Hs']. congruence.
Qed.

(** ** [handle_webhook]: what is hashed and what is handed over *)

Lemma hmacs_app (t1 t2 : list effect) : hmacs (t1 ++ t2) = hmacs t1 ++ hmacs t2.
Proof. unfold hmacs. now rewrite flat_map_app. Qed.

Lemma hmacs_logs (t : list effect) : forallb is_log t = true -> hmacs t = [].
Proof.
  induction t as [|ev t IH]; [reflexivity|]. cbn [forallb].
  intros H. apply andb_true_iff in H as [Hev Ht].
  destruct ev; try discriminate. cbn. auto.
Qed.

(** The effects of [process_event]: the handler's log entries, then at
    most one of a submission and the error entry. *)
Lemma process_event_trace (w : World) (event_type : str) (payload : json) :
  exists tail,
    trace (process_event w event_type payload) =
      trace (dispatch_event (utcnow w) event_type payload) ++ tail /\
    hmacs tail = [] /\
    (tail = [] \/ (exists e, tail = [Submit e]) \/ (exists x, tail = [ERROR_LOG x])).
Proof.
  unfold process_event.
  destruct (dispatch_event (utcnow w) event_type payload) as [t [[e|]|x]];
    cbn [trace fst].
  - destruct (discord_bot w); [destruct (hand_off w) as [[]|x]|];
      cbv [bind lift ret emit log try_except trace fst snd].
    + exists [Submit e]. rewrite ?app_nil_r. repeat split. right. left. now exists e.
    + exists [ERROR_LOG x]. rewrite ?app_nil_r. repeat split. right. right. now exists x.
    + exists []. rewrite !app_nil_r. repeat split. now left.
  - cbv [bind ret emit log try_except trace fst snd].
    exists []. rewrite !app_nil_r. repeat split. now left.
  - cbv [bind ret emit log try_except trace fst snd].
    exists [ERROR_LOG x]. repeat split. right. right. now exists x.
Qed.

Lemma process_event_hmacs (w : World) (event_type : str) (payload : json) :
  hmacs (trace (process_event w event_type payload)) = [].
Proof.
  destruct (process_event_trace w event_type payload) as (tail & -> & Ht & _).
  rewrite hmacs_app, Ht, app_nil_r.
  apply hmacs_logs, handlers_log_only.
Qed.

Ltac hmacs_tail :=
  rewrite ?hmacs_app; cbn [hmacs flat_map app]; rewrite ?app_nil_r; reflexivity.

Lemma handle_webhook_hmacs (w : World) (request : Request) :
  hmacs (trace (handle_webhook w request)) =
  hmacs (trace (verify_signature (GITHUB_WEBHOOK_SECRET w) (data request)
                  (headers_get request "X-Hub-Signature-256"))).
Proof.
  unfold handle_webhook.
  destruct (verify_signature _ _ _) as [tv [[|]|x]]; cbn [trace fst].
  - destruct (headers_get request "X-GitHub-Event") as [[|c et]|].
    + cbv [bind ret log emit trace fst snd negb]. hmacs_tail.
    + destruct (request_json request) as [payload|x].
      * pose proof (process_event_hmacs w (c :: et) payload) as Hp.
        cbv [bind lift ret log emit negb]. destruct (truthy payload).
        -- destruct (process_event w (c :: et) payload) as [tp rp].
           cbn [trace fst] in *. rewrite !hmacs_app, Hp. hmacs_tail.
        -- cbn [trace fst]. hmacs_tail.
      * cbv [bind lift ret log emit trace fst negb]. hmacs_tail.
    + cbv [bind ret log emit trace fst snd negb]. hmacs_tail.
  - cbv [bind ret log emit trace fst snd negb]. hmacs_tail.
  - reflexivity.
Qed.

(** X3. With the configured secret encoded to the bytes the handler
    works with, [handle_webhook] computes at most one HMAC per request,
    keyed with these bytes and taken over [request.data], the bytes of the
    body as the framework exposes them; nothing else is ever hashed, and
    nothing is hashed when the signature header lacks the [sha256=] tag.
    When the configured secret is absent or cannot be encoded,
    [verify_signature] hashes nothing at all. *)
Theorem handle_webhook_hashes_raw_body_once (w : World) (request : Request) :
  ((hmacs (trace (handle_webhook w request)) = [] /\
    forall rest,
      headers_get request "X-Hub-Signature-256" <> Some (lit "sha256=" ++ rest)) \/
   (hmacs (trace (handle_webhook w request)) =
      [(GITHUB_WEBHOOK_SECRET w, data request)] /\
    exists rest,
      headers_get request "X-Hub-Signature-256" = Some (lit "sha256=" ++ rest))) /\
  (forall configured : option str,
      encode_secret configured = Ok (GITHUB_WEBHOOK_SECRET w) ->
      verify_signature_configured configured (data request)
        (headers_get request "X-Hub-Signature-256") =
      verify_signature (GITHUB_WEBHOOK_SECRET w) (data request)
        (headers_get request "X-Hub-Signature-256")) /\
  (forall (configured : option str) (e : exn),
      encode_secret configured = Raise e ->
      hmacs (trace (verify_signature_configured configured (data request)
                      (headers_get request "X-Hub-Signature-256"))) = []).
Proof.
  split; [|split].
  - rewrite handle_webhook_hmacs.
    destruct (verify_signature_shape (GITHUB_WEBHOOK_SECRET w) (data request)
                (headers_get request "X-Hub-Signature-256"))
      as [(_ & Hh & Hn) | (rest & Hs & Hh)].
    + left. now split.
    + right. split; [exact Hh | now exists rest].
  - intros configured H. now apply verify_signature_configured_encoded.
  - intros configured e H.
    now apply (verify_signature_configured_unencoded configured _ _ e).
Qed.

Lemma handle_webhook_hashes_raw_body_once_witness :
  hmacs (trace (handle_webhook SAMPLE_WORLD PUSH_OF_TWO_COMMITS)) =
    [(ascii_bytes "s3cret", data PUSH_OF_TWO_COMMITS)] /\
  verify_signature_configured (Some (lit "s3cret")) (data PUSH_OF_TWO_COMMITS)
    (headers_get PUSH_OF_TWO_COMMITS "X-Hub-Signature-256") =
  verify_signature (ascii_bytes "s3cret") (data PUSH_OF_TWO_COMMITS)
    (headers_get PUSH_OF_TWO_COMMITS "X-Hub-Signature-256") /\
  hmacs (trace (verify_signature_configured (Some (lit "s3cr" ++ [56550%N]))
                  (data PUSH_OF_TWO_COMMITS)
                  (headers_get PUSH_OF_TWO_COMMITS "X-Hub-Signature-256"))) = [].
Proof.
  destruct (handle_webhook_hashes_raw_body_once SAMPLE_WORLD PUSH_OF_TWO_COMMITS)
    as (Hone & Hencoded & Hunencoded).
  split; [|split].
  - destruct Hone as [[_ Hn]|[Hh _]]; [|exact Hh].
    exfalso. apply (Hn (HMAC.hexdigest (ascii_bytes "s3cret")
                          (data PUSH_OF_TWO_COMMITS))).
    reflexivity.
  - apply Hencoded. vm_compute. reflexivity.
  - apply (Hunencoded _ UnicodeEncodeError). vm_compute. reflexivity.
Defined.

Ltac submitted_tail :=
  rewrite ?submitted_app; cbn [submitted flat_map app]; rewrite ?app_nil_r;
  try assumption; try reflexivity.

Lemma handle_webhook_submitted (w : World) (request : Request) :
  submitted (trace (handle_webhook w request)) = [] \/
  exists e,
    submitted (trace (handle_webhook w request)) = [e] /\
    discord_bot w = true /\
    outcome (handle_webhook w request) = Ok RESPONSE_SUCCESS.
Proof.
  pose proof (verify_signature_submits_nothing (GITHUB_WEBHOOK_SECRET w)
                (data request) (headers_get request "X-Hub-Signature-256")) as Hns.
  unfold handle_webhook.
  destruct (verify_signature _ _ _) as [tv [[|]|x]]; cbn [trace fst] in Hns.
  - destruct (headers_get request "X-GitHub-Event") as [[|c et]|].
    + left. cbv [bind ret log emit trace fst snd negb]. submitted_tail.
    + destruct (request_json request) as [payload|x].
      * pose proof (process_event_cases w (c :: et) payload) as Hp.
        cbv [bind lift ret log emit negb]. destruct (truthy payload).
        -- destruct (process_event w (c :: et) payload) as [tp rp].
           cbn [outcome trace fst snd] in *.
           destruct (outcome (dispatch_event (utcnow w) (c :: et) payload))
             as [[e|]|x]; cbn [delivery handed_over] in Hp.
           ++ destruct (discord_bot w); [destruct (hand_off w) as [[]|x]|].
              ** destruct Hp as [-> Hp].
                 right. exists e. repeat split. rewrite !submitted_app, Hns, Hp.
                 reflexivity.
              ** left. destruct Hp as (_ & Hp & _).
                 rewrite !submitted_app, Hns, Hp. reflexivity.
              ** left. destruct Hp as [_ Hp].
                 rewrite !submitted_app, Hns, Hp. reflexivity.
           ++ left. destruct Hp as [_ Hp]. rewrite !submitted_app, Hns, Hp.
              reflexivity.
           ++ left. destruct Hp as (_ & Hp & _). rewrite !submitted_app, Hns, Hp.
              reflexivity.
        -- left. cbn [trace fst]. submitted_tail.
      * left. cbv [bind lift ret log emit trace fst negb]. submitted_tail.
    + left. cbv [bind ret log emit trace fst snd negb]. submitted_tail.
  - left. cbv [bind ret log emit trace fst snd negb]. submitted_tail.
  - left. exact Hns.
Qed.

(** X4. Whatever the request, [handle_webhook] hands at most one embed to
    the chat client; it hands over none while the global [discord_bot] is
    [None], and none unless it answers 200 [{"status": "success"}]. *)
Theorem handle_webhook_submits_at_most_once (w : World) (request : Request) :
  (List.length (submitted (trace (handle_webhook w request))) <= 1)%nat /\
  (discord_bot w = false -> submitted (trace (handle_webhook w request)) = []) /\
  (outcome (handle_webhook w request) <> Ok RESPONSE_SUCCESS ->
   submitted (trace (handle_webhook w request)) = []).
Proof.
  destruct (handle_webhook_submitted w request) as [-> | (e & -> & Hb & Ho)].
  - repeat split; auto.
  - repeat split; [cbn; lia | congruence | congruence].
Qed.

(** ** Event types outside the [if]/[elif] chain *)

Lemma dispatch_event_unlisted (now : Z) (event_type : str) (payload : json) :
  ~ In event_type DISPATCHED_EVENT_TYPES ->
  dispatch_event now event_type payload =
    ([Log INFO (fstring [L "Unhandled event type: "; Lit event_type])], Ok None).
Proof.
  intros Hn. unfold dispatch_event.
  repeat match goal with
         | |- context [str_eqb event_type ?name] =>
             let E := fresh "E" in
             destruct (str_eqb event_type name) eqn:E;
             [apply str_eqb_eq in E; exfalso; apply Hn; rewrite E;
              cbn; tauto|]
         end.
  reflexivity.
Qed.

(** X5. An event type outside the seven names of the dispatch chain (the
    comparison is exact and case-sensitive) is answered 200 whatever the
    payload holds: the payload is not inspected, nothing is sent, and the
    only effect of the dispatch is the log entry "Unhandled event type". *)
Theorem unlisted_event_type_is_logged_and_answered_200
    (w : World) (request : Request) (event_type : str) (payload : json) :
  accepted w request event_type payload ->
  ~ In event_type DISPATCHED_EVENT_TYPES ->
  outcome (handle_webhook w request) = Ok RESPONSE_SUCCESS /\
  submitted (trace (handle_webhook w request)) = [] /\
  trace (dispatch_event (utcnow w) event_type payload) =
    [Log INFO (fstring [L "Unhandled event type: "; Lit event_type])] /\
  In (Log INFO (fstring [L "Unhandled event type: "; Lit event_type]))
     (trace (handle_webhook w request)).
Proof.
  intros Hacc Hn.
  pose proof (dispatch_event_unlisted (utcnow w) event_type payload Hn) as Hd.
  destruct (handle_webhook_on_none w request event_type payload Hacc) as [Ho Hs];
    [now rewrite Hd|].
  repeat split; [exact Ho | exact Hs | now rewrite Hd |].
  destruct (handle_webhook_accepted_trace w request event_type payload Hacc)
    as [before ->].
  destruct (process_event_trace w event_type payload) as (tail & -> & _).
  rewrite Hd. rewrite !in_app_iff. right. left. now left.
Qed.

Lemma unlisted_event_type_is_logged_and_answered_200_witness :
  outcome (handle_webhook SAMPLE_WORLD PING) = Ok RESPONSE_SUCCESS /\
  submitted (trace (handle_webhook SAMPLE_WORLD PING)) = [].
Proof.
  destruct (unlisted_event_type_is_logged_and_answered_200 SAMPLE_WORLD PING
              (lit "ping") (D_ [("zen", S_ "Design for failure.")]%string))
    as (Ho & Hs & _).
  - unfold accepted. evaluate. discriminate.
  - vm_compute. intuition discriminate.
  - split; assumption.
Defined.

(** ** What the notifications show *)

Lemma eq_str_true (v : json) (s : str) : eq_str v s = true -> v = JStr s.
Proof.
  destruct v; try discriminate. cbn. intros H. now apply str_eqb_eq in H as ->.
Qed.

Lemma handle_pull_request_event_formats (now : Z) (payload : json) (e : Embed) :
  outcome (handle_pull_request_event now payload) = Ok (Some e) ->
  format_pull_request_notification now payload = Ok e /\
  exists action,
    field payload "action" = Some action /\
    in_strs action [lit "opened"; lit "closed"; lit "reopened"] = true.
Proof.
  unfold handle_pull_request_event. intros H.
  destruct (getitem payload "action") as [action|] eqn:Ea; [|discriminate H].
  apply getitem_ok_field in Ea. run_in H.
  destruct (in_strs action _) eqn:Hin; [|discriminate H]. cbn [negb] in H.
  destruct (format_pull_request_notification now payload); [|discriminate H].
  injection H as ->. eauto.
Qed.

(** The optional "Merged by" field is the only thing added after the
    three fixed fields. *)
Lemma merged_by_tail (pr merged : json) (embed e : Embed) :
  (if truthy merged then
     rbind (contains pr "merged_by") (fun has_merger =>
       if has_merger : bool then
         rbind (getitem pr "merged_by") (fun merged_by =>
           if truthy merged_by then
             rbind (getitem merged_by "login") (fun merger =>
               Ok (add_field embed [L "Merged by"] [str_of merger] true))
           else Ok embed)
       else Ok embed)
   else Ok embed) = Ok e ->
  e = embed \/
  exists merger, e = add_field embed [L "Merged by"] [str_of merger] true.
Proof.
  intros H. destruct (truthy merged); [|left; congruence].
  destruct (contains pr "merged_by") as [[|]|]; cbn [rbind] in H;
    [|left; congruence|discriminate H].
  destruct (getitem pr "merged_by") as [merged_by|]; cbn [rbind] in H;
    [|discriminate H].
  destruct (truthy merged_by); [|left; congruence].
  destruct (getitem merged_by "login") as [merger|]; cbn [rbind] in H;
    [|discriminate H].
  right. exists merger. congruence.
Qed.

(** X6. Every pull request notification the webhook produces has one of
    four statuses, fixed by the action and the [merged] flag: opened is
    "Awaiting Review" in blue, closed is "Merged" in purple when [merged]
    is true and "Closed" in red otherwise, reopened is "Reopened" in
    orange; the formatter's fallback status is never used. *)
Theorem pull_request_notification_styles
    (now : Z) (payload : json) (e : Embed) :
  outcome (handle_pull_request_event now payload) = Ok (Some e) ->
  exists pr,
    field payload "pull_request" = Some pr /\
    ((field payload "action" = Some (JStr (lit "opened")) /\
      field_named "Status" e = Some [L "Awaiting Review"] /\
      color e = COLOR_BLUE) \/
     (field payload "action" = Some (JStr (lit "closed")) /\
      truthy (merged_flag pr) = true /\
      field_named "Status" e = Some [L "Merged"] /\
      color e = COLOR_PURPLE) \/
     (field payload "action" = Some (JStr (lit "closed")) /\
      truthy (merged_flag pr) = false /\
      field_named "Status" e = Some [L "Closed"] /\
      color e = COLOR_RED) \/
     (field payload "action" = Some (JStr (lit "reopened")) /\
      field_named "Status" e = Some [L "Reopened"] /\
      color e = COLOR_ORANGE)).
Proof.
  intros H.
  apply handle_pull_request_event_formats in H as (Ef & action & Ha & Hin).
  unfold format_pull_request_notification in Ef. peel_styled Ef.
  repeat match goal with
         | E : getitem _ _ = Ok _ |- _ => apply getitem_ok_field in E
         end.
  match goal with
  | E : field payload "action" = Some ?a |- _ =>
      rewrite Ha in E; injection E as <-
  end.
  match goal with
  | E : get ?pr "merged" _ = Ok ?m |- _ =>
      apply get_ok_dict in E as [_ E]; fold (merged_flag pr) in E; subst m
  end.
  match goal with
  | E : field payload "pull_request" = Some ?pr |- _ => exists pr; split; [exact E|]
  end.
  apply merged_by_tail in Ef.
  match goal with
  | E : (if eq_str action _ then _ else _) = Ok _ |- _ => rename E into Hstyle
  end.
  cbn [in_strs existsb] in Hin.
  destruct (eq_str action (lit "opened")) eqn:Eo.
  { apply eq_str_true in Eo. subst action. injection Hstyle as <- <- <-.
    left. split; [exact Ha|].
    destruct Ef as [-> | [merger ->]]; split; reflexivity. }
  destruct (eq_str action (lit "closed")) eqn:Ec.
  { apply eq_str_true in Ec. subst action. right.
    destruct (truthy (merged_flag _)) eqn:Em; cbn [andb] in Hstyle;
      injection Hstyle as <- <- <-; [left|right; left];
      (split; [exact Ha|]); (split; [reflexivity|]);
      destruct Ef as [-> | [merger ->]]; split; reflexivity. }
  destruct (eq_str action (lit "reopened")) eqn:Er; [|discriminate Hin].
  apply eq_str_true in Er. subst action. cbn [andb] in Hstyle.
  injection Hstyle as <- <- <-.
  right; right; right. split; [exact Ha|].
  destruct Ef as [-> | [merger ->]]; split; reflexivity.
Qed.

Lemma pull_request_notification_styles_witness :
  exists e,
    outcome (handle_pull_request_event 0 (sample_pull_request "reopened" false))
      = Ok (Some e) /\
    field_named "Status" e = Some [L "Reopened"] /\
    color e = COLOR_ORANGE.
Proof.
  destruct (outcome (handle_pull_request_event 0 (sample_pull_request "reopened" false)))
    as [[e|]|] eqn:H; try (vm_compute in H; discriminate H).
  exists e. split; [reflexivity|].
  destruct (pull_request_notification_styles 0 _ e H)
    as (pr & _ & [(Ha & _) | [(Ha & _) | [(Ha & _) | (_ & Hs & Hc)]]]);
    try (vm_compute in Ha; discriminate Ha).
  split; assumption.
Defined.

Lemma handle_issue_event_formats (now : Z) (payload : json) (e : Embed) :
  outcome (handle_issue_event now payload) = Ok (Some e) ->
  format_issue_notification now payload = Ok e /\
  exists action,
    field payload "action" = Some action /\
    in_strs action [lit "opened"; lit "closed"; lit "reopened"] = true.
Proof.
  unfold handle_issue_event. intros H.
  destruct (getitem payload "action") as [action|] eqn:Ea; [|discriminate H].
  apply getitem_ok_field in Ea. run_in H.
  destruct (in_strs action _) eqn:Hin; [|discriminate H]. cbn [negb] in H.
  destruct (format_issue_notification now payload); [|discriminate H].
  injection H as ->. eauto.
Qed.

(** X7. Every issue notification the webhook produces carries exactly one
    field, the author, and its colour follows the action: green for
    opened, red for closed, blue for reopened. *)
Theorem issue_notification_styles (now : Z) (payload : json) (e : Embed) :
  outcome (handle_issue_event now payload) = Ok (Some e) ->
  exists issue user author,
    field payload "issue" = Some issue /\
    field issue "user" = Some user /\
    field user "login" = Some author /\
    fields e = [mkField [L "Author"] [str_of author] true] /\
    ((field payload "action" = Some (JStr (lit "opened")) /\ color e = COLOR_GREEN) \/
     (field payload "action" = Some (JStr (lit "closed")) /\ color e = COLOR_RED) \/
     (field payload "action" = Some (JStr (lit "reopened")) /\ color e = COLOR_BLUE)).
Proof.
  intros H.
  apply handle_issue_event_formats in H as (Ef & action & Ha & Hin).
  unfold format_issue_notification in Ef. peel Ef.
  repeat match goal with
         | E : getitem _ _ = Ok _ |- _ => apply getitem_ok_field in E
         end.
  match goal with
  | E : field payload "action" = Some ?a |- _ =>
      rewrite Ha in E; injection E as <-
  end.
  match goal with
  | E1 : field payload "issue" = Some ?i, E2 : field ?i "user" = Some ?u,
    E3 : field ?u "login" = Some ?a |- _ =>
      exists i, u, a; repeat (split; [eassumption|])
  end.
  cbn [in_strs existsb] in Hin.
  destruct (eq_str action (lit "opened")) eqn:Eo.
  { apply eq_str_true in Eo. subst action. cbn [as_str rbind] in Ef.
    injection Ef as <-. split; [reflexivity|]. left. now split. }
  destruct (eq_str action (lit "closed")) eqn:Ec.
  { apply eq_str_true in Ec. subst action. cbn [as_str rbind] in Ef.
    injection Ef as <-. split; [reflexivity|]. right. left. now split. }
  destruct (eq_str action (lit "reopened")) eqn:Er; [|discriminate Hin].
  apply eq_str_true in Er. subst action. cbn [as_str rbind] in Ef.
  injection Ef as <-. split; [reflexivity|]. right. right. now split.
Qed.

Lemma issue_notification_styles_witness :
  exists e,
    outcome (handle_issue_event 0 (sample_issue "reopened")) = Ok (Some e) /\
    color e = COLOR_BLUE.
Proof.
  destruct (outcome (handle_issue_event 0 (sample_issue "reopened")))
    as [[e|]|] eqn:H; try (vm_compute in H; discriminate H).
  exists e. split; [reflexivity|].
  destruct (issue_notification_styles 0 _ e H)
    as (i & u & a & _ & _ & _ & _ & [(Ha & _) | [(Ha & _) | (_ & Hc)]]);
    try (vm_compute in Ha; discriminate Ha).
  exact Hc.
Defined.

Lemma handle_review_event_formats (now : Z) (payload : json) (e : Embed) :
  outcome (handle_review_event now payload) = Ok (Some e) ->
  format_review_notification now payload = Ok e.
Proof.
  unfold handle_review_event. intros H.
  destruct (getitem payload "action") as [action|]; [|discriminate H].
  run_in H. destruct (negb (eq_str action (lit "submitted"))); [discriminate H|].
  destruct (format_review_notification now payload); [|discriminate H].
  now injection H as ->.
Qed.

(** X8. In a review notification the status follows the review state:
    "Approved" in green, "Changes Requested" in red, and "Commented" in
    blue for every other state, known to GitHub or not. *)
Theorem review_notification_status
    (now : Z) (payload review state : json) (e : Embed) :
  outcome (handle_review_event now payload) = Ok (Some e) ->
  field payload "review" = Some review ->
  field review "state" = Some state ->
  (eq_str state (lit "approved") = true /\
   field_named "Status" e = Some [L "Approved"] /\ color e = COLOR_GREEN) \/
  (eq_str state (lit "changes_requested") = true /\
   field_named "Status" e = Some [L "Changes Requested"] /\ color e = COLOR_RED) \/
  (eq_str state (lit "approved") = false /\
   eq_str state (lit "changes_requested") = false /\
   field_named "Status" e = Some [L "Commented"] /\ color e = COLOR_BLUE).
Proof.
  intros H Hr Hs. apply handle_review_event_formats in H.
  unfold format_review_notification in H. peel H.
  repeat match goal with
         | E : getitem _ _ = Ok _ |- _ => apply getitem_ok_field in E
         end.
  match goal with
  | E : field payload "review" = Some ?r |- _ => rewrite Hr in E; injection E as <-
  end.
  match goal with
  | E : field review "state" = Some ?s |- _ => rewrite Hs in E; injection E as <-
  end.
  destruct (eq_str state (lit "approved")) eqn:Ea.
  { left. cbv beta iota in H. peel H. injection H as <-. repeat split. }
  destruct (eq_str state (lit "changes_requested")) eqn:Ec.
  { right. left. cbv beta iota in H. peel H. injection H as <-. repeat split. }
  right. right. cbv beta iota in H. peel H. injection H as <-. repeat split.
Qed.

Lemma review_notification_status_witness :
  exists e,
    outcome (handle_review_event 0 (sample_review "dismissed" (S_ "Superseded.")))
      = Ok (Some e) /\
    field_named "Status" e = Some [L "Commented"].
Proof.
  destruct (outcome (handle_review_event 0
                       (sample_review "dismissed" (S_ "Superseded."))))
    as [[e|]|] eqn:H; try (vm_compute in H; discriminate H).
  exists e. split; [reflexivity|].
  destruct (review_notification_status 0 _
              (D_ [("user", D_ [("login", S_ "dave")]);
                   ("state", S_ "dismissed");
                   ("body", S_ "Superseded.");
                   ("html_url", S_ "https://github.com/o/r/pull/7#pullrequestreview-1")]%string)
              (S_ "dismissed") e H eq_refl eq_refl)
    as [(Ha & _) | [(Ha & _) | (_ & _ & Hs & _)]];
    try (vm_compute in Ha; discriminate Ha).
  exact Hs.
Defined.

(** X9. The "Comment" field of a review notification never exceeds 200
    characters: a missing ([null]) or empty body is shown as "No comment
    provided", a body of up to 200 characters is shown whole, and a longer
    one is cut to its first 197 characters followed by "...". *)
Theorem review_notification_comment
    (now : Z) (payload review : json) (body : json) (e : Embed) :
  outcome (handle_review_event now payload) = Ok (Some e) ->
  field payload "review" = Some review ->
  field review "body" = Some body ->
  body = JNull \/ (exists s, body = JStr s) ->
  exists shown,
    field_named "Comment" e = Some [Lit shown] /\
    (List.length shown <= 200)%nat /\
    shown = match body with
            | JStr (c :: s) =>
                if Nat.ltb 200 (List.length (c :: s))
                then firstn 197 (c :: s) ++ lit "..."
                else c :: s
            | _ => lit "No comment provided"
            end.
Proof.
  intros H Hr Hb Hshape. apply handle_review_event_formats in H.
  unfold format_review_notification in H. peel H.
  repeat match goal with
         | E : getitem _ _ = Ok _ |- _ => apply getitem_ok_field in E
         end.
  match goal with
  | E : field payload "review" = Some ?r |- _ => rewrite Hr in E; injection E as <-
  end.
  match goal with
  | E : field review "body" = Some ?s |- _ => rewrite Hb in E; injection E as <-
  end.
  match type of H with
  | context [match ?styling with pair _ _ => _ end] =>
      destruct styling as [[emoji status] colour]
  end.
  cbv beta iota in H.
  destruct Hshape as [-> | [[|c s] ->]].
  - cbn in H. injection H as <-. eexists. repeat split. cbn. lia.
  - cbn in H. injection H as <-. eexists. repeat split. cbn. lia.
  - cbn [truthy List.length Nat.eqb negb len rbind] in H.
    destruct (Nat.ltb 200 (S (List.length s))) eqn:El;
      cbn [truncate_comment rbind str_of] in H; injection H as <-.
    + exists (firstn 197 (c :: s) ++ lit "..."). split; [reflexivity|].
      cbn [List.length]. rewrite El. split; [|reflexivity].
      rewrite length_app. pose proof (firstn_le_length 197 (c :: s)).
      change (List.length (lit "...")) with 3%nat. lia.
    + exists (c :: s). split; [reflexivity|].
      cbn [List.length]. rewrite El. split; [|reflexivity].
      apply Nat.ltb_ge in El. exact El.
Qed.

Lemma review_notification_comment_witness :
  exists e,
    outcome (handle_review_event 0 (sample_review "approved" JNull)) = Ok (Some e) /\
    field_named "Comment" e = Some [L "No comment provided"].
Proof.
  destruct (outcome (handle_review_event 0 (sample_review "approved" JNull)))
    as [[e|]|] eqn:H; try (vm_compute in H; discriminate H).
  exists e. split; [reflexivity|].
  destruct (review_notification_comment 0 _
              (D_ [("user", D_ [("login", S_ "dave")]);
                   ("state", S_ "approved");
                   ("body", JNull);
                   ("html_url", S_ "https://github.com/o/r/pull/7#pullrequestreview-1")]%string)
              JNull e H eq_refl eq_refl (or_introl eq_refl))
    as (shown & Hs & _ & ->).
  exact Hs.
Defined.

Lemma handle_branch_event_ref_type (now : Z) (payload : json) (deleted : bool)
    (verb : string) (e : Embed) :
  outcome (ref_type <- lift (get payload "ref_type" JNull) ;;
           if negb (eq_str ref_type (lit "branch")) then ret None
           else
             embed <- lift (format_branch_notification now payload deleted) ;;
             log INFO (fstring [L verb; str_of ref_type]) ;;
             ret (Some embed))%M = Ok (Some e) ->
  field payload "ref_type" = Some (JStr (lit "branch")).
Proof.
  intros H.
  destruct (get payload "ref_type" JNull) as [ref_type|] eqn:Eg; [|discriminate H].
  apply get_ok_dict in Eg as [_ Eg].
  run_in H. destruct (eq_str ref_type (lit "branch")) eqn:Eb; [|discriminate H].
  apply eq_str_true in Eb. subst ref_type.
  destruct (field payload "ref_type"); [congruence | discriminate Eb].
Qed.

Lemma format_branch_notification_shows (now : Z) (payload : json) (deleted : bool)
    (e : Embed) :
  format_branch_notification now payload deleted = Ok e ->
  field payload "ref_type" = Some (JStr (lit "branch")) ->
  title e = [L (if deleted then " Branch Deleted" else " Branch Created")] /\
  color e = (if deleted then COLOR_RED else COLOR_GREEN) /\
  description e =
    Some (fstring [L "**`";
                   str_of (match field payload "ref" with
                           | Some ref => ref
                           | None => JStr (lit "unknown")
                           end);
                   L "`**"]) /\
  url e = None.
Proof.
  intros H Ht. unfold format_branch_notification in H.
  rewrite (get_field _ _ _ _ Ht) in H. cbn [rbind] in H.
  rewrite (get_dict _ _ _ (field_is_dict _ _ _ Ht)) in H. cbn [rbind] in H.
  peel H. destruct deleted; cbn [as_str rbind] in H; injection H as <-;
    repeat split.
Qed.

(** X10. A branch notification is titled "Branch Created" in green for a
    [create] event and "Branch Deleted" in red for a [delete] event, has
    no link, and names the branch from the payload's [ref]; when [ref] is
    missing the branch is shown as [unknown]. *)
Theorem branch_notification_shows (now : Z) (payload : json) (e : Embed) :
  (outcome (handle_create_event now payload) = Ok (Some e) ->
   title e = [L " Branch Created"] /\ color e = COLOR_GREEN /\ url e = None /\
   (field payload "ref" = None -> description e = Some [L "**`unknown`**"]) /\
   (forall ref, field payload "ref" = Some (JStr ref) ->
                description e = Some [Lit (lit "**`" ++ ref ++ lit "`**")])) /\
  (outcome (handle_delete_event now payload) = Ok (Some e) ->
   title e = [L " Branch Deleted"] /\ color e = COLOR_RED /\ url e = None /\
   (field payload "ref" = None -> description e = Some [L "**`unknown`**"]) /\
   (forall ref, field payload "ref" = Some (JStr ref) ->
                description e = Some [Lit (lit "**`" ++ ref ++ lit "`**")])).
Proof.
  split; intros H.
  - pose proof (handle_branch_event_ref_type now payload false
                  "Processed create event: " e H) as Ht.
    apply (handle_branch_event_formats now payload false "Processed create event: ")
      in H.
    destruct (format_branch_notification_shows now payload false e H Ht)
      as (-> & -> & Hd & ->).
    repeat split.
    + intros Hn. now rewrite Hd, Hn.
    + intros ref Hr. now rewrite Hd, Hr.
  - pose proof (handle_branch_event_ref_type now payload true
                  "Processed delete event: " e H) as Ht.
    apply (handle_branch_event_formats now payload true "Processed delete event: ")
      in H.
    destruct (format_branch_notification_shows now payload true e H Ht)
      as (-> & -> & Hd & ->).
    repeat split.
    + intros Hn. now rewrite Hd, Hn.
    + intros ref Hr. now rewrite Hd, Hr.
Qed.

Lemma branch_notification_shows_witness :
  exists e,
    outcome (handle_delete_event 0
               (sample_branch_event [("ref_type", S_ "branch")]%string))
      = Ok (Some e) /\
    title e = [L " Branch Deleted"] /\
    description e = Some [L "**`unknown`**"].
Proof.
  destruct (outcome (handle_delete_event 0
                       (sample_branch_event [("ref_type", S_ "branch")]%string)))
    as [[e|]|] eqn:H; try (vm_compute in H; discriminate H).
  exists e. split; [reflexivity|].
  destruct (proj2 (branch_notification_shows 0 _ e) H) as (Ht & _ & _ & Hd & _).
  split; [exact Ht | now apply Hd].
Defined.

(** ** Splitting and joining *)

Lemma split_pieces_without_sep (sep : N) (s : str) :
  Forall (fun piece => ~ In sep piece) (split sep s).
Proof.
  induction s as [|c s IH]; cbn [split].
  - constructor; [tauto | constructor].
  - destruct (N.eqb_spec c sep) as [->|Hc].
    + constructor; [tauto | exact IH].
    + destruct (split sep s) as [|piece rest]; [repeat constructor; cbn; tauto|].
      inversion IH as [|? ? Hp Hr]; subst. constructor; [|exact Hr].
      cbn. tauto.
Qed.

Lemma join_split (sep : N) (s : str) : join [sep] (split sep s) = s.
Proof.
  induction s as [|c s IH]; [reflexivity|]. cbn [split].
  destruct (N.eqb_spec c sep) as [->|Hc].
  - destruct (split sep s) as [|piece rest] eqn:E; [now apply split_nonempty in E|].
    cbn [join app] in *. now rewrite IH.
  - destruct (split sep s) as [|piece rest] eqn:E; [now apply split_nonempty in E|].
    destruct rest as [|piece' rest]; cbn [join app] in *; now rewrite <- IH.
Qed.

Lemma join_last (sep : N) (init : list str) (x : str) :
  join [sep] (init ++ [x]) =
  match init with
  | [] => x
  | _ => join [sep] init ++ sep :: x
  end.
Proof.
  induction init as [|p init IH]; [reflexivity|].
  destruct init as [|q init].
  - reflexivity.
  - change ((p :: q :: init) ++ [x]) with (p :: (q :: init) ++ [x]).
    change (join [sep] (p :: (q :: init) ++ [x]))
      with (p ++ [sep] ++ join [sep] ((q :: init) ++ [x])).
    rewrite IH.
    change (join [sep] (p :: q :: init)) with (p ++ [sep] ++ join [sep] (q :: init)).
    now rewrite <- !app_assoc.
Qed.

(** [s.split(sep)[-1]]: what follows the last separator. *)
Lemma index_last_split_suffix (sep : N) (s x : str) :
  index_last (split sep s) = Ok x ->
  ~ In sep x /\ (s = x \/ exists prefix, s = prefix ++ sep :: x).
Proof.
  unfold index_last. intros H.
  destruct (rev (split sep s)) as [|y r] eqn:E; [discriminate H|].
  injection H as ->.
  apply (f_equal (@rev _)) in E. rewrite rev_involutive in E. cbn [rev] in E.
  pose proof (split_pieces_without_sep sep s) as Hf. rewrite E in Hf.
  apply Forall_app in Hf as [_ Hf]. inversion Hf as [|? ? Hx _]; subst.
  split; [exact Hx|].
  pose proof (join_split sep s) as Hj. rewrite E, join_last in Hj.
  destruct (rev r); [now left | right; eexists; symmetry; exact Hj].
Qed.

(** X11. A push notification names the branch by what follows the last
    ['/'] of the payload's [ref], so [refs/heads/feature/login] is shown
    as [login]; the shown name holds no ['/'], and the title reads
    "New Commit" for one commit and "New Commits" for more. *)
Theorem push_notification_names_last_segment
    (now : Z) (payload : json) (ref : str) (commits : list json) (e : Embed) :
  outcome (handle_push_event now payload) = Ok (Some e) ->
  field payload "ref" = Some (JStr ref) ->
  field payload "commits" = Some (JList commits) ->
  exists shown,
    ~ In CHAR_SLASH shown /\
    (ref = shown \/ exists prefix, ref = prefix ++ CHAR_SLASH :: shown) /\
    field_named "Branch" e = Some [Lit (lit "`" ++ shown ++ lit "`")] /\
    title e = [Lit (lit "New Commit"
                    ++ (if Nat.ltb 1 (List.length commits) then lit "s" else [])
                    ++ lit " to `" ++ shown ++ lit "`")].
Proof.
  intros H Hr Hc. apply handle_push_event_formats in H.
  unfold format_commit_notification in H.
  rewrite (getitem_field _ _ _ Hr) in H. cbn [rbind as_str] in H.
  destruct (index_last (split CHAR_SLASH ref)) as [shown|] eqn:Es;
    [|discriminate H].
  cbn [rbind] in H. rewrite (getitem_field _ _ _ Hc) in H. cbn [rbind] in H.
  peel_styled H. cbn [len] in *.
  injection H as <-.
  match goal with
  | E : Ok (List.length commits) = Ok _ |- _ => injection E as <-
  end.
  exists shown. destruct (index_last_split_suffix _ _ _ Es) as [Hn Hs].
  repeat split; [exact Hn | exact Hs |].
  cbn [title]. destruct (Nat.ltb 1 (List.length commits)); reflexivity.
Qed.

Lemma push_notification_names_last_segment_witness :
  exists e,
    outcome (handle_push_event 0
               (sample_push_to "refs/heads/feature/login"
                  [sample_commit "Add login"; sample_commit "Add logout"]))
      = Ok (Some e) /\
    field_named "Branch" e = Some [L "`login`"] /\
    title e = [L "New Commits to `login`"].
Proof.
  destruct (outcome (handle_push_event 0
                       (sample_push_to "refs/heads/feature/login"
                          [sample_commit "Add login"; sample_commit "Add logout"])))
    as [[e|]|] eqn:H; try (vm_compute in H; discriminate H).
  exists e. split; [reflexivity|].
  destruct (push_notification_names_last_segment 0 _ (lit "refs/heads/feature/login")
              [sample_commit "Add login"; sample_commit "Add logout"] e H
              eq_refl eq_refl)
    as (shown & Hn & Hs & Hb & Ht).
  assert (shown = lit "login") as ->.
  { vm_compute in H. injection H as <-.
    cbv [field_named] in Hb. vm_compute in Hb. injection Hb as Hb.
    now apply (app_inv_tail [96%N] shown (lit "login")). }
  split; [exact Hb | exact Ht].
Defined.

(** ** utils/github_api.py: ages and reviewers *)

(** X12. The age of a pull request is shown in the largest unit that is
    not zero, rounded down: under a minute it reads "just now", under an
    hour it counts whole minutes, under a day whole hours, and from a day
    on whole days; the unit takes an "s" unless the count is one. *)
Theorem format_timedelta_largest_unit (s : Z) :
  0 <= s ->
  (s < 60 -> GitHubAPI._format_timedelta s = lit "just now") /\
  (60 <= s < 3600 ->
   GitHubAPI._format_timedelta s =
   str_of_int (s / 60) ++ lit " minute" ++ (if s / 60 =? 1 then [] else lit "s")) /\
  (3600 <= s < 86400 ->
   GitHubAPI._format_timedelta s =
   str_of_int (s / 3600) ++ lit " hour" ++ (if s / 3600 =? 1 then [] else lit "s")) /\
  (86400 <= s ->
   GitHubAPI._format_timedelta s =
   str_of_int (s / 86400) ++ lit " day" ++ (if s / 86400 =? 1 then [] else lit "s")).
Proof.
  intros Hs. unfold GitHubAPI._format_timedelta. cbv zeta.
  repeat split; intros H.
  - rewrite (Z.div_small s 86400), (Z.mod_small s 86400) by lia.
    rewrite (Z.div_small s 3600), (Z.mod_small s 3600) by lia.
    rewrite (Z.div_small s 60) by lia. reflexivity.
  - rewrite (Z.div_small s 86400), (Z.mod_small s 86400) by lia.
    rewrite (Z.div_small s 3600), (Z.mod_small s 3600) by lia.
    assert (0 < s / 60) as Hm by (apply Z.div_str_pos; lia).
    apply Z.ltb_lt in Hm. now rewrite Hm.
  - rewrite (Z.div_small s 86400), (Z.mod_small s 86400) by lia.
    assert (0 < s / 3600) as Hh by (apply Z.div_str_pos; lia).
    apply Z.ltb_lt in Hh. now rewrite Hh.
  - assert (0 < s / 86400) as Hd by (apply Z.div_str_pos; lia).
    apply Z.ltb_lt in Hd. now rewrite Hd.
Qed.

Lemma format_timedelta_largest_unit_witness :
  GitHubAPI._format_timedelta 7384 = lit "2 hours".
Proof.
  destruct (format_timedelta_largest_unit 7384 ltac:(lia)) as (_ & _ & Hh & _).
  rewrite Hh by lia. reflexivity.
Defined.

(** X13. A creation time that lies ahead of the local clock gives a
    negative age, of which only the time-of-day remainder is shown: the
    age is formatted as its value modulo one day, so that one second ahead
    reads "23 hours". *)
Theorem format_timedelta_negative (s : Z) :
  s < 0 ->
  GitHubAPI._format_timedelta s = GitHubAPI._format_timedelta (s mod 86400).
Proof.
  intros Hs. unfold GitHubAPI._format_timedelta. cbv zeta.
  pose proof (Z.mod_pos_bound s 86400 ltac:(lia)) as Hm.
  rewrite (Z.div_small (s mod 86400) 86400), (Z.mod_small (s mod 86400) 86400) by lia.
  assert (s / 86400 < 0) as Hd by (apply Z.div_lt_upper_bound; lia).
  destruct (Z.ltb_spec 0 (s / 86400)); [lia | reflexivity].
Qed.

Lemma format_timedelta_negative_witness :
  GitHubAPI._format_timedelta (-1) = lit "23 hours".
Proof.
  rewrite (format_timedelta_negative (-1)) by lia. reflexivity.
Defined.

(** [d[k] = v] keeps the keys apart. *)
Lemma dict_set_keys (d : list (str * str)) (k v : str) :
  map fst (dict_set d k v) =
  if existsb (fun k' => str_eqb k' k) (map fst d) then map fst d
  else map fst d ++ [k].
Proof.
  induction d as [|[k' v'] d IH]; [reflexivity|]. cbn [dict_set map fst existsb].
  destruct (str_eqb k' k); cbn [orb map fst]; [reflexivity|].
  rewrite IH. now destruct (existsb _ (map fst d)).
Qed.

Lemma dict_set_NoDup (d : list (str * str)) (k v : str) :
  NoDup (map fst d) -> NoDup (map fst (dict_set d k v)).
Proof.
  intros H. rewrite dict_set_keys.
  destruct (existsb _ (map fst d)) eqn:E; [exact H|].
  apply NoDup_app; [exact H | repeat constructor; cbn; tauto |].
  intros x Hx [->|[]].
  assert (existsb (fun k' => str_eqb k' x) (map fst d) = true); [|congruence].
  apply existsb_exists. exists x. split; [exact Hx | apply str_eqb_refl].
Qed.

(** After [d[k] = v] the key [k] holds [v] and every other key holds what
    it held. *)
Lemma dict_set_In (d : list (str * str)) (k v k' v' : str) :
  NoDup (map fst d) ->
  In (k', v') (dict_set d k v) <->
  (k' = k /\ v' = v) \/ (k' <> k /\ In (k', v') d).
Proof.
  induction d as [|[k0 v0] d IH]; intros Hd.
  - cbn. split.
    + intros [E|[]]. injection E as <- <-. now left.
    + intros [[-> ->]|[_ []]]. now left.
  - inversion Hd as [|? ? Hk0 Hd']; subst. specialize (IH Hd').
    cbn [dict_set]. destruct (str_eqb k0 k) eqn:E.
    + apply str_eqb_eq in E as ->. cbn [In]. split.
      * intros [E|Hin]; [injection E as <- <-; now left|].
        right. split; [|now right].
        intros ->. apply Hk0. now apply (in_map fst) in Hin.
      * intros [[-> ->]|[Hne [E|Hin]]]; [now left | | now right].
        injection E as <- <-. contradiction.
    + apply str_eqb_neq in E. cbn [In]. rewrite IH. split.
      * intros [Heq|[[-> ->]|[Hne Hin]]].
        -- injection Heq as <- <-. right. split; [congruence | now left].
        -- now left.
        -- right. split; [exact Hne | now right].
      * intros [[-> ->]|[Hne [Heq|Hin]]].
        -- right. now left.
        -- now left.
        -- right. right. now split.
Qed.

(** The dictionary built from the reviews, in the order they arrive. *)
Lemma reviewers_fold (rs : list Review) (d : list (str * str)) :
  NoDup (map fst d) ->
  let d' := fold_left (fun d r => dict_set d (review_user_login r) (review_state r))
                      rs d in
  NoDup (map fst d') /\
  (forall k v, In (k, v) d' <->
     (exists before r after,
         rs = before ++ r :: after /\ review_user_login r = k /\ review_state r = v /\
         forall r', In r' after -> review_user_login r' <> k) \/
     (In (k, v) d /\ forall r, In r rs -> review_user_login r <> k)).
Proof.
  revert d. induction rs as [|r rs IH]; intros d Hd; cbn [fold_left].
  - split; [exact Hd|]. intros k v. split.
    + intros H. right. split; [exact H | intros ? []].
    + intros [(before & r & after & E & _)|[H _]]; [|exact H].
      now destruct before.
  - destruct (IH _ (dict_set_NoDup d (review_user_login r) (review_state r) Hd))
      as [Hnd Hin].
    split; [exact Hnd|]. intros k v. rewrite Hin. clear Hin IH.
    rewrite dict_set_In by exact Hd. split.
    + intros [(before & r0 & after & -> & Hk & Hv & Hafter)
             |[[[-> ->]|[Hne Hd0]] Hrs]].
      * left. exists (r :: before), r0, after. now repeat split.
      * left. exists [], r, rs. now repeat split.
      * right. split; [exact Hd0|]. intros r' [<-|Hr']; [congruence | now apply Hrs].
    + intros [(before & r0 & after & E & Hk & Hv & Hafter)|[Hd0 Hrs]].
      * destruct before as [|b before]; cbn [app] in E; injection E as -> ->.
        -- right. split; [now left | exact Hafter].
        -- left. exists before, r0, after. now repeat split.
      * right. split.
        -- right. split; [|exact Hd0].
           intros ->. now apply (Hrs r); [left|].
        -- intros r' Hr'. apply Hrs. now right.
Qed.

(** X14. The reviewers recorded for a pull request are the authors of its
    reviews, each once, with the state of the review they submitted last:
    a later review by the same person replaces the earlier state. *)
Theorem reviewers_of_keeps_last_state
    (pr : PullRequest) (reviews : list Review) (reviewers : list (str * str)) :
  for_each (pull_get_reviews pr) Ok = Ok reviews ->
  GitHubAPI.reviewers_of pr = Ok reviewers ->
  NoDup (map fst reviewers) /\
  forall login state,
    In (login, state) reviewers <->
    exists before r after,
      reviews = before ++ r :: after /\
      review_user_login r = login /\ review_state r = state /\
      forall r', In r' after -> review_user_login r' <> login.
Proof.
  unfold GitHubAPI.reviewers_of. intros -> H. cbn [rbind] in H. injection H as <-.
  destruct (reviewers_fold reviews [] (NoDup_nil _)) as [Hnd Hin].
  split; [exact Hnd|]. intros login state. rewrite Hin. split.
  - intros [H|[[] _]]. exact H.
  - intros H. now left.
Qed.

Lemma reviewers_of_keeps_last_state_witness :
  exists reviewers,
    GitHubAPI.reviewers_of SAMPLE_REVIEWED_PULL = Ok reviewers /\
    NoDup (map fst reviewers) /\
    In (lit "ann", lit "APPROVED") reviewers.
Proof.
  exists [(lit "ann", lit "APPROVED"); (lit "bob", lit "COMMENTED")].
  split; [reflexivity|].
  destruct (reviewers_of_keeps_last_state SAMPLE_REVIEWED_PULL
              [mkReview (lit "ann") (lit "CHANGES_REQUESTED");
               mkReview (lit "bob") (lit "COMMENTED");
               mkReview (lit "ann") (lit "APPROVED")]
              [(lit "ann", lit "APPROVED"); (lit "bob", lit "COMMENTED")]
              eq_refl eq_refl) as [Hnd Hin].
  split; [exact Hnd|]. apply Hin.
  exists [mkReview (lit "ann") (lit "CHANGES_REQUESTED");
          mkReview (lit "bob") (lit "COMMENTED")],
         (mkReview (lit "ann") (lit "APPROVED")), [].
  repeat split. intros r' [].
Defined.

(** ** utils/formatters.py: the list embeds *)

Lemma add_fields_spec (e : Embed) (fs : list Field) :
  add_fields e fs =
  mkEmbed (title e) (description e) (color e) (url e) (timestamp e)
          (fields e ++ fs) (footer e).
Proof.
  unfold add_fields. revert e. induction fs as [|f fs IH]; intros e; cbn [fold_left].
  - rewrite app_nil_r. now destruct e.
  - rewrite IH. unfold add_field. cbn [title description color url timestamp fields footer].
    rewrite <- app_assoc. now destruct f.
Qed.

(** X15. The embed of open pull requests has one field per pull request
    for the first ten of the list, in the order of the list, and never more
    than ten; the footer "Showing 10 of n pull requests" is there exactly
    when the list is longer than ten, with [n] the full length. *)
Theorem pr_list_shows_first_ten (now : Z) (prs : list PRInfo) :
  let e := format_pr_list now prs in
  fields e = map pr_list_field (firstn 10 prs) /\
  (List.length (fields e) <= 10)%nat /\
  footer e =
    (if Nat.ltb 10 (List.length prs)
     then Some [Lit (lit "Showing 10 of " ++ str_of_int (Z.of_nat (List.length prs))
                     ++ lit " pull requests")]
     else None).
Proof.
  cbv zeta.
  assert (fields (format_pr_list now prs) = map pr_list_field (firstn 10 prs)) as Hf.
  { unfold format_pr_list. destruct prs as [|pr prs]; [reflexivity|].
    rewrite add_fields_spec. now destruct (Nat.ltb 10 _). }
  split; [exact Hf|]. split.
  - rewrite Hf, length_map. apply firstn_le_length.
  - unfold format_pr_list. destruct prs as [|pr prs]; [reflexivity|].
    rewrite add_fields_spec. now destruct (Nat.ltb 10 _).
Qed.

(** ** Chunks *)

Lemma chunks_spec {A} (size n : nat) (l : list A) :
  (0 < size)%nat -> (List.length l <= n)%nat ->
  concat (chunks n size l) = l /\
  Forall (fun chunk => (1 <= List.length chunk <= size)%nat) (chunks n size l) /\
  (List.length (chunks n size l) * size < List.length l + size)%nat.
Proof.
  intros Hsize. revert l. induction n as [|n IH]; intros l Hl.
  - destruct l; [|cbn in Hl; lia]. cbn. repeat split; [constructor | lia].
  - destruct l as [|a l]; [cbn; repeat split; [constructor | lia]|].
    cbn [chunks].
    assert (List.length (skipn size (a :: l)) <= n)%nat as Hs.
    { rewrite length_skipn. cbn [List.length] in *. lia. }
    destruct (IH _ Hs) as (Hc & Hf & Hn). repeat split.
    + cbn [concat]. rewrite Hc. apply firstn_skipn.
    + constructor; [|exact Hf]. split; [|apply firstn_le_length].
      destruct size; [lia | cbn; lia].
    + cbn [List.length]. rewrite length_skipn in Hn.
      cbn [List.length] in *. rewrite Nat.mul_succ_l.
      destruct (Nat.le_gt_cases size (S (List.length l))); [lia|].
      replace (S (List.length l) - size)%nat with 0%nat in Hn by lia.
      destruct (List.length (chunks n size (skipn size (a :: l)))); [lia|].
      rewrite Nat.mul_succ_l in Hn. lia.
Qed.

(** X16. The embed of branches lists the first 25 branches, each once and
    in order, cut into fields of at most ten lines: the lines of all fields
    together are exactly the first 25 branch names, no field is empty, there
    are at most three fields, and the footer is there exactly when there
    are more than 25 branches. *)
Theorem branch_list_chunks (now : Z) (branches : list BranchInfo) :
  let e := format_branch_list now branches in
  exists chunked : list (list str),
    map field_value (fields e) =
      map (fun chunk => [Lit (join [CHAR_NL] chunk)]) chunked /\
    concat chunked =
      map (fun b => lit "`" ++ bi_name b ++ lit "`"
                    ++ (if bi_protected b then lit " " else []))
          (firstn 25 branches) /\
    Forall (fun chunk => (1 <= List.length chunk <= 10)%nat) chunked /\
    (List.length chunked <= 3)%nat /\
    (footer e <> None <-> (25 < List.length branches)%nat).
Proof.
  cbv zeta. unfold format_branch_list.
  destruct branches as [|b branches].
  - exists []. cbn. repeat split; try constructor; try lia; try congruence.
  - set (bs := b :: branches).
    set (branch_text := map _ (firstn 25 bs)).
    destruct (chunks_spec 10 (List.length branch_text) branch_text
                ltac:(lia) ltac:(lia)) as (Hc & Hf & Hn).
    exists (chunks (List.length branch_text) 10 branch_text).
    assert (List.length branch_text <= 25)%nat as Hlen.
    { subst branch_text. rewrite length_map. apply firstn_le_length. }
    rewrite add_fields_spec.
    split; [|split; [exact Hc | split; [exact Hf | split]]].
    2: { clear -Hn Hlen. clearbody branch_text.
         set (c := List.length (chunks _ _ _)) in *. clearbody c.
         set (m := List.length branch_text) in *. clearbody m. lia. }
    + destruct (Nat.ltb 25 (List.length bs));
        cbn [fields set_footer new_embed app]; now rewrite map_map.
    + destruct (Nat.ltb_spec 25 (List.length bs));
        cbn [footer set_footer new_embed]; split; intros; try lia; congruence.
Qed.

(** ** The commits of a branch, from the wrapper to the embed *)

Lemma index_0_split_without_sep (sep : N) (s x : str) :
  index (split sep s) 0 = Ok x -> ~ In sep x.
Proof.
  intros H. pose proof (split_pieces_without_sep sep s) as Hf.
  unfold index in H. destruct (split sep s) as [|piece rest]; [discriminate H|].
  cbn in H. injection H as <-. now inversion Hf.
Qed.

Lemma commit_info_bounds (c : Commit) (ci : CommitInfo) :
  GitHubAPI.commit_info c = Ok ci ->
  (List.length (ci_sha ci) <= 7)%nat /\ ~ In CHAR_NL (ci_message ci).
Proof.
  unfold GitHubAPI.commit_info. intros H.
  destruct (index (split CHAR_NL (commit_message c)) 0) as [first_line|] eqn:E;
    [|discriminate H].
  assert (ci = mkCommitInfo (slice_to 7 (commit_sha c)) first_line
                 (commit_author_name c) (commit_author_date c) (commit_html_url c))
    as -> by (cbn [rbind] in H; congruence).
  cbn [ci_sha ci_message]. split.
  - unfold slice_to. apply firstn_le_length.
  - eapply index_0_split_without_sep; eassumption.
Qed.

Lemma for_each_ptake {A B} (body : A -> result B) (P : B -> Prop) :
  (forall a b, body a = Ok b -> P b) ->
  forall (limit : nat) (items : paginated A) (l : list B),
    for_each (ptake limit items) body = Ok l ->
    (List.length l <= limit)%nat /\ Forall P l.
Proof.
  intros HP. induction limit as [|limit IH]; intros items l H.
  - cbn in H. injection H as <-. split; [cbn; lia | constructor].
  - destruct items as [|a rest|e]; cbn [ptake for_each] in H.
    + injection H as <-. split; [cbn; lia | constructor].
    + peel H. injection H as <-.
      match goal with
      | Hr : for_each (ptake limit rest) body = Ok _ |- _ =>
          destruct (IH _ _ Hr) as [Hlen Hall]
      end.
      split; [cbn; lia | constructor; eauto].
    + discriminate H.
Qed.

(** What [get_commits] returns is what the loop collected, or the empty
    list of the [except] branch. *)
Lemma get_commits_returned
    (repo : Repository) (branch : str) (limit : nat) (commits : list CommitInfo) :
  outcome (GitHubAPI.get_commits repo branch limit) = Ok commits ->
  (List.length commits <= limit)%nat /\
  Forall (fun c => (List.length (ci_sha c) <= 7)%nat /\ ~ In CHAR_NL (ci_message c))
         commits.
Proof.
  unfold GitHubAPI.get_commits. rewrite wrapper_cases.
  destruct (for_each (ptake limit (repo_get_commits repo branch))
                     GitHubAPI.commit_info) as [l|x] eqn:E.
  - cbn [outcome snd]. intros [= <-].
    exact (for_each_ptake _ _ commit_info_bounds _ _ _ E).
  - destruct x; cbn [outcome snd]; try discriminate;
      intros [= <-]; (split; [cbn; lia | constructor]).
Qed.

(** X17. The wrapper's [get_commits] returns at most [limit] commits, each
    with a hash cut to at most seven characters and a message of one line
    (without a line break); it never ends in a [GithubException]. *)
Theorem get_commits_bounds
    (repo : Repository) (branch : str) (limit : nat) :
  outcome (GitHubAPI.get_commits repo branch limit) <> Raise GithubException /\
  forall commits,
    outcome (GitHubAPI.get_commits repo branch limit) = Ok commits ->
    (List.length commits <= limit)%nat /\
    Forall (fun c => (List.length (ci_sha c) <= 7)%nat /\ ~ In CHAR_NL (ci_message c))
           commits.
Proof.
  split; [|apply get_commits_returned].
  unfold GitHubAPI.get_commits. rewrite wrapper_cases.
  destruct (for_each (ptake limit (repo_get_commits repo branch))
                     GitHubAPI.commit_info) as [l|x]; [|destruct x];
    cbn [outcome snd]; discriminate.
Qed.

Lemma get_commits_bounds_witness :
  exists commits,
    outcome (GitHubAPI.get_commits SAMPLE_REPOSITORY (lit "main") 10) = Ok commits /\
    List.length commits = 10%nat /\
    Forall (fun c => (List.length (ci_sha c) <= 7)%nat /\ ~ In CHAR_NL (ci_message c))
           commits.
Proof.
  destruct (outcome (GitHubAPI.get_commits SAMPLE_REPOSITORY (lit "main") 10))
    as [commits|] eqn:H; [|vm_compute in H; discriminate H].
  exists commits. split; [reflexivity|].
  destruct (get_commits_bounds SAMPLE_REPOSITORY (lit "main") 10) as [_ Hb].
  destruct (Hb commits H) as [_ Hall]. split; [|exact Hall].
  vm_compute in H. injection H as <-. reflexivity.
Defined.





(** ** bot.py: what a command does with its interaction *)

(** X19. Every command answers its interaction exactly once, whatever the
    hosting platform returns or raises: [/assign] with one direct message,
    every other command with a deferral followed by one follow-up. All
    else a command does is logging. (The calls on the interaction are
    themselves taken to succeed, as everywhere in this model.) *)
Theorem command_answers_once
    (env : Bot.Env) (interaction : Bot.Interaction) (c : Bot.command) :
  exists (r : reply) (eph : bool),
    filter (fun ev => negb (is_log ev)) (trace (Bot.run env interaction c)) =
    match c with
    | Bot.Assign _ _ => [SendMessage r eph]
    | _ => [Defer; Followup r eph]
    end.
Proof.
  destruct c as [|number|branch| | |member number];
    unfold Bot.run, Bot.list_prs, Bot.get_pr, Bot.get_commits,
      Bot.list_branches, Bot.get_status, Bot.assign_reviewer,
      GitHubAPI.get_open_pull_requests, GitHubAPI.get_pull_request,
      GitHubAPI.get_commits, GitHubAPI.get_branches,
      GitHubAPI.get_repository_status;
    rewrite wrapper_cases;
    match goal with
    | |- context [match ?r with Ok _ => _ | Raise _ => _ end] =>
        let x := fresh "x" in
        destruct r as [?|x]; [|destruct x]
    end;
    cbv [bind ret emit log lift try_except trace fst snd app];
    try match goal with
        | |- context [match ?l with [] => _ | _ :: _ => _ end] =>
            is_var l; destruct l
        | |- context [match ?o with Some _ => _ | None => _ end] =>
            is_var o; destruct o
        end;
    cbn [filter is_log negb app]; eexists _, _; reflexivity.
Qed.

(** X20. A failure to count today's commits, of whatever kind, does not
    fail [/status]: as long as the other three counts are answered, the
    command replies with the status embed, which then shows "0 commits"
    for today and, as open issues, the open-issue count less the open pull
    requests. *)
Theorem status_command_survives_failed_commit_count
    (env : Bot.Env) (interaction : Bot.Interaction)
    (failure : exn) (pulls issues branches : Z) :
  repo_commits_since_today (Bot.github env) = Raise failure ->
  repo_open_pulls_count (Bot.github env) = Ok pulls ->
  repo_open_issues_count (Bot.github env) = Ok issues ->
  repo_branches_count (Bot.github env) = Ok branches ->
  exists e,
    Bot.replies (trace (Bot.get_status env interaction)) = [(ReplyEmbed e, false)] /\
    field_named " Today's Activity" e = Some [L "0 commits"] /\
    field_named " Open Issues" e = Some [Lit (str_of_int (issues - pulls))].
Proof.
  intros Hc Hp Hi Hb.
  unfold Bot.get_status, GitHubAPI.get_repository_status. rewrite wrapper_cases.
  unfold GitHubAPI.repository_status. rewrite Hc, Hp, Hi, Hb. cbn [rbind].
  cbv [bind ret emit log lift try_except trace fst snd app Bot.replies flat_map].
  eexists. split; [reflexivity|]. split; reflexivity.
Qed.

Lemma status_command_survives_failed_commit_count_witness :
  exists e,
    Bot.replies (trace (Bot.get_status (Bot.mkEnv SAMPLE_REPOSITORY 0 0)
                          Bot.SAMPLE_INTERACTION)) = [(ReplyEmbed e, false)] /\
    field_named " Today's Activity" e = Some [L "0 commits"] /\
    field_named " Open Issues" e = Some [L "3"].
Proof.
  exact (status_command_survives_failed_commit_count
           (Bot.mkEnv SAMPLE_REPOSITORY 0 0) Bot.SAMPLE_INTERACTION
           ConnectionError 1 4 2 eq_refl eq_refl eq_refl eq_refl).
Defined.

(** ** The description of a pull request, from the wrapper to the embed *)

Lemma format_pr_detail_description (now : Z) (pr : PRDetail) :
  description (format_pr_detail now pr) =
  Some [Lit (if Nat.ltb 200 (List.length (prd_body pr))
             then slice_to 200 (prd_body pr) ++ lit "..."
             else prd_body pr)].
Proof.
  unfold format_pr_detail.
  destruct (prd_merged pr); [|destruct (str_eqb _ _)];
    destruct (pr_reviewers (prd_info pr)); reflexivity.
Qed.

Lemma get_pull_request_body
    (now : Z) (repo : Repository) (number : Z) (pr : PullRequest) (detail : PRDetail) :
  repo_get_pull repo number = Ok pr ->
  outcome (GitHubAPI.get_pull_request now repo number) = Ok (Some detail) ->
  prd_body detail = match pull_body pr with
                    | Some (c :: body) => c :: body
                    | _ => lit "No description provided."
                    end.
Proof.
  intros Hget. unfold GitHubAPI.get_pull_request. rewrite wrapper_cases, Hget.
  cbn [rbind]. destruct (GitHubAPI.pr_info now pr) as [info|x]; [|destruct x];
    cbn [rbind outcome snd]; try discriminate.
  intros H. assert (detail = mkPRDetail info (pull_changed_files pr) (pull_additions pr)
                               (pull_deletions pr)
                               match pull_body pr with
                               | Some (c :: body) => c :: body
                               | _ => lit "No description provided."
                               end (pull_mergeable pr) (pull_merged pr)) as ->
    by congruence.
  reflexivity.
Qed.

(** X21. The description shown by [/pr] is never empty and never longer
    than 203 characters: a pull request without a body, or with an empty
    one, is described as "No description provided."; a body of up to 200
    characters is shown whole; a longer one is cut to its first 200
    characters followed by "...". *)
Theorem pr_detail_description
    (now utc_now : Z) (repo : Repository) (number : Z)
    (pr : PullRequest) (detail : PRDetail) :
  repo_get_pull repo number = Ok pr ->
  outcome (GitHubAPI.get_pull_request now repo number) = Ok (Some detail) ->
  exists shown,
    description (format_pr_detail utc_now detail) = Some [Lit shown] /\
    (1 <= List.length shown <= 203)%nat /\
    (pull_body pr = None \/ pull_body pr = Some [] ->
     shown = lit "No description provided.") /\
    (forall body, pull_body pr = Some body -> body <> [] ->
                  (List.length body <= 200)%nat -> shown = body) /\
    (forall body, pull_body pr = Some body -> (200 < List.length body)%nat ->
                  shown = firstn 200 body ++ lit "...").
Proof.
  intros Hget Hout. pose proof (get_pull_request_body _ _ _ _ _ Hget Hout) as Hbody.
  rewrite format_pr_detail_description, Hbody. clear Hbody Hout Hget.
  eexists. split; [reflexivity|].
  destruct (pull_body pr) as [[|c body]|].
  - repeat split; try (cbn; lia); try reflexivity.
    + intros body [= <-] Hne. now contradiction Hne.
    + intros body [= <-]. cbn. lia.
  - set (b := c :: body).
    assert (1 <= List.length b)%nat as Hpos by (subst b; cbn; lia).
    clearbody b. unfold slice_to.
    destruct (Nat.ltb_spec 200 (List.length b)) as [Hlong|Hshort].
    + repeat split.
      * rewrite length_app. change (List.length (lit "...")) with 3%nat. lia.
      * rewrite length_app, length_firstn.
        change (List.length (lit "...")) with 3%nat. lia.
      * intros [H|H]; [discriminate H|].
        injection H as ->. cbn in Hpos. lia.
      * intros body' [= <-]. lia.
      * now intros body' [= <-].
    + repeat split; try lia.
      * intros [H|H]; [discriminate H|].
        injection H as ->. cbn in Hpos. lia.
      * now intros body' [= <-].
      * intros body' [= <-]. lia.
  - repeat split; try (cbn; lia); try reflexivity; intros body H; discriminate H.
Qed.

Lemma pr_detail_description_witness :
  exists detail,
    outcome (GitHubAPI.get_pull_request 0 SAMPLE_REPOSITORY 7) = Ok (Some detail) /\
    description (format_pr_detail 0 detail) = Some [L "No description provided."].
Proof.
  destruct (outcome (GitHubAPI.get_pull_request 0 SAMPLE_REPOSITORY 7))
    as [[detail|]|] eqn:H; try (vm_compute in H; discriminate H).
  exists detail. split; [reflexivity|].
  destruct (pr_detail_description 0 0 SAMPLE_REPOSITORY 7 SAMPLE_REVIEWED_PULL
              detail eq_refl H)
    as (shown & Hd & _ & Hnone & _).
  rewrite Hd, Hnone; [reflexivity | now left].
Defined.

(** ** config.py: validation and the parts of the repository name *)

Lemma existsb_slash (s : str) : existsb (N.eqb CHAR_SLASH) s = true <-> In CHAR_SLASH s.
Proof.
  rewrite existsb_exists. split.
  - intros (c & Hin & Hc). apply N.eqb_eq in Hc. now subst.
  - intros H. exists CHAR_SLASH. split; [exact H | apply N.eqb_refl].
Qed.

Lemma unset_false (value : option str) :
  Config.unset value = false <-> exists c s, value = Some (c :: s).
Proof.
  destruct value as [[|c s]|]; cbn; split; try discriminate; eauto.
  - now intros (c & s & H).
  - now intros (c & s & H).
Qed.

(** What validation has checked when it returns [True]. *)
Lemma validate_true_repo (cfg : Config.Settings) :
  outcome (Config.validate cfg) = Ok true ->
  exists repo, Config.GITHUB_REPO cfg = Some repo /\ In CHAR_SLASH repo.
Proof.
  unfold Config.validate.
  destruct (map fst (filter _ (Config.required_vars cfg))); [|discriminate].
  destruct (Config.GITHUB_REPO cfg) as [repo|]; [|discriminate].
  cbv [bind lift ret log emit outcome snd].
  destruct (existsb (N.eqb CHAR_SLASH) repo) eqn:E; cbn [negb]; [|discriminate].
  intros _. exists repo. split; [reflexivity | now apply existsb_slash].
Qed.

(** X22. Validation never raises, and it accepts exactly the settings in
    which all six required variables are set and not empty and the
    repository name holds a ['/']. *)
Theorem validate_accepts_iff (cfg : Config.Settings) :
  (exists ok, outcome (Config.validate cfg) = Ok ok) /\
  (outcome (Config.validate cfg) = Ok true <->
   Config.unset (Config.DISCORD_BOT_TOKEN cfg) = false /\
   Config.unset (Config.DISCORD_GUILD_ID cfg) = false /\
   Config.unset (Config.DISCORD_CHANNEL_ID cfg) = false /\
   Config.unset (Config.GITHUB_TOKEN cfg) = false /\
   Config.unset (Config.GITHUB_WEBHOOK_SECRET cfg) = false /\
   exists repo, Config.GITHUB_REPO cfg = Some repo /\ repo <> [] /\ In CHAR_SLASH repo).
Proof.
  unfold Config.validate, Config.required_vars. cbn [filter snd].
  destruct (Config.unset (Config.DISCORD_BOT_TOKEN cfg));
    destruct (Config.unset (Config.DISCORD_GUILD_ID cfg));
    destruct (Config.unset (Config.DISCORD_CHANNEL_ID cfg));
    destruct (Config.unset (Config.GITHUB_TOKEN cfg));
    destruct (Config.unset (Config.GITHUB_WEBHOOK_SECRET cfg));
    destruct (Config.GITHUB_REPO cfg) as [[|c repo]|];
    cbn [Config.unset map fst];
    try (split; [now eexists | split; [discriminate | intuition discriminate]]);
    try (split; [now eexists
                | split; [discriminate
                         | intros (_ & _ & _ & _ & _ & r & H & Hr & _);
                           first [discriminate H | congruence]]]).
  cbv [bind lift ret log emit outcome snd].
  destruct (existsb (N.eqb CHAR_SLASH) (c :: repo)) eqn:E; cbn [negb].
  - split; [now eexists|]. split; [|reflexivity]. intros _.
    repeat split. exists (c :: repo). repeat split; [discriminate|].
    now apply existsb_slash.
  - split; [now eexists|]. split; [discriminate|].
    intros (_ & _ & _ & _ & _ & r & [= <-] & _ & Hin).
    apply existsb_slash in Hin. congruence.
Qed.

Lemma split_with_sep (sep : N) (s : str) :
  In sep s ->
  exists first second rest,
    split sep s = first :: second :: rest /\
    ~ In sep first /\ ~ In sep second /\
    (s = first ++ sep :: second \/
     exists more, s = first ++ sep :: second ++ sep :: more).
Proof.
  intros Hin. pose proof (split_pieces_without_sep sep s) as Hf.
  pose proof (join_split sep s) as Hj.
  destruct (split sep s) as [|first [|second rest]] eqn:E.
  - now apply split_nonempty in E.
  - cbn [join] in Hj. rewrite Hj in Hf. apply Forall_inv in Hf. contradiction.
  - pose proof (Forall_inv Hf) as H1.
    pose proof (Forall_inv (Forall_inv_tail Hf)) as H2.
    exists first, second, rest. repeat split; try assumption.
    destruct rest as [|third rest].
    + left. symmetry. exact Hj.
    + right. exists (join [sep] (third :: rest)). symmetry. exact Hj.
Qed.

(** X23. On validated settings [get_repo_parts] does not raise: it returns
    the text before the first ['/'] of the repository name as the owner and
    the text between the first and the second ['/'] (or to the end) as the
    name, dropping whatever follows a second ['/']. On a repository name
    without a ['/'] it raises [IndexError]. *)
Theorem validated_repo_parts (cfg : Config.Settings) (repo : str) :
  Config.GITHUB_REPO cfg = Some repo ->
  (outcome (Config.validate cfg) = Ok true ->
   exists owner name,
     Config.get_repo_parts cfg = Ok (owner, name) /\
     ~ In CHAR_SLASH owner /\ ~ In CHAR_SLASH name /\
     (repo = owner ++ CHAR_SLASH :: name \/
      exists more, repo = owner ++ CHAR_SLASH :: name ++ CHAR_SLASH :: more)) /\
  (~ In CHAR_SLASH repo -> Config.get_repo_parts cfg = Raise IndexError).
Proof.
  intros Hrepo. split.
  - intros Hv. apply validate_true_repo in Hv.
    destruct Hv as (r & Hr & Hin).
    rewrite Hrepo in Hr. injection Hr as <-.
    destruct (split_with_sep _ _ Hin) as (first & second & rest & Hs & H1 & H2 & Hj).
    exists first, second. unfold Config.get_repo_parts. rewrite Hrepo.
    cbv zeta. rewrite Hs. now repeat split.
  - intros Hno. unfold Config.get_repo_parts. rewrite Hrepo.
    cbv zeta. now rewrite split_without_sep.
Qed.

Lemma validated_repo_parts_witness :
  (exists owner name,
      Config.get_repo_parts (Config.sample "octo/tools/extra") = Ok (owner, name) /\
      ~ In CHAR_SLASH owner /\ ~ In CHAR_SLASH name) /\
  Config.get_repo_parts (Config.sample "tools") = Raise IndexError.
Proof.
  split.
  - destruct (validated_repo_parts (Config.sample "octo/tools/extra")
                (lit "octo/tools/extra") eq_refl) as [Hv _].
    destruct (Hv eq_refl) as (owner & name & Hparts & Ho & Hn & _).
    now exists owner, name.
  - destruct (validated_repo_parts (Config.sample "tools") (lit "tools") eq_refl)
      as [_ Hno].
    apply Hno. vm_compute. intuition discriminate.
Defined.

(** ** [handle_webhook]: the chat client and the order of the checks *)

Lemma without_submits_id (t : list effect) :
  submitted t = [] -> without_submits t = t.
Proof.
  induction t as [|ev t IH]; [reflexivity|].
  unfold submitted, without_submits in *. cbn [flat_map filter].
  destruct ev; cbn [app]; try discriminate; intros H; now rewrite IH.
Qed.

Lemma without_submits_app (t1 t2 : list effect) :
  without_submits (t1 ++ t2) = without_submits t1 ++ without_submits t2.
Proof. apply filter_app. Qed.

Lemma submitted_without_submits (t : list effect) :
  submitted (without_submits t) = [].
Proof.
  induction t as [|ev t IH]; [reflexivity|].
  unfold submitted, without_submits in *. cbn [filter].
  destruct ev; cbn [flat_map app]; exact IH.
Qed.

(** X24. Without a chat client the handler does exactly what it does
    with one whose hand-off call returns, except that the notification is
    not handed over: the answer and the log are the same, and the drop is
    not logged. A chat client whose hand-off call raises, as while its
    loop is not running, is another matter: a notification that was
    produced is then answered 500, with the error logged and nothing
    handed over, where the handler without a chat client answers 200. *)
Theorem handle_webhook_without_chat_client
    (secret : list byte) (call : result unit) (now : Z) (request : Request) :
  let offline := mkWorld secret false call now in
  let online := mkWorld secret true (Ok tt) now in
  (outcome (handle_webhook offline request) = outcome (handle_webhook online request) /\
   trace (handle_webhook offline request) =
     without_submits (trace (handle_webhook online request)) /\
   submitted (trace (handle_webhook offline request)) = []) /\
  (forall (x : exn) (event_type : str) (payload : json) (e : Embed),
      let starting := mkWorld secret true (Raise x) now in
      accepted starting request event_type payload ->
      outcome (dispatch_event now event_type payload) = Ok (Some e) ->
      outcome (handle_webhook starting request) = Ok RESPONSE_INTERNAL_ERROR /\
      submitted (trace (handle_webhook starting request)) = [] /\
      In (ERROR_LOG x) (trace (handle_webhook starting request)) /\
      outcome (handle_webhook offline request) = Ok RESPONSE_SUCCESS).
Proof.
  cbv zeta. split.
  - assert (outcome (handle_webhook (mkWorld secret false call now) request) =
            outcome (handle_webhook (mkWorld secret true (Ok tt) now) request) /\
            trace (handle_webhook (mkWorld secret false call now) request) =
            without_submits
              (trace (handle_webhook (mkWorld secret true (Ok tt) now) request)))
      as [Ho Ht].
    2: { split; [exact Ho | split; [exact Ht|]].
         rewrite Ht. apply submitted_without_submits. }
    pose proof (verify_signature_submits_nothing secret (data request)
                  (headers_get request "X-Hub-Signature-256")) as Hs.
    apply without_submits_id in Hs.
    unfold handle_webhook, process_event.
    cbn [GITHUB_WEBHOOK_SECRET discord_bot hand_off utcnow].
    destruct (verify_signature _ _ _) as [tv [[|]|x]]; cbn [trace fst] in Hs.
    + destruct (headers_get request "X-GitHub-Event") as [[|c et]|].
      * cbv [bind ret log emit outcome trace fst snd negb].
        split; [reflexivity|].
        rewrite without_submits_app, Hs. reflexivity.
      * destruct (request_json request) as [payload|x].
        -- pose proof (handlers_log_only now (c :: et) payload) as Hd.
           apply submitted_logs, without_submits_id in Hd.
           cbv [bind lift ret log emit try_except].
           destruct (truthy payload);
             destruct (dispatch_event now (c :: et) payload) as [td [[e|]|x]];
             cbn [trace fst] in Hd;
             cbv [outcome trace fst snd negb];
             (split; [reflexivity|]);
             rewrite ?without_submits_app, ?Hs, ?Hd;
             unfold without_submits; cbn [filter]; rewrite ?app_nil_r; reflexivity.
        -- cbv [bind lift ret log emit outcome trace fst snd negb].
           split; [reflexivity|].
           rewrite ?without_submits_app, Hs. reflexivity.
      * cbv [bind ret log emit outcome trace fst snd negb].
        split; [reflexivity|].
        rewrite without_submits_app, Hs. reflexivity.
    + cbv [bind ret log emit outcome trace fst snd negb].
      split; [reflexivity|].
      rewrite without_submits_app, Hs. reflexivity.
    + cbv [bind ret log emit outcome trace fst snd negb].
      split; [reflexivity | now rewrite Hs].
  - intros x event_type payload e Hacc Hd.
    assert (accepted (mkWorld secret false call now) request event_type payload)
      as Hacc' by exact Hacc.
    destruct (handle_webhook_accepted _ request event_type payload Hacc) as [Ho Hs].
    destruct (handle_webhook_accepted _ request event_type payload Hacc') as [Ho' _].
    pose proof (process_event_cases (mkWorld secret true (Raise x) now)
                  event_type payload) as Hp.
    pose proof (process_event_cases (mkWorld secret false call now)
                  event_type payload) as Hp'.
    cbn [utcnow] in Hp, Hp'. rewrite Hd in Hp, Hp'.
    cbn [delivery discord_bot hand_off] in Hp, Hp'.
    destruct Hp as (Hp1 & Hp2 & Hp3). destruct Hp' as [Hp1' _].
    rewrite Ho, Hs, Ho'. repeat split; try assumption.
    now apply (handle_webhook_accepted_In _ request event_type payload).
Qed.

Lemma handle_webhook_without_chat_client_witness :
  outcome (handle_webhook STARTING_WORLD PUSH_OF_TWO_COMMITS)
    = Ok RESPONSE_INTERNAL_ERROR /\
  submitted (trace (handle_webhook STARTING_WORLD PUSH_OF_TWO_COMMITS)) = [] /\
  outcome (handle_webhook (mkWorld (ascii_bytes "s3cret") false (Ok tt) 1700000000)
             PUSH_OF_TWO_COMMITS) = Ok RESPONSE_SUCCESS.
Proof.
  destruct (outcome (dispatch_event 1700000000 (lit "push")
                       (sample_push [sample_commit "Fix the parser";
                                     sample_commit "Add tests"])))
    as [[e|]|] eqn:Hd; try (vm_compute in Hd; discriminate Hd).
  destruct (handle_webhook_without_chat_client (ascii_bytes "s3cret") (Ok tt)
              1700000000 PUSH_OF_TWO_COMMITS) as [_ Hstarting].
  destruct (Hstarting AttributeError (lit "push")
              (sample_push [sample_commit "Fix the parser"; sample_commit "Add tests"])
              e) as (Ho & Hs & _ & Hoff).
  - unfold accepted. evaluate. discriminate.
  - exact Hd.
  - repeat split; assumption.
Defined.

(** X25. The checks of the webhook come in a fixed order, each ending the
    request: a rejected signature is answered 401 whatever else the request
    holds; then a missing or empty event type is answered 400 "No event
    type" with the body left unparsed; then a body that parses to an empty
    or false value, such as [{}], is answered 400 "No payload"; a body
    that fails to parse is not answered by the handler at all, the
    exception leaves it. *)
Theorem handle_webhook_checks_in_order (w : World) (request : Request) :
  let verified :=
    outcome (verify_signature (GITHUB_WEBHOOK_SECRET w) (data request)
               (headers_get request "X-Hub-Signature-256")) in
  let event_type := headers_get request "X-GitHub-Event" in
  (verified = Ok false ->
   outcome (handle_webhook w request) = Ok RESPONSE_INVALID_SIGNATURE /\
   never_parsed (handle_webhook w request)) /\
  (verified = Ok true -> event_type = None \/ event_type = Some [] ->
   outcome (handle_webhook w request) = Ok RESPONSE_NO_EVENT_TYPE /\
   never_parsed (handle_webhook w request)) /\
  (forall c et payload,
      verified = Ok true -> event_type = Some (c :: et) ->
      request_json request = Ok payload -> truthy payload = false ->
      outcome (handle_webhook w request) = Ok RESPONSE_NO_PAYLOAD /\
      submitted (trace (handle_webhook w request)) = []) /\
  (forall c et x,
      verified = Ok true -> event_type = Some (c :: et) ->
      request_json request = Raise x ->
      outcome (handle_webhook w request) = Raise x).
Proof.
  cbv zeta. pose proof (handle_webhook_responses w request) as H.
  split; [|split; [|split]].
  - intros Hv. rewrite Hv in H. destruct H as (Ho & Hn & _). now split.
  - intros Hv [E|E]; rewrite Hv, E in H; exact H.
  - intros c et payload Hv He Hj Ht. split.
    + rewrite Hv, He, Hj, Ht in H. exact H.
    + clear H.
      pose proof (verify_signature_submits_nothing (GITHUB_WEBHOOK_SECRET w)
                    (data request) (headers_get request "X-Hub-Signature-256")) as Hs.
      unfold handle_webhook. rewrite He, Hj.
      destruct (verify_signature _ _ _) as [tv rv]. cbn [outcome snd trace fst] in *.
      subst rv. cbv [bind lift ret log emit]. rewrite Ht.
      cbv [trace fst snd negb]. rewrite !submitted_app, Hs. reflexivity.
  - intros c et x Hv He Hj. rewrite Hv, He, Hj in H. exact H.
Qed.

Lemma handle_webhook_checks_in_order_witness :
  outcome (handle_webhook SAMPLE_WORLD EMPTY_OBJECT) = Ok RESPONSE_NO_PAYLOAD /\
  submitted (trace (handle_webhook SAMPLE_WORLD EMPTY_OBJECT)) = [].
Proof.
  destruct (handle_webhook_checks_in_order SAMPLE_WORLD EMPTY_OBJECT)
    as (_ & _ & Hempty & _).
  apply (Hempty 112%N (lit "ush") (D_ [])); [vm_compute | | | ]; reflexivity.
Defined.
